(** * Terminal emulation core: a shallow embedding and its properties

    The definitions below follow, function by function, these sources:
    - [src/host/getset.cpp]            (module [GetSet])
    - [src/host/selection.cpp]         (module [Sel])
    - [src/buffer/out/TextColor.h]     (module [Color])
    - [src/cascadia/TerminalCore/TerminalDispatch.cpp]   (module [Dispatch])
    - [src/cascadia/PublicTerminalCore/HwndTerminal.cpp] (module [Hwnd])
    - [src/renderer/vt/math.cpp]       (module [VtMath])

    The modules [SelMore], [HwndMore], [GetSetMore], [ColorMore] and
    [DispatchMore] carry on with further functions of the same files.

    Machine integers are integers of [Z] with their range or wrap-around
    written out; mutable objects are records threaded through the calls;
    calls into collaborators that only have side effects are recorded in a
    log, or are parameters of a [Section]. *)

From Stdlib Require Import ZArith Lia Bool List.
From stdpp Require Import base list list_numbers.
Import ListNotations.

#[local] Open Scope Z_scope.

(** ** Win32 scalar types, [COORD], [SMALL_RECT] and status codes *)

Module Win.

(** [SHORT] is a signed 16-bit integer; [SHORT_MAX] is its largest value. *)
Definition SHORT_MIN : Z := -32768.
Definition SHORT_MAX : Z := 32767.

Definition is_SHORT (z : Z) : Prop := SHORT_MIN <= z <= SHORT_MAX.

(** Conversion of an [int] to [SHORT]: two's complement wrap-around. *)
Definition to_SHORT (z : Z) : Z := (z + 32768) mod 65536 - 32768.

(** [unsigned int]: arithmetic modulo 2^32. *)
Definition UINT_MAX : Z := 4294967295.
Definition wrap32 (z : Z) : Z := z mod 4294967296.

(** [size_t] on the 64-bit targets of the project. *)
Definition SIZE_MAX : Z := 18446744073709551615.
Definition is_size_t (z : Z) : Prop := 0 <= z <= SIZE_MAX.

Record COORD := mkCOORD { X : Z; Y : Z }.

Record SMALL_RECT := mkRECT { Left : Z; Top : Z; Right : Z; Bottom : Z }.

Definition COLORREF := Z.

(** The status codes the modelled functions return. *)
Inductive HRESULT :=
| S_OK
| E_INVALIDARG
| E_FAIL_other (code : Z).

Definition SUCCEEDED (hr : HRESULT) : bool :=
  match hr with S_OK => true | _ => false end.

Inductive NTSTATUS :=
| STATUS_SUCCESS
| STATUS_INVALID_PARAMETER
| STATUS_other (code : Z).

Definition NT_SUCCESS (s : NTSTATUS) : bool :=
  match s with STATUS_SUCCESS => true | _ => false end.

Lemma to_SHORT_id z : is_SHORT z -> to_SHORT z = z.
Proof.
  unfold is_SHORT, to_SHORT, SHORT_MIN, SHORT_MAX. intros Hz.
  rewrite Z.mod_small; lia.
Qed.

Lemma wrap32_small z : 0 <= z <= UINT_MAX -> wrap32 z = z.
Proof. unfold wrap32, UINT_MAX. intros Hz. apply Z.mod_small. lia. Qed.

Lemma wrap32_range z : 0 <= wrap32 z <= UINT_MAX.
Proof.
  unfold wrap32, UINT_MAX.
  pose proof (Z.mod_pos_bound z 4294967296 ltac:(lia)). lia.
Qed.

End Win.

(** ** [HwndTerminal]: counting clicks and starting a selection *)

Module Hwnd.
Import Win.

(** [til::point]: a pair of [ptrdiff_t]. *)
Record point := mkPoint { px : Z; py : Z }.

(** [til::size]. *)
Record size := mkSize { width : Z; height : Z }.

Definition point_eqb (a b : point) : bool :=
  (px a =? px b) && (py a =? py b).

Lemma point_eqb_eq a b : point_eqb a b = true <-> a = b.
Proof.
  destruct a as [ax ay], b as [bx b_y]. unfold point_eqb. simpl.
  rewrite andb_true_iff, !Z.eqb_eq. split.
  - intros [-> ->]. reflexivity.
  - intros H. injection H as -> ->. split; reflexivity.
Qed.

(** [point != _lastMouseClickPos], the right operand a [std::optional]:
    an empty optional differs from every point. *)
Definition point_ne_opt (p : point) (o : option point) : bool :=
  match o with
  | Some q => negb (point_eqb p q)
  | None => true
  end.

(** [GET_X_LPARAM] and [GET_Y_LPARAM]: the low and the high word of the
    message parameter, each read as a signed 16-bit number. *)
Definition LOWORD (l : Z) : Z := Z.land l 65535.
Definition HIWORD (l : Z) : Z := Z.land (Z.shiftr l 16) 65535.
Definition GET_X_LPARAM (l : Z) : Z := to_SHORT (LOWORD l).
Definition GET_Y_LPARAM (l : Z) : Z := to_SHORT (HIWORD l).

Definition cursorPosition (lParam : Z) : point :=
  mkPoint (GET_X_LPARAM lParam) (GET_Y_LPARAM lParam).

(** The fields of [HwndTerminal] that the click handling reads and writes
    (HwndTerminal.hpp).  Time points and the multi-click time are counted
    in one unit of the steady clock. *)
Record HwndTerminal := mkHwnd {
  _multiClickTime : Z;
  _multiClickCounter : Z;
  _lastMouseClickTimestamp : Z;
  _lastMouseClickPos : option point;
  _singleClickTouchdownPos : option point
}.

(** [HwndTerminal::_NumberOfClicks]: updates the counter and returns it. *)
Definition _NumberOfClicks (p : point) (timestamp : Z) (h : HwndTerminal)
  : Z * HwndTerminal :=
  let delta := timestamp - _lastMouseClickTimestamp h in
  let counter :=
    if point_ne_opt p (_lastMouseClickPos h) || (delta >? _multiClickTime h)
    then 1
    else wrap32 (_multiClickCounter h + 1) in
  (counter,
   mkHwnd (_multiClickTime h) counter (_lastMouseClickTimestamp h)
          (_lastMouseClickPos h) (_singleClickTouchdownPos h)).

Definition MAX_CLICK_COUNT : Z := 3.

(** The [multiClickMapper] expression of [_StartSelection], in the
    arithmetic of [unsigned int]. *)
Definition multiClickMapper (clickCount : Z) : Z :=
  if clickCount >? MAX_CLICK_COUNT
  then
    let sum := wrap32 (clickCount + MAX_CLICK_COUNT) in
    let pred := wrap32 (sum - 1) in
    wrap32 (pred mod MAX_CLICK_COUNT + 1)
  else clickCount.

Inductive SelectionExpansionMode := Cell | Word | Line.

(** What [_StartSelection] asks of the terminal and of the renderer. *)
Inductive Call :=
| SetBlockSelection (altPressed : bool)
| MultiClickSelection (at_cell : point) (mode : SelectionExpansionMode)
| ClearSelection
| TriggerSelection.

Section StartSelection.

(** [cursorPosition / fontSize] (til/point.h is not among the sources):
    [None] when the checked division throws. *)
Variable point_div : point -> size -> option point.

(** The status [CATCH_RETURN] makes of the exception of the division. *)
Variable hr_of_exception : HRESULT.

(** [HwndTerminal::_StartSelection].  [now1] and [now2] are the two
    readings of [std::chrono::steady_clock::now()]; the result is the
    status, the new object and the calls made, in order.  The write lock
    of the terminal is held from before the first call to the return. *)
Definition _StartSelection (lParam : Z) (altPressed : bool)
    (fontSize : size) (now1 now2 : Z) (h : HwndTerminal)
  : HRESULT * HwndTerminal * list Call :=
  let pos := cursorPosition lParam in
  let log0 := [SetBlockSelection altPressed] in
  let '(clickCount, h1) := _NumberOfClicks pos now1 h in
  let mapped := multiClickMapper clickCount in
  if mapped =? 3 then
    match point_div pos fontSize with
    | Some cell =>
        (S_OK, h1, log0 ++ [MultiClickSelection cell Line; TriggerSelection])
    | None => (hr_of_exception, h1, log0)
    end
  else if mapped =? 2 then
    match point_div pos fontSize with
    | Some cell =>
        (S_OK, h1, log0 ++ [MultiClickSelection cell Word; TriggerSelection])
    | None => (hr_of_exception, h1, log0)
    end
  else
    (S_OK,
     mkHwnd (_multiClickTime h1) (_multiClickCounter h1) now2
            (Some pos) (Some pos),
     log0 ++ [ClearSelection; TriggerSelection]).

End StartSelection.

(** The click lands where the last recorded click did, within the
    multi-click time. *)
Definition repeated_click (p : point) (timestamp : Z) (h : HwndTerminal)
  : Prop :=
  _lastMouseClickPos h = Some p /\
  timestamp - _lastMouseClickTimestamp h <= _multiClickTime h.

Lemma repeated_click_test p t h :
  point_ne_opt p (_lastMouseClickPos h)
    || (t - _lastMouseClickTimestamp h >? _multiClickTime h) = false
  <-> repeated_click p t h.
Proof.
  unfold repeated_click, point_ne_opt.
  rewrite orb_false_iff, Z.gtb_ltb, Z.ltb_ge.
  destruct (_lastMouseClickPos h) as [q|].
  - rewrite negb_false_iff, point_eqb_eq. split.
    + intros [-> Hle]. split; [reflexivity | exact Hle].
    + intros [Heq Hle]. injection Heq as ->. split; [reflexivity | exact Hle].
  - split; intros [Hd _]; discriminate Hd.
Qed.

(** The division of [til::point] by [til::size] used in the examples:
    component-wise, truncating, and failing on a zero divisor. *)
Definition til_div (p : point) (s : size) : option point :=
  if (width s =? 0) || (height s =? 0) then None
  else Some (mkPoint (Z.quot (px p) (width s)) (Z.quot (py p) (height s))).

(** Below the wrap-around of [unsigned int] the mapper cycles 1, 2, 3. *)
Lemma multiClickMapper_cycle n :
  1 <= n <= UINT_MAX - 2 ->
  multiClickMapper n = (n - 1) mod 3 + 1 /\
  (multiClickMapper n = 1 \/ multiClickMapper n = 2 \/ multiClickMapper n = 3).
Proof.
  unfold UINT_MAX. intros Hn.
  assert (Hf : multiClickMapper n = (n - 1) mod 3 + 1).
  { unfold multiClickMapper, MAX_CLICK_COUNT.
    destruct (Z.gtb_spec n 3) as [Hgt | Hle].
    - cbv zeta. unfold wrap32 at 2 3. rewrite Zminus_mod_idemp_l.
      fold (wrap32 (n + 3 - 1)).
      rewrite (wrap32_small (n + 3 - 1)) by (unfold UINT_MAX; lia).
      pose proof (Z.mod_pos_bound (n + 3 - 1) 3 ltac:(lia)) as Hb.
      rewrite wrap32_small by (unfold UINT_MAX; lia).
      replace (n + 3 - 1) with (n - 1 + 1 * 3) by lia.
      rewrite Z.mod_add by lia. reflexivity.
    - assert (Hc : n = 1 \/ n = 2 \/ n = 3) by lia.
      destruct Hc as [-> | [-> | ->]]; reflexivity. }
  split; [exact Hf |].
  rewrite Hf. pose proof (Z.mod_pos_bound (n - 1) 3 ltac:(lia)). lia.
Qed.

Lemma multiClickMapper_small n : n <= 3 -> multiClickMapper n = n.
Proof.
  intros Hn. unfold multiClickMapper, MAX_CLICK_COUNT.
  destruct (Z.gtb_spec n 3); [lia | reflexivity].
Qed.

(** C8, as worded, fails.  Three clicks on pixel (10, 20), at 0, 400
    and 700 on the steady clock, with a multi-click time of 500, on a
    fresh object.  The second is a double click and asks for a Word
    expansion.  The third lands where the second did, 300 after it and
    so within the multi-click time of the previous click; yet the
    counter is set to 1 and the selection is cleared, where a count of
    3 and a Line expansion were due: the interval is taken from the
    time recorded at the first click, which the double click did not
    refresh. *)
Lemma third_click_not_line :
  let h0 := mkHwnd 500 0 0 None None in
  let press t h :=
    _StartSelection til_div E_INVALIDARG 1310730 false (mkSize 8 16)
                    t t h in
  let h1 := snd (fst (press 0 h0)) in
  let r2 := press 400 h1 in
  let h2 := snd (fst r2) in
  let r3 := press 700 h2 in
  r2 = (S_OK,
        mkHwnd 500 2 0 (Some (mkPoint 10 20)) (Some (mkPoint 10 20)),
        [SetBlockSelection false; MultiClickSelection (mkPoint 1 1) Word;
         TriggerSelection]) /\
  cursorPosition 1310730 = mkPoint 10 20 /\
  700 - 400 <= _multiClickTime h2 /\
  _multiClickCounter (snd (fst r3)) = 1 /\
  snd r3 = [SetBlockSelection false; ClearSelection; TriggerSelection] /\
  ~ In (MultiClickSelection (mkPoint 1 1) Line) (snd r3).
Proof.
  vm_compute. repeat split; try discriminate.
  intros [H | [H | [H | []]]]; discriminate H.
Qed.

(** C8, amended.  The click is compared with the record that the last
    click handled as a single click left: its position, and its time,
    which double and triple clicks do not refresh.  A click at the
    recorded position and within the multi-click time of the recorded
    time increments the counter (as an [unsigned int]); when the count
    is 2 the handler asks for a Word expansion and when it is 3 for a
    Line expansion, at the cell the division yields, and leaves the
    touch-down position and the record alone.  A click elsewhere, or
    later than the multi-click time after the recorded time, sets the
    counter to 1, clears the selection and records the position as the
    touch-down of a drag. *)
Theorem StartSelection_multi_click
    (point_div : point -> size -> option point) (hrx : HRESULT)
    (lParam : Z) (altPressed : bool) (fontSize : size) (now1 now2 : Z)
    (h : HwndTerminal) :
  let p := cursorPosition lParam in
  let r :=
    _StartSelection point_div hrx lParam altPressed fontSize now1 now2 h in
  let bumped :=
    mkHwnd (_multiClickTime h) (wrap32 (_multiClickCounter h + 1))
           (_lastMouseClickTimestamp h) (_lastMouseClickPos h)
           (_singleClickTouchdownPos h) in
  (repeated_click p now1 h ->
     _multiClickCounter (snd (fst r)) = wrap32 (_multiClickCounter h + 1) /\
     (wrap32 (_multiClickCounter h + 1) = 2 ->
      forall cell, point_div p fontSize = Some cell ->
        r = (S_OK, bumped,
             [SetBlockSelection altPressed; MultiClickSelection cell Word;
              TriggerSelection])) /\
     (wrap32 (_multiClickCounter h + 1) = 3 ->
      forall cell, point_div p fontSize = Some cell ->
        r = (S_OK, bumped,
             [SetBlockSelection altPressed; MultiClickSelection cell Line;
              TriggerSelection]))) /\
  (~ repeated_click p now1 h ->
     r = (S_OK,
          mkHwnd (_multiClickTime h) 1 now2 (Some p) (Some p),
          [SetBlockSelection altPressed; ClearSelection; TriggerSelection])).
Proof.
  intros p r bumped. subst r bumped. unfold _StartSelection, _NumberOfClicks.
  fold p. split.
  - intros Hrep. apply repeated_click_test in Hrep. rewrite Hrep.
    split; [| split].
    + destruct (multiClickMapper _ =? 3);
        [| destruct (multiClickMapper _ =? 2)];
        try destruct (point_div p fontSize); reflexivity.
    + intros Hc cell Hdiv. rewrite Hc, Hdiv. reflexivity.
    + intros Hc cell Hdiv. rewrite Hc, Hdiv. reflexivity.
  - intros Hnot.
    destruct (point_ne_opt p (_lastMouseClickPos h)
              || (now1 - _lastMouseClickTimestamp h >? _multiClickTime h))
      eqn:Htest.
    + reflexivity.
    + exfalso. apply Hnot. apply repeated_click_test. exact Htest.
Qed.

(** A second click, 200 units after the first, at pixel (10, 20) with an
    8 by 16 font. *)
Lemma StartSelection_multi_click_witness :
  let h := mkHwnd 500 1 1000 (Some (mkPoint 10 20)) (Some (mkPoint 10 20)) in
  repeated_click (cursorPosition 1310730) 1200 h /\
  _StartSelection til_div E_INVALIDARG 1310730 false (mkSize 8 16) 1200 1201 h
  = (S_OK,
     mkHwnd 500 2 1000 (Some (mkPoint 10 20)) (Some (mkPoint 10 20)),
     [SetBlockSelection false; MultiClickSelection (mkPoint 1 1) Word;
      TriggerSelection]).
Proof.
  intros h.
  assert (Hrep : repeated_click (cursorPosition 1310730) 1200 h).
  { split; [reflexivity | simpl; lia]. }
  split; [exact Hrep |].
  destruct (StartSelection_multi_click til_div E_INVALIDARG 1310730 false
              (mkSize 8 16) 1200 1201 h) as [Hsame _].
  destruct (Hsame Hrep) as [_ [Hword _]].
  exact (Hword eq_refl (mkPoint 1 1) eq_refl).
Defined.

(** C10.  At the largest [unsigned int] the sum [clickCount +
    MAX_CLICK_COUNT] wraps around: the mapper yields 2 where
    [((n - 1) mod 3) + 1] is 3, and [_StartSelection] asks for a Word
    expansion on that click; so the mapper is not [((n - 1) mod 3) + 1]
    for every count from 1 on. *)
Theorem multiClickMapper_wraps_at_UINT_MAX :
  multiClickMapper 4294967295 = 2 /\
  (4294967295 - 1) mod 3 + 1 = 3 /\
  (let h := mkHwnd 500 4294967294 1000 (Some (mkPoint 10 20)) None in
   _StartSelection til_div E_INVALIDARG 1310730 false (mkSize 8 16)
                   1200 1201 h
   = (S_OK,
      mkHwnd 500 4294967295 1000 (Some (mkPoint 10 20)) None,
      [SetBlockSelection false; MultiClickSelection (mkPoint 1 1) Word;
       TriggerSelection])) /\
  ~ (forall n : Z,
        1 <= n <= UINT_MAX -> multiClickMapper n = (n - 1) mod 3 + 1).
Proof.
  assert (Hcode : multiClickMapper 4294967295 = 2) by reflexivity.
  assert (Hclaim : (4294967295 - 1) mod 3 + 1 = 3) by reflexivity.
  split; [exact Hcode |]. split; [exact Hclaim |]. split; [reflexivity |].
  intros Hall.
  specialize (Hall 4294967295 ltac:(unfold UINT_MAX; lia)).
  rewrite Hcode, Hclaim in Hall. discriminate Hall.
Qed.

End Hwnd.

(** ** [TerminalDispatch]: resets and private modes *)

Module Dispatch.
Import Win.

(** [DispatchTypes::EraseType]. *)
Inductive EraseType := ToEnd | FromBeginning | All | Scrollback.

(** A call made inside a function-level [try] block either returns or
    throws; [CATCH_LOG_RETURN_FALSE] turns the exception into [false]. *)
Inductive Outcome := Returned (b : bool) | Thrown.

(** The part of the interface [ITerminalApi] that the resets and the
    private modes use, over the state [T] of the terminal behind it.
    The methods whose result the dispatcher discards change the state
    only. *)
Module Api.
Class ITerminalApi (T : Type) := {
  SetCursorPosition : Z -> Z -> T -> Outcome * T;
  EraseInDisplay : EraseType -> T -> Outcome * T;
  SetCursorVisibility : bool -> T -> bool * T;
  EnableCursorBlinking : bool -> T -> bool * T;
  SetScreenMode : bool -> T -> bool * T;
  SetKeypadMode : bool -> T -> T;
  SetCursorKeysMode : bool -> T -> T;
  EnableWin32InputMode : bool -> T -> T;
  EnableVT200MouseMode : bool -> T -> T;
  EnableUTF8ExtendedMouseMode : bool -> T -> T;
  EnableSGRExtendedMouseMode : bool -> T -> T;
  EnableButtonEventMouseMode : bool -> T -> T;
  EnableAnyEventMouseMode : bool -> T -> T;
  EnableAlternateScrollMode : bool -> T -> T
}.
End Api.

(** The dispatcher holds a reference to the terminal: its methods are
    state transformers that return a value. *)
Definition M (T A : Type) : Type := T -> A * T.

Definition ret {T A : Type} (a : A) : M T A := fun s => (a, s).

Definition bind {T A B : Type} (c : M T A) (k : A -> M T B) : M T B :=
  fun s => let '(a, s') := c s in k a s'.

Notation "'call' x <- c ;; k" := (bind c (fun x => k))
  (at level 10, x name, c at level 99, k at level 200).

Definition catch_false {T : Type} (c : T -> Outcome * T) : M T bool :=
  fun s =>
    let '(o, s') := c s in
    (match o with Returned b => b | Thrown => false end, s').

Definition then_true {T : Type} (f : T -> T) : M T bool :=
  fun s => (true, f s).

(** The numbers of the private modes ([DispatchTypes::PrivateModeParams],
    whose declaration is not among the sources). *)
Record PrivateModeParams := mkModes {
  DECCKM_CursorKeysMode : Z;
  DECSCNM_ScreenMode : Z;
  VT200_MOUSE_MODE : Z;
  BUTTON_EVENT_MOUSE_MODE : Z;
  ANY_EVENT_MOUSE_MODE : Z;
  UTF8_EXTENDED_MODE : Z;
  SGR_EXTENDED_MODE : Z;
  ALTERNATE_SCROLL : Z;
  DECTCEM_TextCursorEnableMode : Z;
  ATT610_StartCursorBlink : Z;
  W32IM_Win32InputMode : Z
}.

Section TerminalDispatch.

Context {T : Type} {api : Api.ITerminalApi T}.

(** [TerminalDispatch::SetGraphicsRendition] is defined in
    TerminalDispatchGraphics.cpp, which is not among the sources. *)
Variable SetGraphicsRendition : list Z -> M T bool.

(** [TerminalDispatch::CursorPosition]: [SizeTToShort] of both
    arguments, [ShortSub] of 1 from both, then the API call. *)
Definition CursorPosition (line column : Z) : M T bool :=
  if (column <=? SHORT_MAX) && (line <=? SHORT_MAX) then
    let x := column - 1 in
    let y := line - 1 in
    if (SHORT_MIN <=? x) && (SHORT_MIN <=? y)
    then catch_false (Api.SetCursorPosition x y)
    else ret false
  else ret false.

Definition CursorVisibility (isVisible : bool) : M T bool :=
  Api.SetCursorVisibility isVisible.

Definition EnableCursorBlinking (enable : bool) : M T bool :=
  Api.EnableCursorBlinking enable.

Definition EraseInDisplay (eraseType : EraseType) : M T bool :=
  catch_false (Api.EraseInDisplay eraseType).

Definition SetKeypadMode (fApplicationMode : bool) : M T bool :=
  then_true (Api.SetKeypadMode fApplicationMode).

Definition SetCursorKeysMode (applicationMode : bool) : M T bool :=
  then_true (Api.SetCursorKeysMode applicationMode).

Definition SetScreenMode (reverseMode : bool) : M T bool :=
  Api.SetScreenMode reverseMode.

Definition EnableWin32InputMode (win32Mode : bool) : M T bool :=
  then_true (Api.EnableWin32InputMode win32Mode).

Definition EnableVT200MouseMode (enabled : bool) : M T bool :=
  then_true (Api.EnableVT200MouseMode enabled).

Definition EnableUTF8ExtendedMouseMode (enabled : bool) : M T bool :=
  then_true (Api.EnableUTF8ExtendedMouseMode enabled).

Definition EnableSGRExtendedMouseMode (enabled : bool) : M T bool :=
  then_true (Api.EnableSGRExtendedMouseMode enabled).

Definition EnableButtonEventMouseMode (enabled : bool) : M T bool :=
  then_true (Api.EnableButtonEventMouseMode enabled).

Definition EnableAnyEventMouseMode (enabled : bool) : M T bool :=
  then_true (Api.EnableAnyEventMouseMode enabled).

Definition EnableAlternateScroll (enabled : bool) : M T bool :=
  then_true (Api.EnableAlternateScrollMode enabled).

(** [TerminalDispatch::_PrivateModeParamsHelper]: the [switch] over the
    mode number, the labels tried in the order of the source. *)
Definition _PrivateModeParamsHelper (modes : PrivateModeParams)
    (param : Z) (enable : bool) : M T bool :=
  if param =? DECCKM_CursorKeysMode modes then SetCursorKeysMode enable
  else if param =? DECSCNM_ScreenMode modes then SetScreenMode enable
  else if param =? VT200_MOUSE_MODE modes then EnableVT200MouseMode enable
  else if param =? BUTTON_EVENT_MOUSE_MODE modes
       then EnableButtonEventMouseMode enable
  else if param =? ANY_EVENT_MOUSE_MODE modes
       then EnableAnyEventMouseMode enable
  else if param =? UTF8_EXTENDED_MODE modes
       then EnableUTF8ExtendedMouseMode enable
  else if param =? SGR_EXTENDED_MODE modes
       then EnableSGRExtendedMouseMode enable
  else if param =? ALTERNATE_SCROLL modes then EnableAlternateScroll enable
  else if param =? DECTCEM_TextCursorEnableMode modes
       then CursorVisibility enable
  else if param =? ATT610_StartCursorBlink modes
       then EnableCursorBlinking enable
  else if param =? W32IM_Win32InputMode modes
       then EnableWin32InputMode enable
  else ret false.

Definition SetPrivateMode (modes : PrivateModeParams) (param : Z)
  : M T bool :=
  _PrivateModeParamsHelper modes param true.

Definition ResetPrivateMode (modes : PrivateModeParams) (param : Z)
  : M T bool :=
  _PrivateModeParamsHelper modes param false.

(** [TerminalDispatch::SoftReset]: each line of the source is
    [success = f(..) && success]. *)
Definition SoftReset : M T bool :=
  call success <- CursorVisibility true ;;
  call b <- SetCursorKeysMode false ;;
  let success := b && success in
  call b <- SetKeypadMode false ;;
  let success := b && success in
  call b <- SetGraphicsRendition [] ;;
  let success := b && success in
  ret success.

(** [TerminalDispatch::HardReset]. *)
Definition HardReset : M T bool :=
  let success := true in
  call b <- SoftReset ;;
  let success := b && success in
  call b <- EraseInDisplay All ;;
  let success := b && success in
  call b <- EraseInDisplay Scrollback ;;
  let success := b && success in
  call b <- SetScreenMode false ;;
  let success := b && success in
  call b <- CursorPosition 1 1 ;;
  let success := b && success in
  ret success.

End TerminalDispatch.

(** The setter the [switch] pairs with each recognized mode number. *)
Definition setters {T : Type} {api : Api.ITerminalApi T}
    (modes : PrivateModeParams) : list (Z * (bool -> M T bool)) :=
  [ (DECCKM_CursorKeysMode modes, SetCursorKeysMode);
    (DECSCNM_ScreenMode modes, SetScreenMode);
    (VT200_MOUSE_MODE modes, EnableVT200MouseMode);
    (BUTTON_EVENT_MOUSE_MODE modes, EnableButtonEventMouseMode);
    (ANY_EVENT_MOUSE_MODE modes, EnableAnyEventMouseMode);
    (UTF8_EXTENDED_MODE modes, EnableUTF8ExtendedMouseMode);
    (SGR_EXTENDED_MODE modes, EnableSGRExtendedMouseMode);
    (ALTERNATE_SCROLL modes, EnableAlternateScroll);
    (DECTCEM_TextCursorEnableMode modes, CursorVisibility);
    (ATT610_StartCursorBlink modes, EnableCursorBlinking);
    (W32IM_Win32InputMode modes, EnableWin32InputMode) ].

Definition recognized (modes : PrivateModeParams) : list Z :=
  [ DECCKM_CursorKeysMode modes; DECSCNM_ScreenMode modes;
    VT200_MOUSE_MODE modes; BUTTON_EVENT_MOUSE_MODE modes;
    ANY_EVENT_MOUSE_MODE modes; UTF8_EXTENDED_MODE modes;
    SGR_EXTENDED_MODE modes; ALTERNATE_SCROLL modes;
    DECTCEM_TextCursorEnableMode modes; ATT610_StartCursorBlink modes;
    W32IM_Win32InputMode modes ].

(** The numbers of DEC, xterm and the Terminal for these modes. *)
Definition vt_modes : PrivateModeParams :=
  mkModes 1 5 1000 1002 1003 1005 1006 1007 25 12 9001.

(** *** A terminal that records the calls it receives

    The recorder answers every call from a fixed table: [answers] gives
    the value a call returns, [throws] says whether it throws instead
    (looked at only for the calls made inside [try] blocks). *)

Inductive ApiCall :=
| C_SetCursorPosition (x y : Z)
| C_EraseInDisplay (eraseType : EraseType)
| C_SetCursorVisibility (b : bool)
| C_EnableCursorBlinking (b : bool)
| C_SetScreenMode (b : bool)
| C_SetKeypadMode (b : bool)
| C_SetCursorKeysMode (b : bool)
| C_EnableWin32InputMode (b : bool)
| C_EnableVT200MouseMode (b : bool)
| C_EnableUTF8ExtendedMouseMode (b : bool)
| C_EnableSGRExtendedMouseMode (b : bool)
| C_EnableButtonEventMouseMode (b : bool)
| C_EnableAnyEventMouseMode (b : bool)
| C_EnableAlternateScrollMode (b : bool)
| C_SetGraphicsRendition (options : list Z).

Section Recorder.

Variables answers throws : ApiCall -> bool.

Definition answered (c : ApiCall) : Outcome :=
  if throws c then Thrown else Returned (answers c).

(** The value the dispatcher sees after its [catch]. *)
Definition caught (c : ApiCall) : bool := negb (throws c) && answers c.

Definition rec_try (c : ApiCall) (log : list ApiCall)
  : Outcome * list ApiCall := (answered c, log ++ [c]).

Definition rec_bool (c : ApiCall) (log : list ApiCall)
  : bool * list ApiCall := (answers c, log ++ [c]).

Definition rec_void (c : ApiCall) (log : list ApiCall) : list ApiCall :=
  log ++ [c].

#[local] Instance Recorder : Api.ITerminalApi (list ApiCall) := {|
  Api.SetCursorPosition x y := rec_try (C_SetCursorPosition x y);
  Api.EraseInDisplay e := rec_try (C_EraseInDisplay e);
  Api.SetCursorVisibility b := rec_bool (C_SetCursorVisibility b);
  Api.EnableCursorBlinking b := rec_bool (C_EnableCursorBlinking b);
  Api.SetScreenMode b := rec_bool (C_SetScreenMode b);
  Api.SetKeypadMode b := rec_void (C_SetKeypadMode b);
  Api.SetCursorKeysMode b := rec_void (C_SetCursorKeysMode b);
  Api.EnableWin32InputMode b := rec_void (C_EnableWin32InputMode b);
  Api.EnableVT200MouseMode b := rec_void (C_EnableVT200MouseMode b);
  Api.EnableUTF8ExtendedMouseMode b :=
    rec_void (C_EnableUTF8ExtendedMouseMode b);
  Api.EnableSGRExtendedMouseMode b :=
    rec_void (C_EnableSGRExtendedMouseMode b);
  Api.EnableButtonEventMouseMode b :=
    rec_void (C_EnableButtonEventMouseMode b);
  Api.EnableAnyEventMouseMode b := rec_void (C_EnableAnyEventMouseMode b);
  Api.EnableAlternateScrollMode b :=
    rec_void (C_EnableAlternateScrollMode b)
|}.

Definition rec_SetGraphicsRendition (options : list Z)
  : M (list ApiCall) bool :=
  rec_bool (C_SetGraphicsRendition options).

End Recorder.

(** The calls of a hard reset, in the order they reach the terminal. *)
Definition hard_reset_calls : list ApiCall :=
  [ C_SetCursorVisibility true; C_SetCursorKeysMode false;
    C_SetKeypadMode false; C_SetGraphicsRendition [];
    C_EraseInDisplay All; C_EraseInDisplay Scrollback;
    C_SetScreenMode false; C_SetCursorPosition 0 0 ].

Lemma caught_spec answers throws c :
  match answered answers throws c with
  | Returned b => b
  | Thrown => false
  end = caught answers throws c.
Proof. unfold answered, caught. destruct (throws c); reflexivity. Qed.

Lemma SoftReset_recorded answers throws log :
  SoftReset (api := Recorder answers throws)
            (rec_SetGraphicsRendition answers) log
  = (answers (C_SetCursorVisibility true)
     && answers (C_SetGraphicsRendition []),
     log ++ [ C_SetCursorVisibility true; C_SetCursorKeysMode false;
              C_SetKeypadMode false; C_SetGraphicsRendition [] ]).
Proof.
  unfold SoftReset, bind, ret, CursorVisibility, SetCursorKeysMode,
    SetKeypadMode, then_true, rec_SetGraphicsRendition. simpl.
  unfold rec_bool, rec_void. rewrite <- !app_assoc. simpl.
  f_equal. destruct (answers (C_SetCursorVisibility true)),
    (answers (C_SetGraphicsRendition [])); reflexivity.
Qed.

(** C2.  A hard reset runs the soft reset, the erasure of the display,
    the erasure of the scrollback, the return to the normal screen mode
    and the move of the cursor to line 1, column 1, each on the state
    the one before left, and returns the conjunction of their five
    results, whatever they are.  On the recording terminal the calls
    arrive in that order and no other call is made. *)
Theorem HardReset_order_and :
  (forall (T : Type) (api : Api.ITerminalApi T)
          (SetGraphicsRendition : list Z -> M T bool) (s : T),
      HardReset SetGraphicsRendition s =
      let '(r1, s1) := SoftReset SetGraphicsRendition s in
      let '(r2, s2) := EraseInDisplay All s1 in
      let '(r3, s3) := EraseInDisplay Scrollback s2 in
      let '(r4, s4) := SetScreenMode false s3 in
      let '(r5, s5) := CursorPosition 1 1 s4 in
      (r1 && r2 && r3 && r4 && r5, s5)) /\
  (forall (answers throws : ApiCall -> bool) (log : list ApiCall),
      HardReset (api := Recorder answers throws)
                (rec_SetGraphicsRendition answers) log
      = ((answers (C_SetCursorVisibility true)
          && answers (C_SetGraphicsRendition []))
         && caught answers throws (C_EraseInDisplay All)
         && caught answers throws (C_EraseInDisplay Scrollback)
         && answers (C_SetScreenMode false)
         && caught answers throws (C_SetCursorPosition 0 0),
         log ++ hard_reset_calls)).
Proof.
  split.
  - intros T api SGR s. unfold HardReset, bind, ret.
    destruct (SoftReset SGR s) as [r1 s1].
    destruct (EraseInDisplay All s1) as [r2 s2].
    destruct (EraseInDisplay Scrollback s2) as [r3 s3].
    destruct (SetScreenMode false s3) as [r4 s4].
    destruct (CursorPosition 1 1 s4) as [r5 s5].
    f_equal. destruct r1, r2, r3, r4, r5; reflexivity.
  - intros answers throws log. unfold HardReset, bind, ret.
    rewrite SoftReset_recorded.
    unfold EraseInDisplay, SetScreenMode, CursorPosition, catch_false.
    simpl. change (1 - 1) with 0.
    unfold rec_try, rec_bool. rewrite !caught_spec.
    rewrite <- !app_assoc. simpl. f_equal.
    destruct (answers (C_SetCursorVisibility true)),
      (answers (C_SetGraphicsRendition [])),
      (caught answers throws (C_EraseInDisplay All)),
      (caught answers throws (C_EraseInDisplay Scrollback)),
      (answers (C_SetScreenMode false)),
      (caught answers throws (C_SetCursorPosition 0 0)); reflexivity.
Qed.

(** *** Private modes *)

Ltac split_NoDup H :=
  repeat match type of H with
         | List.NoDup (_ :: _) =>
             let Hin := fresh "Hin" in
             apply List.NoDup_cons_iff in H; destruct H as [Hin H];
             simpl in Hin
         end.

Lemma helper_unrecognized {T : Type} {api : Api.ITerminalApi T}
    (modes : PrivateModeParams) (param : Z) (enable : bool) :
  ~ List.In param (recognized modes) ->
  _PrivateModeParamsHelper modes param enable = ret (T := T) false.
Proof.
  intros Hnot. unfold _PrivateModeParamsHelper.
  repeat match goal with
         | |- context [param =? ?c] =>
             destruct (Z.eqb_spec param c) as [Heq | _];
             [ exfalso; apply Hnot; unfold recognized; simpl;
               symmetry in Heq; tauto | ]
         end.
  reflexivity.
Qed.

Lemma helper_recognized {T : Type} {api : Api.ITerminalApi T}
    (modes : PrivateModeParams) (param : Z) (enable : bool)
    (setter : bool -> M T bool) :
  List.NoDup (recognized modes) ->
  List.In (param, setter) (setters modes) ->
  _PrivateModeParamsHelper modes param enable = setter enable.
Proof.
  intros Hnd Hin. unfold recognized in Hnd. split_NoDup Hnd.
  unfold setters in Hin. simpl in Hin.
  unfold _PrivateModeParamsHelper.
  repeat match type of Hin with
         | _ \/ _ => destruct Hin as [Hin | Hin]
         end;
    try contradiction;
    injection Hin as <- <-;
    repeat match goal with
           | |- context [?a =? ?b] =>
               let Heq := fresh "Heq" in
               let Hne := fresh "Hne" in
               destruct (Z.eqb_spec a b) as [Heq | Hne];
               [ first [ reflexivity
                       | exfalso; tauto
                       | exfalso; symmetry in Heq; tauto ]
               | try (exfalso; apply Hne; reflexivity) ]
           end.
Qed.

(** C3.  With the mode numbers pairwise distinct (they label the cases
    of one [switch]): for a number outside the recognized ones both
    [SetPrivateMode] and [ResetPrivateMode] return [false] and leave the
    terminal alone; for a recognized number they are the setter paired
    with it, called with [true] and with [false]. *)
Theorem PrivateMode_dispatch (T : Type) (api : Api.ITerminalApi T)
    (modes : PrivateModeParams) (param : Z) (s : T) :
  List.NoDup (recognized modes) ->
  (~ List.In param (recognized modes) ->
     SetPrivateMode modes param s = (false, s) /\
     ResetPrivateMode modes param s = (false, s)) /\
  (forall setter : bool -> M T bool,
     List.In (param, setter) (setters modes) ->
     SetPrivateMode modes param s = setter true s /\
     ResetPrivateMode modes param s = setter false s).
Proof.
  intros Hnd. unfold SetPrivateMode, ResetPrivateMode. split.
  - intros Hnot. rewrite !helper_unrecognized by exact Hnot.
    split; reflexivity.
  - intros setter Hin.
    rewrite !(helper_recognized modes param _ setter Hnd Hin).
    split; reflexivity.
Qed.

Lemma vt_modes_NoDup : List.NoDup (recognized vt_modes).
Proof.
  unfold recognized, vt_modes. simpl.
  repeat (apply List.NoDup_cons;
          [ simpl; intros Hin;
            repeat (destruct Hin as [Hin | Hin]; [discriminate Hin |]);
            exact Hin
          | ]).
  apply List.NoDup_nil.
Qed.

(** With the usual numbers on the recording terminal: mode 1049 is not
    recognized, mode 25 shows or hides the cursor. *)
Lemma PrivateMode_dispatch_witness :
  let api := Recorder (fun _ => true) (fun _ => false) in
  List.NoDup (recognized vt_modes) /\
  ~ List.In 1049 (recognized vt_modes) /\
  List.In (25, CursorVisibility (api := api)) (setters vt_modes) /\
  (SetPrivateMode (api := api) vt_modes 1049 [] = (false, []) /\
   ResetPrivateMode (api := api) vt_modes 1049 [] = (false, [])) /\
  (SetPrivateMode (api := api) vt_modes 25 []
     = (true, [C_SetCursorVisibility true]) /\
   ResetPrivateMode (api := api) vt_modes 25 []
     = (true, [C_SetCursorVisibility false])).
Proof.
  intros api.
  assert (Hout : ~ List.In 1049 (recognized vt_modes)).
  { simpl. intros Hin.
    repeat (destruct Hin as [Hin | Hin]; [discriminate Hin |]).
    exact Hin. }
  assert (Hin25 : List.In (25, CursorVisibility (api := api))
                          (setters vt_modes)).
  { simpl. do 8 right. left. reflexivity. }
  split; [exact vt_modes_NoDup |].
  split; [exact Hout |].
  split; [exact Hin25 |].
  split.
  - exact (proj1 (PrivateMode_dispatch _ api vt_modes 1049 []
                    vt_modes_NoDup) Hout).
  - exact (proj2 (PrivateMode_dispatch _ api vt_modes 25 []
                    vt_modes_NoDup) _ Hin25).
Defined.

End Dispatch.

(** ** The console host API of getset.cpp *)

Module GetSet.
Import Win.

(** [RETURN_IF_NTSTATUS_FAILED] and [NTSTATUS_FROM_HRESULT] carry a
    failure from one status type into the other. *)
Definition HRESULT_FROM_NT (s : NTSTATUS) : HRESULT :=
  match s with
  | STATUS_SUCCESS => S_OK
  | STATUS_INVALID_PARAMETER => E_FAIL_other 3489660941
  | STATUS_other code => E_FAIL_other (Z.lor code 268435456)
  end.

Definition NTSTATUS_FROM_HRESULT (hr : HRESULT) : NTSTATUS :=
  match hr with
  | S_OK => STATUS_SUCCESS
  | E_INVALIDARG => STATUS_INVALID_PARAMETER
  | E_FAIL_other code => STATUS_other code
  end.

(** The active screen buffer: what the three entry points read of it.
    [Viewport] and [VirtualViewport] are inclusive rectangles. *)
Record SCREEN_INFORMATION := mkScreen {
  BufferSize : COORD;
  Viewport : SMALL_RECT;
  VirtualViewport : SMALL_RECT;
  MinWindowSizeInCharacters : COORD;
  CursorPosition : COORD;
  Cells : list (list Z)
}.

(** The globals behind [ServiceLocator::LocateGlobals()], with the
    console lock as the depth of its recursive acquisition. *)
Record Console := mkConsole {
  LockDepth : Z;
  IsHeadless : bool;
  IsInVtIoMode : bool;
  IsTerminalScrolling : bool;
  HasRenderer : bool;
  RedrawAllCount : Z;
  ColorTable : list COLORREF;
  Screen : SCREEN_INFORMATION
}.

Definition with_lock (d : Z) (c : Console) : Console :=
  mkConsole d (IsHeadless c) (IsInVtIoMode c) (IsTerminalScrolling c)
            (HasRenderer c) (RedrawAllCount c) (ColorTable c) (Screen c).

Definition LockConsole (c : Console) : Console :=
  with_lock (LockDepth c + 1) c.

Definition UnlockConsole (c : Console) : Console :=
  with_lock (LockDepth c - 1) c.

(** [auto Unlock = wil::scope_exit(..)]: the lock taken at the head of a
    body is released on every way out of it. *)
Definition locked {A : Type} (body : Console -> A * Console)
    (c : Console) : A * Console :=
  let '(a, c') := body (LockConsole c) in (a, UnlockConsole c').

Definition Width (r : SMALL_RECT) : Z := to_SHORT (Right r - Left r + 1).
Definition Height (r : SMALL_RECT) : Z := to_SHORT (Bottom r - Top r + 1).

Definition with_table (t : list COLORREF) (c : Console) : Console :=
  mkConsole (LockDepth c) (IsHeadless c) (IsInVtIoMode c)
            (IsTerminalScrolling c) (HasRenderer c) (RedrawAllCount c)
            t (Screen c).

(** Modelled from the spec: [Settings::SetColorTableEntry] (settings.cpp,
    not among the sources) writes one entry of the externally supplied
    256-entry palette; an index outside the table raises the exception
    of [std::array::at], here [None]. *)
Definition SetColorTableEntry (index : Z) (value : COLORREF)
    (table : list COLORREF) : option (list COLORREF) :=
  if (0 <=? index) && (index <? Z.of_nat (length table))
  then Some (<[Z.to_nat index := value]> table)
  else None.

Definition TriggerRedrawAll (c : Console) : Console :=
  mkConsole (LockDepth c) (IsHeadless c) (IsInVtIoMode c)
            (IsTerminalScrolling c) (HasRenderer c) (RedrawAllCount c + 1)
            (ColorTable c) (Screen c).

Section Collaborators.

(** Functions of other translation units, free to change the whole
    console. *)
Variable VtIo_SetCursorPosition : COORD -> Console -> HRESULT * Console.
Variable Screen_SetCursorPosition :
  COORD -> bool -> Console -> NTSTATUS * Console.
Variable ConsoleImeResizeCompStrView : Console -> HRESULT * Console.
Variable SetViewportOrigin :
  bool -> COORD -> bool -> Console -> NTSTATUS * Console.
Variable ResizeScreenBuffer :
  COORD -> bool -> Console -> NTSTATUS * Console.
Variable AdjustCursorPosition :
  COORD -> bool -> Console -> NTSTATUS * Console.
(** [ScrollRegion] of output.cpp; [None] when it throws. *)
Variable ScrollRegion :
  SMALL_RECT -> option SMALL_RECT -> COORD -> Console -> option Console.
Variable hr_of_exception : HRESULT.
Variable Xterm256ToWindowsIndex : Z -> Z.
(** [SCREEN_INFORMATION::AreMarginsSet] and
    [GetAbsoluteScrollMargins().ToInclusive()] of screenInfo.cpp. *)
Variable AreMarginsSet : SCREEN_INFORMATION -> bool.
Variable GetAbsoluteScrollMargins : SCREEN_INFORMATION -> SMALL_RECT.

(** Modelled from the spec: [SCREEN_INFORMATION::IsCursorInMargins]
    (screenInfo.cpp, not among the sources), as the comment at its call
    in [DoSrvPrivateReverseLineFeed] puts it: there are no margins, or
    the cursor is within the boundaries of the margins. *)
Definition IsCursorInMargins (scr : SCREEN_INFORMATION)
    (cursorPosition : COORD) : bool :=
  negb (AreMarginsSet scr)
  || ((Y cursorPosition <=? Bottom (GetAbsoluteScrollMargins scr))
      && (Top (GetAbsoluteScrollMargins scr) <=? Y cursorPosition)).

(** [ApiRoutines::SetConsoleScreenBufferSizeImpl]. *)
Definition SetConsoleScreenBufferSizeImpl (size : COORD)
  : Console -> HRESULT * Console :=
  locked (fun c =>
    let screenInfo := Screen c in
    if (X size <? Width (Viewport screenInfo))
       || (Y size <? Height (Viewport screenInfo))
    then (E_INVALIDARG, c)
    else
      let coordMin := MinWindowSizeInCharacters screenInfo in
      if negb (IsHeadless c)
         && ((Y size <? Y coordMin) || (X size <? X coordMin))
      then (E_INVALIDARG, c)
      else if (X size =? SHORT_MAX) || (Y size =? SHORT_MAX)
      then (E_INVALIDARG, c)
      else
        let coordScreenBufferSize := BufferSize screenInfo in
        if negb (X size =? X coordScreenBufferSize)
           || negb (Y size =? Y coordScreenBufferSize)
        then
          let '(status, c') := ResizeScreenBuffer size true c in
          (HRESULT_FROM_NT status, c')
        else (S_OK, c)).

(** [ApiRoutines::SetConsoleCursorPositionImpl]. *)
Definition SetConsoleCursorPositionImpl (position : COORD)
  : Console -> HRESULT * Console :=
  locked (fun c =>
    let coordScreenBufferSize := BufferSize (Screen c) in
    if (X position >=? X coordScreenBufferSize)
       || (Y position >=? Y coordScreenBufferSize)
       || (X position <? 0)
       || (Y position <? 0)
    then (E_INVALIDARG, c)
    else
      let '(hr, c1) := VtIo_SetCursorPosition position c in
      if negb (SUCCEEDED hr) then (hr, c1)
      else
        let '(status, c2) := Screen_SetCursorPosition position true c1 in
        if negb (NT_SUCCESS status) then (HRESULT_FROM_NT status, c2)
        else
          let c3 := snd (ConsoleImeResizeCompStrView c2) in
          let currentViewport :=
            if IsTerminalScrolling c3
            then VirtualViewport (Screen c3)
            else Viewport (Screen c3) in
          let deltaX :=
            if Left currentViewport >? X position
            then to_SHORT (X position - Left currentViewport)
            else if Right currentViewport <? X position
            then to_SHORT (X position - Right currentViewport)
            else 0 in
          let deltaY :=
            if Top currentViewport >? Y position
            then to_SHORT (Y position - Top currentViewport)
            else if Bottom currentViewport <? Y position
            then to_SHORT (Y position - Bottom currentViewport)
            else 0 in
          let newWindowOrigin :=
            mkCOORD (to_SHORT (Left currentViewport + deltaX))
                    (to_SHORT (Top currentViewport + deltaY)) in
          let '(status', c4) :=
            SetViewportOrigin true newWindowOrigin true c3 in
          if negb (NT_SUCCESS status') then (HRESULT_FROM_NT status', c4)
          else (S_OK, c4)).

(** [DoSrvPrivateSetColorTableEntry]; the index is a [size_t]. *)
Definition DoSrvPrivateSetColorTableEntry (index : Z) (value : COLORREF)
    (c : Console) : HRESULT * Console :=
  if index >=? 256 then (E_INVALIDARG, c)
  else
    match SetColorTableEntry (Xterm256ToWindowsIndex index) value
                             (ColorTable c) with
    | None => (hr_of_exception, c)
    | Some table =>
        let c1 := with_table table c in
        let c2 :=
          if HasRenderer c1 && negb (IsInVtIoMode c1)
          then TriggerRedrawAll c1
          else c1 in
        (S_OK, c2)
    end.

(** [DoSrvPrivateScrollRegion]. *)
Definition DoSrvPrivateScrollRegion (scrollRect : SMALL_RECT)
    (clipRect : option SMALL_RECT) (destinationOrigin : COORD)
  : Console -> HRESULT * Console :=
  locked (fun c =>
    match ScrollRegion scrollRect clipRect destinationOrigin c with
    | Some c' => (S_OK, c')
    | None => (hr_of_exception, c)
    end).

(** [DoSrvPrivateReverseLineFeed]. *)
Definition DoSrvPrivateReverseLineFeed (c : Console)
  : NTSTATUS * Console :=
  let screenInfo := Screen c in
  let viewport := Viewport screenInfo in
  let oldCursorPosition := CursorPosition screenInfo in
  let newCursorPosition :=
    mkCOORD (X oldCursorPosition) (to_SHORT (Y oldCursorPosition - 1)) in
  if Y oldCursorPosition >? Top viewport then
    AdjustCursorPosition newCursorPosition true c
  else if IsCursorInMargins screenInfo oldCursorPosition then
    let bottom :=
      if AreMarginsSet screenInfo
      then Bottom (GetAbsoluteScrollMargins screenInfo)
      else Bottom viewport in
    let srScroll := mkRECT 0 (Top viewport) SHORT_MAX bottom in
    let coordDestination := mkCOORD 0 (to_SHORT (Top viewport + 1)) in
    let '(hr, c') :=
      DoSrvPrivateScrollRegion srScroll (Some srScroll)
                               coordDestination c in
    (NTSTATUS_FROM_HRESULT hr, c')
  else (STATUS_SUCCESS, c).

Lemma Unlock_Lock c : UnlockConsole (LockConsole c) = c.
Proof.
  destruct c as [d h v t r n tbl scr].
  unfold UnlockConsole, LockConsole, with_lock. simpl.
  f_equal. lia.
Qed.

Lemma locked_early {A : Type} (body : Console -> A * Console) (a : A) c :
  body (LockConsole c) = (a, LockConsole c) -> locked body c = (a, c).
Proof.
  intros Hbody. unfold locked. rewrite Hbody, Unlock_Lock. reflexivity.
Qed.

(** C1.  A cursor position with a negative coordinate, or with a
    coordinate at or past the dimensions of the buffer, and a write to
    the color table at an index of 256 or more, are both answered with
    [E_INVALIDARG], and the console (cursor, color table, cells, lock
    and all) is what it was before the call. *)
Theorem out_of_range_rejected (c : Console) :
  (forall position : COORD,
      X position < 0 \/ Y position < 0 \/
      X position >= X (BufferSize (Screen c)) \/
      Y position >= Y (BufferSize (Screen c)) ->
      SetConsoleCursorPositionImpl position c = (E_INVALIDARG, c)) /\
  (forall (index : Z) (value : COLORREF),
      index >= 256 ->
      DoSrvPrivateSetColorTableEntry index value c = (E_INVALIDARG, c)).
Proof.
  split.
  - intros position Hout. unfold SetConsoleCursorPositionImpl.
    apply locked_early. change (Screen (LockConsole c)) with (Screen c).
    destruct (X position >=? X (BufferSize (Screen c))) eqn:E1;
      [reflexivity |].
    destruct (Y position >=? Y (BufferSize (Screen c))) eqn:E2;
      [reflexivity |].
    destruct (X position <? 0) eqn:E3; [reflexivity |].
    destruct (Y position <? 0) eqn:E4; [reflexivity |].
    exfalso. rewrite Z.geb_leb, Z.leb_gt in E1, E2.
    rewrite Z.ltb_ge in E3, E4. lia.
  - intros index value Hidx. unfold DoSrvPrivateSetColorTableEntry.
    destruct (index >=? 256) eqn:E; [reflexivity |].
    exfalso. rewrite Z.geb_leb, Z.leb_gt in E. lia.
Qed.

(** C7.  A requested size with a dimension below that of the viewport,
    or with a dimension equal to [SHORT_MAX], is answered with
    [E_INVALIDARG]; the console is unchanged, whatever
    [ResizeScreenBuffer] would have done. *)
Theorem impossible_resize_rejected (size : COORD) (c : Console) :
  X size < Width (Viewport (Screen c)) \/
  Y size < Height (Viewport (Screen c)) \/
  X size = SHORT_MAX \/ Y size = SHORT_MAX ->
  SetConsoleScreenBufferSizeImpl size c = (E_INVALIDARG, c).
Proof.
  intros Himp. unfold SetConsoleScreenBufferSizeImpl.
  apply locked_early.
  change (Screen (LockConsole c)) with (Screen c).
  change (IsHeadless (LockConsole c)) with (IsHeadless c).
  destruct ((X size <? Width (Viewport (Screen c)))
            || (Y size <? Height (Viewport (Screen c)))) eqn:E1;
    [reflexivity |].
  destruct (negb (IsHeadless c) && _) eqn:E2; [reflexivity |].
  destruct ((X size =? SHORT_MAX) || (Y size =? SHORT_MAX)) eqn:E3;
    [reflexivity |].
  exfalso. apply orb_false_iff in E1, E3.
  destruct E1 as [E1x E1y], E3 as [E3x E3y].
  rewrite Z.ltb_ge in E1x, E1y. rewrite Z.eqb_neq in E3x, E3y. lia.
Qed.

(** C9.  With the cursor on the top row of the viewport, the margins
    set and the cursor above or below them, a reverse line feed returns
    [STATUS_SUCCESS] and leaves the console, rows and cursor included,
    as it was: neither [AdjustCursorPosition] nor [ScrollRegion] is
    reached. *)
Theorem reverse_line_feed_outside_margins (c : Console) :
  let scr := Screen c in
  Y (CursorPosition scr) = Top (Viewport scr) ->
  AreMarginsSet scr = true ->
  Y (CursorPosition scr) < Top (GetAbsoluteScrollMargins scr) \/
  Bottom (GetAbsoluteScrollMargins scr) < Y (CursorPosition scr) ->
  DoSrvPrivateReverseLineFeed c = (STATUS_SUCCESS, c).
Proof.
  intros scr Htop Hset Hout. subst scr.
  unfold DoSrvPrivateReverseLineFeed.
  destruct (Y (CursorPosition (Screen c)) >? Top (Viewport (Screen c)))
    eqn:Egt.
  { exfalso. rewrite Z.gtb_ltb, Z.ltb_lt in Egt. lia. }
  unfold IsCursorInMargins. rewrite Hset. simpl.
  destruct ((Y (CursorPosition (Screen c))
               <=? Bottom (GetAbsoluteScrollMargins (Screen c)))
            && (Top (GetAbsoluteScrollMargins (Screen c))
                  <=? Y (CursorPosition (Screen c)))) eqn:Ein;
    [| reflexivity].
  exfalso. apply andb_true_iff in Ein. destruct Ein as [Eb Et].
  rewrite Z.leb_le in Eb, Et. lia.
Qed.

End Collaborators.

(** *** A concrete console: an 80 by 25 buffer shown whole *)

Definition screen0 : SCREEN_INFORMATION :=
  mkScreen (mkCOORD 80 25) (mkRECT 0 0 79 24) (mkRECT 0 0 79 24)
           (mkCOORD 1 1) (mkCOORD 3 0) [].

Definition console0 : Console :=
  mkConsole 0 false false false true 0 (repeat 0 256) screen0.

Definition no_hr (c : Console) : HRESULT * Console := (S_OK, c).
Definition no_nt (c : Console) : NTSTATUS * Console := (STATUS_SUCCESS, c).

(** Margins on rows 5 to 10. *)
Definition margins0 (scr : SCREEN_INFORMATION) : SMALL_RECT :=
  mkRECT 0 5 79 10.

Lemma out_of_range_rejected_witness :
  (X (mkCOORD 80 0) >= X (BufferSize (Screen console0))) /\
  256 >= 256 /\
  SetConsoleCursorPositionImpl
    (fun _ => no_hr) (fun _ _ => no_nt) no_hr (fun _ _ _ => no_nt)
    (mkCOORD 80 0) console0 = (E_INVALIDARG, console0) /\
  DoSrvPrivateSetColorTableEntry E_INVALIDARG (fun i => i) 256 255 console0
    = (E_INVALIDARG, console0).
Proof.
  assert (H1 : X (mkCOORD 80 0) >= X (BufferSize (Screen console0)))
    by (simpl; lia).
  assert (H2 : 256 >= 256) by lia.
  split; [exact H1 |]. split; [exact H2 |]. split.
  - apply (proj1 (out_of_range_rejected
                    (fun _ => no_hr) (fun _ _ => no_nt) no_hr
                    (fun _ _ _ => no_nt) E_INVALIDARG (fun i => i)
                    console0)).
    right. right. left. exact H1.
  - apply (proj2 (out_of_range_rejected
                    (fun _ => no_hr) (fun _ _ => no_nt) no_hr
                    (fun _ _ _ => no_nt) E_INVALIDARG (fun i => i)
                    console0)).
    exact H2.
Defined.

Lemma impossible_resize_rejected_witness :
  X (mkCOORD 40 25) < Width (Viewport (Screen console0)) /\
  SetConsoleScreenBufferSizeImpl (fun _ _ => no_nt) (mkCOORD 40 25) console0
  = (E_INVALIDARG, console0).
Proof.
  assert (H : X (mkCOORD 40 25) < Width (Viewport (Screen console0)))
    by (vm_compute; reflexivity).
  split; [exact H |].
  apply impossible_resize_rejected. left. exact H.
Defined.

Lemma reverse_line_feed_outside_margins_witness :
  Y (CursorPosition (Screen console0)) = Top (Viewport (Screen console0)) /\
  Y (CursorPosition (Screen console0)) < Top (margins0 (Screen console0)) /\
  DoSrvPrivateReverseLineFeed
    (fun _ _ => no_nt) (fun _ _ _ c => Some c) E_INVALIDARG
    (fun _ => true) margins0 console0
  = (STATUS_SUCCESS, console0).
Proof.
  assert (H1 : Y (CursorPosition (Screen console0))
               = Top (Viewport (Screen console0))) by reflexivity.
  assert (H2 : Y (CursorPosition (Screen console0))
               < Top (margins0 (Screen console0))) by (simpl; lia).
  split; [exact H1 |]. split; [exact H2 |].
  apply reverse_line_feed_outside_margins.
  - exact H1.
  - reflexivity.
  - left. exact H2.
Defined.

End GetSet.

(** ** The selection of the console host (selection.cpp) *)

Module Sel.
Import Win.

(** Selection flags of wincon.h. *)
Definition CONSOLE_SELECTION_IN_PROGRESS : Z := 1.
Definition CONSOLE_SELECTION_NOT_EMPTY : Z := 2.
Definition CONSOLE_MOUSE_SELECTION : Z := 4.
Definition CONSOLE_MOUSE_DOWN : Z := 8.

Definition WI_IsFlagSet (flags flag : Z) : bool :=
  negb (Z.land flags flag =? 0).

(** The members of [Selection] (selection.hpp), and with them the bit
    [CONSOLE_SELECTING] of the console flags, which only the selection
    sets and clears. *)
Record Selection := mkSel {
  fSelecting : bool;
  _fSelectionVisible : bool;
  _dwSelectionFlags : Z;
  _fLineSelection : bool;
  _fUseAlternateSelection : bool;
  _allowMouseDragSelection : bool;
  _srSelectionRect : SMALL_RECT;
  _coordSelectionAnchor : COORD
}.

(** Modelled from the spec: the state queries of selectionState.cpp,
    which is not among the sources.  The selection is in the Selecting
    state between its start and its clearing; an area is selected once
    [CONSOLE_SELECTION_NOT_EMPTY] is set, and the selection is the
    mouse's when [CONSOLE_MOUSE_SELECTION] is (the flags as selection.cpp
    writes them); the mode is line unless the alternate (block) one is
    asked for, and the other way round. *)
Definition IsInSelectingState (s : Selection) : bool := fSelecting s.

Definition IsAreaSelected (s : Selection) : bool :=
  WI_IsFlagSet (_dwSelectionFlags s) CONSOLE_SELECTION_NOT_EMPTY.

Definition IsMouseInitiatedSelection (s : Selection) : bool :=
  WI_IsFlagSet (_dwSelectionFlags s) CONSOLE_MOUSE_SELECTION.

Definition IsLineSelection (s : Selection) : bool :=
  xorb (_fLineSelection s) (_fUseAlternateSelection s).

Definition set_visible (b : bool) (s : Selection) : Selection :=
  mkSel (fSelecting s) b (_dwSelectionFlags s) (_fLineSelection s)
        (_fUseAlternateSelection s) (_allowMouseDragSelection s)
        (_srSelectionRect s) (_coordSelectionAnchor s).

Definition set_allowDrag (b : bool) (s : Selection) : Selection :=
  mkSel (fSelecting s) (_fSelectionVisible s) (_dwSelectionFlags s)
        (_fLineSelection s) (_fUseAlternateSelection s) b
        (_srSelectionRect s) (_coordSelectionAnchor s).

Definition set_flags (f : Z) (s : Selection) : Selection :=
  mkSel (fSelecting s) (_fSelectionVisible s) f (_fLineSelection s)
        (_fUseAlternateSelection s) (_allowMouseDragSelection s)
        (_srSelectionRect s) (_coordSelectionAnchor s).

Definition set_rect (r : SMALL_RECT) (s : Selection) : Selection :=
  mkSel (fSelecting s) (_fSelectionVisible s) (_dwSelectionFlags s)
        (_fLineSelection s) (_fUseAlternateSelection s)
        (_allowMouseDragSelection s) r (_coordSelectionAnchor s).

(** [Selection::_SetSelectionVisibility]; painting and the UIA signal
    leave the selection as it is. *)
Definition _SetSelectionVisibility (fMakeVisible : bool) (s : Selection)
  : Selection :=
  if IsInSelectingState s && IsAreaSelected s then
    if Bool.eqb fMakeVisible (_fSelectionVisible s) then s
    else set_visible fMakeVisible s
  else s.

Definition ShowSelection : Selection -> Selection :=
  _SetSelectionVisibility true.

Definition HideSelection : Selection -> Selection :=
  _SetSelectionVisibility false.

(** [Selection::InitializeMouseSelection]; [altPressed] is what
    [CheckAndSetAlternateSelection] reads of the keyboard. *)
Definition InitializeMouseSelection (altPressed : bool)
    (coordBufferPos : COORD) (s : Selection) : Selection :=
  mkSel true (_fSelectionVisible s)
        (Z.lor CONSOLE_MOUSE_SELECTION CONSOLE_SELECTION_NOT_EMPTY)
        (_fLineSelection s) altPressed (_allowMouseDragSelection s)
        (mkRECT (X coordBufferPos) (Y coordBufferPos)
                (X coordBufferPos) (Y coordBufferPos))
        coordBufferPos.

(** Modelled from the spec: [Viewport::Clamp] (types/viewport.cpp, not
    among the sources) clamps the position to the bounds, an inclusive
    rectangle; it throws, here [None], when the bounds are not valid. *)
Definition Clamp (bounds : SMALL_RECT) (pos : COORD) : option COORD :=
  if (Left bounds <=? Right bounds) && (Top bounds <=? Bottom bounds)
  then Some (mkCOORD (Z.max (Left bounds) (Z.min (X pos) (Right bounds)))
                     (Z.max (Top bounds) (Z.min (Y pos) (Bottom bounds))))
  else None.

Definition InBounds (bounds : SMALL_RECT) (pos : COORD) : Prop :=
  Left bounds <= X pos <= Right bounds /\
  Top bounds <= Y pos <= Bottom bounds.

(** The update of the rectangle at the end of [ExtendSelection]: the
    position is compared with the anchor on each axis; [old] is the
    rectangle before the update. *)
Definition srNewSelection (old : SMALL_RECT) (anchor pos : COORD)
  : SMALL_RECT :=
  let '(newLeft, newRight) :=
    if X pos <=? X anchor then (X pos, X anchor)
    else if X pos >? X anchor then (X anchor, X pos)
    else (Left old, Right old) in
  let '(newTop, newBottom) :=
    if Y pos <=? Y anchor then (Y pos, Y anchor)
    else if Y pos >? Y anchor then (Y anchor, Y pos)
    else (Top old, Bottom old) in
  mkRECT newLeft newTop newRight newBottom.

Section Extend.

(** The screen buffer as the selection sees it: the bounds
    [GetTerminalBufferSize()] reports, and a view that
    [MakeCursorVisible] may scroll. *)
Variable View : Type.
Variable MakeCursorVisible : COORD -> View -> View.
Variable bounds : SMALL_RECT.

(** [Selection::ExtendSelection]. *)
Definition ExtendSelection (coordBufferPos : COORD)
    (st : Selection * View) : Selection * View :=
  let '(s0, view) := st in
  let s := set_allowDrag true s0 in
  match Clamp bounds coordBufferPos with
  | None => (s, view)
  | Some pos =>
      if negb (IsAreaSelected s) then
        if IsMouseInitiatedSelection s then (s, view)
        else
          let view := MakeCursorVisible pos view in
          let s :=
            set_flags (Z.lor (_dwSelectionFlags s)
                             CONSOLE_SELECTION_NOT_EMPTY) s in
          let anchor := _coordSelectionAnchor s in
          let s :=
            set_rect (mkRECT (X anchor) (Y anchor) (X anchor) (Y anchor))
                     s in
          let s := ShowSelection s in
          (set_rect (srNewSelection (_srSelectionRect s)
                                    (_coordSelectionAnchor s) pos) s,
           view)
      else
        let view := MakeCursorVisible pos view in
        (set_rect (srNewSelection (_srSelectionRect s)
                                  (_coordSelectionAnchor s) pos) s,
         view)
  end.

End Extend.

(** Modelled from the spec: [TextBuffer::GetTextRects] (textBuffer.cpp,
    not among the sources).  One inclusive rectangle for each row between
    the two coordinates; in block mode, and when there is one row only,
    every row spans the columns from the smaller to the larger [X]; in
    line mode the first row runs from the earlier coordinate to the last
    column, the last row from the first column to the later coordinate,
    and the rows between span the full width. *)
Definition earlier (a b : COORD) : bool :=
  (Y a <? Y b) || ((Y a =? Y b) && (X a <=? X b)).

Definition GetTextRects (bufferWidth : Z) (start end_ : COORD)
    (blockSelection : bool) : list SMALL_RECT :=
  let '(higher, lower) :=
    if earlier start end_ then (start, end_) else (end_, start) in
  (fun row =>
     if blockSelection || (Y higher =? Y lower) then
       mkRECT (Z.min (X higher) (X lower)) row
              (Z.max (X higher) (X lower)) row
     else
       mkRECT (if row =? Y higher then X higher else 0) row
              (if row =? Y lower then X lower else bufferWidth - 1) row)
  <$> seqZ (Y higher) (Y lower - Y higher + 1).

(** [Selection::GetSelectionRects]. *)
Definition GetSelectionRects (bufferWidth : Z) (s : Selection)
  : list SMALL_RECT :=
  if negb (_fSelectionVisible s) then []
  else
    let anchor := _coordSelectionAnchor s in
    let rect := _srSelectionRect s in
    let endSelectionAnchor :=
      mkCOORD (if X anchor =? Left rect then Right rect else Left rect)
              (if Y anchor =? Top rect then Bottom rect else Top rect) in
    GetTextRects bufferWidth anchor endSelectionAnchor
                 (negb (IsLineSelection s)).

(** The selection object as its constructor leaves it. *)
Definition Selection_new : Selection :=
  mkSel false false 0 true false true (mkRECT 0 0 0 0) (mkCOORD 0 0).

(** *** Properties of the rectangles of a text span *)

Lemma earlier_rows a b :
  (earlier a b = true -> Y a <= Y b) /\ (earlier a b = false -> Y b <= Y a).
Proof.
  unfold earlier. split; intros H.
  - apply orb_true_iff in H. destruct H as [H | H].
    + apply Z.ltb_lt in H. lia.
    + apply andb_true_iff in H. destruct H as [H _].
      apply Z.eqb_eq in H. lia.
  - apply orb_false_iff in H. destruct H as [H _].
    apply Z.ltb_ge in H. exact H.
Qed.

Lemma fmap_row_id (f : Z -> SMALL_RECT) (l : list Z) :
  (forall row, Top (f row) = row) -> Top <$> (f <$> l) = l.
Proof.
  intros Hf. induction l as [| row l IH].
  - reflexivity.
  - rewrite !fmap_cons, Hf, IH. reflexivity.
Qed.

Lemma GetTextRects_rows w a b blk :
  Top <$> GetTextRects w a b blk
  = seqZ (Z.min (Y a) (Y b)) (Z.abs (Y a - Y b) + 1).
Proof.
  unfold GetTextRects. destruct (earlier_rows a b) as [Ht Hf].
  destruct (earlier a b) eqn:E.
  - specialize (Ht eq_refl). rewrite fmap_row_id.
    + f_equal; lia.
    + intros row. destruct (blk || (Y a =? Y b)); reflexivity.
  - specialize (Hf eq_refl). rewrite fmap_row_id.
    + f_equal; lia.
    + intros row. destruct (blk || (Y b =? Y a)); reflexivity.
Qed.

Lemma GetTextRects_nonempty w a b blk : GetTextRects w a b blk <> [].
Proof.
  intros Hnil.
  assert (Hlen : length (Top <$> GetTextRects w a b blk) = 0%nat)
    by (rewrite Hnil; reflexivity).
  rewrite GetTextRects_rows, length_seqZ in Hlen. lia.
Qed.

Lemma GetTextRects_single_rows w a b blk :
  Forall (fun r => Top r = Bottom r) (GetTextRects w a b blk).
Proof.
  unfold GetTextRects.
  destruct (earlier a b); apply Forall_fmap, Forall_forall; intros row _;
    simpl; match goal with |- context [if ?c then _ else _] => destruct c end;
    reflexivity.
Qed.

Lemma GetTextRects_block w a b :
  Forall (fun r => Left r = Z.min (X a) (X b) /\ Right r = Z.max (X a) (X b))
         (GetTextRects w a b true).
Proof.
  unfold GetTextRects.
  destruct (earlier a b); apply Forall_fmap, Forall_forall; intros row _;
    simpl; split; lia.
Qed.

(** *** Properties of [ExtendSelection] *)

Lemma Clamp_InBounds bounds pos :
  InBounds bounds pos -> Clamp bounds pos = Some pos.
Proof.
  unfold InBounds, Clamp. intros [Hx Hy].
  destruct (Z.leb_spec (Left bounds) (Right bounds)); [| lia].
  destruct (Z.leb_spec (Top bounds) (Bottom bounds)); [| lia].
  simpl. destruct pos as [x y]. simpl in *. f_equal. f_equal; lia.
Qed.

Lemma srNewSelection_bounding old anchor pos :
  srNewSelection old anchor pos
  = mkRECT (Z.min (X pos) (X anchor)) (Z.min (Y pos) (Y anchor))
           (Z.max (X pos) (X anchor)) (Z.max (Y pos) (Y anchor)).
Proof.
  unfold srNewSelection.
  destruct (Z.leb_spec (X pos) (X anchor));
    [| destruct (Z.gtb_spec (X pos) (X anchor)); [| lia]];
    (destruct (Z.leb_spec (Y pos) (Y anchor));
     [| destruct (Z.gtb_spec (Y pos) (Y anchor)); [| lia]]);
    f_equal; lia.
Qed.

Lemma NOT_EMPTY_after_lor flags :
  WI_IsFlagSet (Z.lor flags CONSOLE_SELECTION_NOT_EMPTY)
               CONSOLE_SELECTION_NOT_EMPTY = true.
Proof.
  unfold WI_IsFlagSet, CONSOLE_SELECTION_NOT_EMPTY.
  destruct (Z.eqb_spec (Z.land (Z.lor flags 2) 2) 0) as [Hz | _];
    [| reflexivity].
  exfalso.
  assert (Hbit : Z.testbit (Z.land (Z.lor flags 2) 2) 1 = true).
  { rewrite Z.land_spec, Z.lor_spec.
    change (Z.testbit 2 1) with true.
    rewrite orb_true_r. reflexivity. }
  rewrite Hz in Hbit. rewrite Z.bits_0 in Hbit. discriminate Hbit.
Qed.

Section ExtendFacts.

Variable View : Type.
Variable MakeCursorVisible : COORD -> View -> View.
Variable bounds : SMALL_RECT.

Let extend := ExtendSelection View MakeCursorVisible bounds.

(** What one call leaves, by the state it finds. *)
Lemma ExtendSelection_cases pos p s view :
  Clamp bounds pos = Some p ->
  let s1 := fst (extend pos (s, view)) in
  (IsAreaSelected s = false /\ IsMouseInitiatedSelection s = true /\
   s1 = set_allowDrag true s) \/
  (IsAreaSelected s1 = true /\
   _allowMouseDragSelection s1 = true /\
   _coordSelectionAnchor s1 = _coordSelectionAnchor s /\
   _srSelectionRect s1
   = srNewSelection (_srSelectionRect s1) (_coordSelectionAnchor s) p).
Proof.
  intros Hclamp. subst extend. unfold ExtendSelection. rewrite Hclamp.
  destruct s as [sel vis flags line alt drag rect anchor].
  unfold IsAreaSelected, IsMouseInitiatedSelection. simpl.
  destruct (WI_IsFlagSet flags CONSOLE_SELECTION_NOT_EMPTY) eqn:Earea; simpl.
  - right. rewrite Earea. repeat split; try reflexivity.
    rewrite !srNewSelection_bounding. reflexivity.
  - destruct (WI_IsFlagSet flags CONSOLE_MOUSE_SELECTION) eqn:Emouse; simpl.
    + left. repeat split; reflexivity.
    + right. unfold ShowSelection, _SetSelectionVisibility,
        IsInSelectingState, IsAreaSelected. simpl.
      rewrite NOT_EMPTY_after_lor.
      destruct sel; simpl; [destruct vis; simpl |];
        rewrite ?NOT_EMPTY_after_lor; repeat split; try reflexivity;
        rewrite !srNewSelection_bounding; reflexivity.
Qed.

Lemma ExtendSelection_twice pos s view :
  let st1 := extend pos (s, view) in
  fst (extend pos st1) = fst st1.
Proof.
  intros st1.
  destruct (Clamp bounds pos) as [p |] eqn:Hclamp.
  - pose proof (ExtendSelection_cases pos p s view Hclamp) as Hcases.
    cbv zeta in Hcases. fold st1 in Hcases.
    destruct st1 as [s1 view1]. simpl in *.
    subst extend. unfold ExtendSelection. rewrite Hclamp.
    destruct Hcases as [[Harea [Hmouse ->]] | [Harea [Hdrag [Hanchor Hrect]]]].
    + destruct s as [sel vis flags line alt drag rect anchor].
      unfold IsAreaSelected, IsMouseInitiatedSelection in *. simpl in *.
      rewrite Harea, Hmouse. reflexivity.
    + destruct s1 as [sel vis flags line alt drag rect anchor].
      unfold IsAreaSelected in *. simpl in *.
      rewrite Harea. simpl. subst drag. unfold set_rect. simpl.
      f_equal. rewrite Hanchor. rewrite srNewSelection_bounding.
      rewrite Hrect, srNewSelection_bounding. reflexivity.
  - subst st1 extend. unfold ExtendSelection. rewrite Hclamp. simpl.
    rewrite ?Hclamp. reflexivity.
Qed.

End ExtendFacts.

(** C5.  For a position within the bounds of the buffer, a second
    [ExtendSelection] with the same position leaves the selection, and so
    its rectangle, as the first call left it; the anchor stays where it
    was, and unless the call returns early (a mouse selection without an
    area) the rectangle is the bounding rectangle of position and anchor,
    each axis compared on its own. *)
Theorem ExtendSelection_idempotent (View : Type)
    (MakeCursorVisible : COORD -> View -> View) (bounds : SMALL_RECT)
    (pos : COORD) (s : Selection) (view : View) :
  InBounds bounds pos ->
  let st1 := ExtendSelection View MakeCursorVisible bounds pos (s, view) in
  let st2 := ExtendSelection View MakeCursorVisible bounds pos st1 in
  _srSelectionRect (fst st2) = _srSelectionRect (fst st1) /\
  fst st2 = fst st1 /\
  _coordSelectionAnchor (fst st1) = _coordSelectionAnchor s /\
  (IsAreaSelected s = true \/ IsMouseInitiatedSelection s = false ->
   _srSelectionRect (fst st1)
   = mkRECT (Z.min (X pos) (X (_coordSelectionAnchor s)))
            (Z.min (Y pos) (Y (_coordSelectionAnchor s)))
            (Z.max (X pos) (X (_coordSelectionAnchor s)))
            (Z.max (Y pos) (Y (_coordSelectionAnchor s)))).
Proof.
  intros Hin st1 st2.
  pose proof (ExtendSelection_twice View MakeCursorVisible bounds pos s view)
    as Htwice.
  cbv zeta in Htwice. change (fst st2 = fst st1) in Htwice.
  split; [rewrite Htwice; reflexivity |].
  split; [exact Htwice |].
  pose proof (ExtendSelection_cases View MakeCursorVisible bounds pos pos s
                view (Clamp_InBounds bounds pos Hin)) as Hcases.
  cbv zeta in Hcases.
  change (ExtendSelection View MakeCursorVisible bounds pos (s, view))
    with st1 in Hcases.
  destruct Hcases as [[Harea [Hmouse Heq]] | [_ [_ [Hanchor Hrect]]]].
  - split.
    + rewrite Heq. reflexivity.
    + intros [H | H]; congruence.
  - split; [exact Hanchor |].
    intros _. rewrite Hrect. apply srNewSelection_bounding.
Qed.

(** *** A selection on an 80 by 25 buffer *)

Definition bounds0 : SMALL_RECT := mkRECT 0 0 79 24.

Definition extend0 (pos : COORD) (s : Selection) : Selection :=
  fst (ExtendSelection unit (fun _ v => v) bounds0 pos (s, tt)).

(** The mouse goes down at (10, 5) and is dragged to (20, 5). *)
Definition dragged : Selection :=
  extend0 (mkCOORD 20 5)
          (InitializeMouseSelection false (mkCOORD 10 5) Selection_new).

(** The same, with [ShowSelection] called after the start, as
    [SelectNewRegion] does. *)
Definition dragged_shown : Selection :=
  extend0 (mkCOORD 20 5)
          (ShowSelection
             (InitializeMouseSelection false (mkCOORD 10 5) Selection_new)).

Lemma ExtendSelection_idempotent_witness :
  InBounds bounds0 (mkCOORD 20 5) /\
  let st1 :=
    ExtendSelection unit (fun _ v => v) bounds0 (mkCOORD 20 5)
      (InitializeMouseSelection false (mkCOORD 10 5) Selection_new, tt) in
  let st2 :=
    ExtendSelection unit (fun _ v => v) bounds0 (mkCOORD 20 5) st1 in
  _srSelectionRect (fst st2) = _srSelectionRect (fst st1) /\
  _srSelectionRect (fst st1) = mkRECT 10 5 20 5.
Proof.
  assert (Hin : InBounds bounds0 (mkCOORD 20 5)).
  { unfold InBounds, bounds0. simpl. lia. }
  split; [exact Hin |].
  intros st1 st2.
  destruct (ExtendSelection_idempotent unit (fun _ v => v) bounds0
              (mkCOORD 20 5)
              (InitializeMouseSelection false (mkCOORD 10 5) Selection_new)
              tt Hin) as [Hrect [_ [_ Hbox]]].
  split; [exact Hrect |].
  subst st1. etransitivity; [apply Hbox; left; reflexivity | reflexivity].
Defined.

(** The selection started by the mouse and dragged is in the selecting
    state and has an area, yet [GetSelectionRects] returns no rectangle:
    nothing has made it visible. *)
Lemma active_selection_not_shown :
  IsInSelectingState dragged = true /\
  IsAreaSelected dragged = true /\
  GetSelectionRects 80 dragged = [].
Proof. repeat split. Qed.

(** C4, amended.  [ShowSelection] makes a selection in the selecting state
    with a selected area visible; a selection that is not visible has no
    rectangles; a visible selection has the rectangles
    of the text span from the anchor to the opposite corner of the
    selection rectangle, in block mode unless the selection is a line
    selection: at least one, each a single row; and when the anchor is a
    corner of the rectangle, one for each row from its top to its bottom
    and, in block mode, each from its left to its right column. *)
Theorem visible_selection_rects (w : Z) (s : Selection) :
  (IsInSelectingState s = true -> IsAreaSelected s = true ->
   _fSelectionVisible (ShowSelection s) = true) /\
  (_fSelectionVisible s = false -> GetSelectionRects w s = []) /\
  (_fSelectionVisible s = true ->
   let anchor := _coordSelectionAnchor s in
   let rect := _srSelectionRect s in
   let endSelectionAnchor :=
     mkCOORD (if X anchor =? Left rect then Right rect else Left rect)
             (if Y anchor =? Top rect then Bottom rect else Top rect) in
   let rects := GetSelectionRects w s in
   rects = GetTextRects w anchor endSelectionAnchor
                        (negb (IsLineSelection s)) /\
   rects <> [] /\
   Forall (fun r => Top r = Bottom r) rects /\
   ((X anchor = Left rect \/ X anchor = Right rect) ->
    (Y anchor = Top rect \/ Y anchor = Bottom rect) ->
    Left rect <= Right rect -> Top rect <= Bottom rect ->
    Top <$> rects = seqZ (Top rect) (Bottom rect - Top rect + 1) /\
    (IsLineSelection s = false ->
     Forall (fun r => Left r = Left rect /\ Right r = Right rect) rects))).
Proof.
  split; [| split].
  - intros Hsel Harea. unfold ShowSelection, _SetSelectionVisibility.
    rewrite Hsel, Harea. simpl.
    destruct (_fSelectionVisible s) eqn:Hvis; simpl.
    + exact Hvis.
    + reflexivity.
  - intros Hvis. unfold GetSelectionRects. rewrite Hvis. reflexivity.
  - intros Hvis anchor rect endSelectionAnchor rects.
    assert (Hrects : rects = GetTextRects w anchor endSelectionAnchor
                                          (negb (IsLineSelection s))).
    { subst rects. unfold GetSelectionRects. rewrite Hvis. reflexivity. }
    split; [exact Hrects |]. rewrite Hrects.
    split; [apply GetTextRects_nonempty |].
    split; [apply GetTextRects_single_rows |].
    intros Hx Hy Hlr Htb. split.
    + rewrite GetTextRects_rows. subst endSelectionAnchor. simpl.
      destruct (Z.eqb_spec (Y anchor) (Top rect)); f_equal; lia.
    + intros Hblock. rewrite Hblock. simpl.
      eapply Forall_impl; [apply GetTextRects_block |].
      intros r [Hl Hr]. subst endSelectionAnchor. simpl in Hl, Hr.
      destruct (Z.eqb_spec (X anchor) (Left rect)); split; lia.
Qed.

Lemma visible_selection_rects_witness :
  _fSelectionVisible dragged_shown = true /\
  GetSelectionRects 80 dragged_shown <> [] /\
  GetSelectionRects 80 dragged_shown = [mkRECT 10 5 20 5].
Proof.
  assert (Hvis : _fSelectionVisible dragged_shown = true) by reflexivity.
  split; [exact Hvis |]. split.
  - exact (proj1 (proj2 (proj2 (proj2 (visible_selection_rects
                                         80 dragged_shown)) Hvis))).
  - reflexivity.
Defined.

End Sel.

(** ** [TextColor] (buffer/out/TextColor.h) *)

Module Color.
Import Win.

(** [enum class ColorType]. *)
Inductive ColorType := IsIndex256 | IsIndex16 | IsDefault | IsRgb.

(** [struct TextColor]; [_red] and [_index] are one byte (a union). *)
Record TextColor := mkTextColor {
  _meta : ColorType;
  _red : Z;
  _green : Z;
  _blue : Z
}.

Definition _index (c : TextColor) : Z := _red c.

(** [GetRValue], [GetGValue], [GetBValue] and [RGB] of wingdi.h. *)
Definition GetRValue (rgb : COLORREF) : Z := Z.land rgb 255.
Definition GetGValue (rgb : COLORREF) : Z := Z.land (Z.shiftr rgb 8) 255.
Definition GetBValue (rgb : COLORREF) : Z := Z.land (Z.shiftr rgb 16) 255.
Definition RGB (r g b : Z) : COLORREF :=
  Z.lor (Z.lor r (Z.shiftl g 8)) (Z.shiftl b 16).

(** The three constructors of the header. *)
Definition TextColor_default : TextColor := mkTextColor IsDefault 0 0 0.

(** The index parameter is a [BYTE]: an integer given for it is
    converted at the call, modulo 256. *)
Definition to_BYTE (z : Z) : Z := z mod 256.

Definition TextColor_index (index : Z) (isIndex256 : bool) : TextColor :=
  mkTextColor (if isIndex256 then IsIndex256 else IsIndex16)
              (to_BYTE index) 0 0.

Definition TextColor_rgb (rgb : COLORREF) : TextColor :=
  mkTextColor IsRgb (GetRValue rgb) (GetGValue rgb) (GetBValue rgb).

(** Modelled from the spec: the member functions that TextColor.h declares
    and TextColor.cpp, which is not among the sources, defines.  The tag
    tells the kind of the color; "CanBeBrightened" is true only for
    Indexed16 colors 0 to 7; an RGB color resolves to its stored value. *)
Definition IsIndex16_ (c : TextColor) : bool :=
  match _meta c with IsIndex16 => true | _ => false end.

Definition CanBeBrightened (c : TextColor) : bool :=
  IsIndex16_ c && (_index c <? 8).

Definition GetRGB (c : TextColor) : COLORREF :=
  RGB (_red c) (_green c) (_blue c).

Section GetColor.

(** The fixed luminance offset of the brightened variant, as a function
    of the color it is added to. *)
Variable luminance_offset : COLORREF -> COLORREF.

(** Modelled from the spec: [TextColor::GetColor] (TextColor.cpp, not
    among the sources).  Default resolves to [defaultColor]; an index to
    the entry of the table, with the luminance offset when brightening is
    requested and the color can be brightened; RGB to the stored value.
    An index outside the table has no entry, [None]. *)
Definition GetColor (colorTable : list COLORREF) (defaultColor : COLORREF)
    (brighten : bool) (c : TextColor) : option COLORREF :=
  match _meta c with
  | IsDefault => Some defaultColor
  | IsRgb => Some (GetRGB c)
  | IsIndex16 | IsIndex256 =>
      let entry := colorTable !! Z.to_nat (_index c) in
      if brighten && CanBeBrightened c
      then luminance_offset <$> entry
      else entry
  end.

End GetColor.

Lemma byte_bits (z : Z) (n : Z) :
  0 <= n -> Z.testbit (Z.land z 255) n = Z.testbit z n && (n <? 8).
Proof.
  intros Hn. change 255 with (Z.ones 8).
  destruct (Z.ltb_spec n 8).
  - rewrite Z.land_spec, Z.ones_spec_low by lia. reflexivity.
  - rewrite Z.land_spec, Z.ones_spec_high by lia. reflexivity.
Qed.

(** A color of 24 bits is stored whole. *)
Lemma RGB_of_bytes (rgb : COLORREF) :
  0 <= rgb < 16777216 ->
  RGB (GetRValue rgb) (GetGValue rgb) (GetBValue rgb) = rgb.
Proof.
  intros Hrgb. unfold RGB, GetRValue, GetGValue, GetBValue.
  apply Z.bits_inj'. intros n Hn.
  rewrite !Z.lor_spec, !Z.shiftl_spec by lia.
  rewrite byte_bits by lia.
  destruct (Z.ltb_spec n 8).
  - rewrite (Z.testbit_neg_r _ (n - 8)), (Z.testbit_neg_r _ (n - 16)) by lia.
    rewrite andb_true_r, !orb_false_r. reflexivity.
  - rewrite andb_false_r. simpl.
    destruct (Z.ltb_spec n 16).
    + rewrite (Z.testbit_neg_r _ (n - 16)) by lia. rewrite orb_false_r.
      rewrite byte_bits, Z.shiftr_spec by lia.
      replace (n - 8 + 8) with n by lia.
      destruct (Z.ltb_spec (n - 8) 8); [| lia].
      apply andb_true_r.
    + rewrite !byte_bits, !Z.shiftr_spec by lia.
      replace (n - 8 + 8) with n by lia.
      replace (n - 16 + 16) with n by lia.
      destruct (Z.ltb_spec (n - 8) 8); [lia |].
      rewrite andb_false_r. simpl.
      destruct (Z.ltb_spec (n - 16) 8).
      * apply andb_true_r.
      * rewrite andb_false_r. symmetry.
        apply (Z.bits_above_log2 rgb n); [lia |].
        destruct (Z.eq_dec rgb 0) as [-> | Hnz]; [simpl; lia |].
        apply Z.log2_lt_pow2; [lia |].
        apply Z.lt_le_trans with (2 ^ 24); [simpl; lia |].
        apply Z.pow_le_mono_r; lia.
Qed.

(** C6.  [GetColor] resolves by the tag: a Default color to
    [defaultColor]; an Indexed16 or Indexed256 color to the entry of the
    table at its index, with the luminance offset exactly when
    brightening is requested and the color is an Indexed16 one of index
    0 to 7; an RGB color to its stored value, which for a color built from
    a 24-bit value is that value.  After entry 1 of the table is set to a
    value, and so to 0x0000FF, [TextColor(1, false)] resolves to it. *)
Theorem GetColor_by_tag (luminance_offset : COLORREF -> COLORREF)
    (colorTable : list COLORREF) (defaultColor : COLORREF) (brighten : bool) :
  (forall c : TextColor,
      GetColor luminance_offset colorTable defaultColor brighten c =
      match _meta c with
      | IsDefault => Some defaultColor
      | IsRgb => Some (RGB (_red c) (_green c) (_blue c))
      | IsIndex16 =>
          if brighten && (_index c <? 8)
          then luminance_offset <$> colorTable !! Z.to_nat (_index c)
          else colorTable !! Z.to_nat (_index c)
      | IsIndex256 => colorTable !! Z.to_nat (_index c)
      end) /\
  (forall rgb : COLORREF,
      0 <= rgb < 16777216 ->
      GetColor luminance_offset colorTable defaultColor brighten
               (TextColor_rgb rgb) = Some rgb) /\
  (forall value : COLORREF,
      (1 < length colorTable)%nat ->
      exists table' : list COLORREF,
        GetSet.SetColorTableEntry 1 value colorTable = Some table' /\
        GetColor luminance_offset table' defaultColor false
                 (TextColor_index 1 false) = Some value).
Proof.
  split; [| split].
  - intros c. unfold GetColor, CanBeBrightened, IsIndex16_.
    destruct (_meta c); simpl; try reflexivity.
    rewrite andb_false_r. reflexivity.
  - intros rgb Hrgb. unfold GetColor, TextColor_rgb, GetRGB. simpl.
    rewrite RGB_of_bytes by exact Hrgb. reflexivity.
  - intros value Hlen. exists (<[1%nat := value]> colorTable). split.
    + unfold GetSet.SetColorTableEntry.
      destruct (Z.ltb_spec 1 (Z.of_nat (length colorTable))); [| lia].
      reflexivity.
    + unfold GetColor. simpl. apply list_lookup_insert_eq. exact Hlen.
Qed.

Lemma GetColor_by_tag_witness :
  let table := repeat 0 256 in
  (1 < length table)%nat /\
  0 <= 255 < 16777216 /\
  GetColor (fun c => c) table 0 false (TextColor_rgb 255) = Some 255 /\
  exists table' : list COLORREF,
    GetSet.SetColorTableEntry 1 255 table = Some table' /\
    GetColor (fun c => c) table' 0 false (TextColor_index 1 false) = Some 255.
Proof.
  intros table.
  assert (Hlen : (1 < length table)%nat)
    by (subst table; rewrite repeat_length; lia).
  assert (Hrgb : 0 <= 255 < 16777216) by lia.
  split; [exact Hlen |]. split; [exact Hrgb |].
  destruct (GetColor_by_tag (fun c => c) table 0 false) as [_ [Hstored Hset]].
  split.
  - exact (Hstored 255 Hrgb).
  - exact (Hset 255 Hlen).
Defined.

End Color.

(** ** More of selection.cpp: clearing, new regions, and what they keep *)

Module SelMore.
Import Win Sel.

(** [_SetSelectingState]: the bit [CONSOLE_SELECTING] of the console
    flags, here the field [fSelecting]. *)
Definition _SetSelectingState (fSelectingOn : bool) (s : Selection)
  : Selection :=
  mkSel fSelectingOn (_fSelectionVisible s) (_dwSelectionFlags s)
        (_fLineSelection s) (_fUseAlternateSelection s)
        (_allowMouseDragSelection s) (_srSelectionRect s)
        (_coordSelectionAnchor s).

Definition set_alternate (b : bool) (s : Selection) : Selection :=
  mkSel (fSelecting s) (_fSelectionVisible s) (_dwSelectionFlags s)
        (_fLineSelection s) b (_allowMouseDragSelection s)
        (_srSelectionRect s) (_coordSelectionAnchor s).

Definition set_anchor (a : COORD) (s : Selection) : Selection :=
  mkSel (fSelecting s) (_fSelectionVisible s) (_dwSelectionFlags s)
        (_fLineSelection s) (_fUseAlternateSelection s)
        (_allowMouseDragSelection s) (_srSelectionRect s) a.

(** What clearing a selection does outside the [Selection] object. *)
Inductive Effect :=
| PaintSelection
| SignalUia
| UpdateWindowText
| CursorHasMoved
| RestoreDataToCursor
| UnblockWriteConsole.

(** The calls [_SetSelectionVisibility] makes, beside the change of the
    flag: nothing on its early return, else a repaint when the flag
    changes and the UIA signal. *)
Definition _SetSelectionVisibility_calls (fMakeVisible : bool)
    (s : Selection) : list Effect :=
  if IsInSelectingState s && IsAreaSelected s then
    if Bool.eqb fMakeVisible (_fSelectionVisible s) then []
    else [PaintSelection; SignalUia]
  else [SignalUia].

(** [Selection::_CancelMouseSelection]. *)
Definition _CancelMouseSelection (s : Selection) : Selection * list Effect :=
  let calls := _SetSelectionVisibility_calls false s in
  let s := HideSelection s in
  let s := _SetSelectingState false s in
  (s, calls ++ [UpdateWindowText; CursorHasMoved]).

(** [Selection::_CancelMarkSelection]. *)
Definition _CancelMarkSelection (s : Selection) : Selection * list Effect :=
  let '(s, calls) :=
    if IsAreaSelected s
    then (HideSelection s, _SetSelectionVisibility_calls false s)
    else (s, []) in
  let s := _SetSelectingState false s in
  (s, calls ++ [UpdateWindowText; RestoreDataToCursor]).

(** [Selection::ClearSelection(fStartingNewSelection)]. *)
Definition ClearSelection (fStartingNewSelection : bool) (s : Selection)
  : Selection * list Effect :=
  if IsInSelectingState s then
    let '(s, calls) :=
      if IsMouseInitiatedSelection s
      then _CancelMouseSelection s
      else _CancelMarkSelection s in
    let s := set_flags 0 s in
    let s := set_alternate false s in
    (s, calls ++ [SignalUia]
          ++ (if fStartingNewSelection then [] else [UnblockWriteConsole]))
  else (s, []).

Section Regions.

Variable View : Type.
Variable MakeCursorVisible : COORD -> View -> View.
Variable bounds : SMALL_RECT.

(** [Selection::AdjustSelection]. *)
Definition AdjustSelection (coordSelectionStart coordSelectionEnd : COORD)
    (st : Selection * View) : Selection * View :=
  let '(s, view) := st in
  let s := set_anchor coordSelectionStart s in
  let '(s, view) :=
    ExtendSelection View MakeCursorVisible bounds coordSelectionEnd
                    (s, view) in
  (set_allowDrag false s, view).

(** [Selection::SelectNewRegion]; [altPressed] as for
    [InitializeMouseSelection]. *)
Definition SelectNewRegion (altPressed : bool) (coordStart coordEnd : COORD)
    (st : Selection * View) : Selection * View :=
  let '(s, view) := st in
  let s := fst (ClearSelection false s) in
  let s := InitializeMouseSelection altPressed coordStart s in
  let s := ShowSelection s in
  ExtendSelection View MakeCursorVisible bounds coordEnd (s, view).

End Regions.

(** The corner of the selection rectangle opposite to the anchor, as
    [GetSelectionRects] computes it. *)
Definition endSelectionAnchor (s : Selection) : COORD :=
  let anchor := _coordSelectionAnchor s in
  let rect := _srSelectionRect s in
  mkCOORD (if X anchor =? Left rect then Right rect else Left rect)
          (if Y anchor =? Top rect then Bottom rect else Top rect).

(** A visible selection is in the selecting state and has an area. *)
Definition shown_is_active (s : Selection) : Prop :=
  _fSelectionVisible s = true ->
  IsInSelectingState s = true /\ IsAreaSelected s = true.

Definition within (bounds r : SMALL_RECT) : Prop :=
  Left bounds <= Left r /\ Left r <= Right r /\ Right r <= Right bounds /\
  Top bounds <= Top r /\ Top r <= Bottom r /\ Bottom r <= Bottom bounds.

Definition bounding (a p : COORD) : SMALL_RECT :=
  mkRECT (Z.min (X p) (X a)) (Z.min (Y p) (Y a))
         (Z.max (X p) (X a)) (Z.max (Y p) (Y a)).

Section RegionFacts.

Variable View : Type.
Variable MakeCursorVisible : COORD -> View -> View.
Variable bounds : SMALL_RECT.

(** The selection one call of [ExtendSelection] leaves, case by case. *)
Lemma ExtendSelection_result pos s view :
  fst (ExtendSelection View MakeCursorVisible bounds pos (s, view)) =
  match Clamp bounds pos with
  | None => set_allowDrag true s
  | Some p =>
      if IsAreaSelected s
      then set_rect (bounding (_coordSelectionAnchor s) p)
                    (set_allowDrag true s)
      else if IsMouseInitiatedSelection s then set_allowDrag true s
      else
        set_rect (bounding (_coordSelectionAnchor s) p)
          (ShowSelection
             (set_rect (mkRECT (X (_coordSelectionAnchor s))
                               (Y (_coordSelectionAnchor s))
                               (X (_coordSelectionAnchor s))
                               (Y (_coordSelectionAnchor s)))
                (set_flags (Z.lor (_dwSelectionFlags s)
                                  CONSOLE_SELECTION_NOT_EMPTY)
                           (set_allowDrag true s))))
  end.
Proof.
  unfold ExtendSelection. destruct (Clamp bounds pos) as [p |]; [| reflexivity].
  change (IsAreaSelected (set_allowDrag true s)) with (IsAreaSelected s).
  change (IsMouseInitiatedSelection (set_allowDrag true s))
    with (IsMouseInitiatedSelection s).
  destruct (IsAreaSelected s); simpl.
  - rewrite srNewSelection_bounding. reflexivity.
  - destruct (IsMouseInitiatedSelection s); simpl; [reflexivity |].
    rewrite srNewSelection_bounding. f_equal.
    unfold ShowSelection, _SetSelectionVisibility.
    destruct (IsInSelectingState _ && IsAreaSelected _); [| reflexivity].
    destruct (Bool.eqb true _); reflexivity.
Qed.

Lemma Clamp_lands p pos :
  Clamp bounds pos = Some p -> InBounds bounds p.
Proof.
  unfold Clamp, InBounds.
  destruct (Z.leb_spec (Left bounds) (Right bounds)); [| discriminate].
  destruct (Z.leb_spec (Top bounds) (Bottom bounds)); [| discriminate].
  simpl. intros Hsome. injection Hsome as <-. simpl. lia.
Qed.

Lemma Hide_not_visible s :
  shown_is_active s -> _fSelectionVisible (HideSelection s) = false.
Proof.
  unfold shown_is_active, HideSelection, _SetSelectionVisibility.
  intros Hinv.
  destruct (IsInSelectingState s && IsAreaSelected s) eqn:Eact.
  - destruct (_fSelectionVisible s) eqn:Evis; simpl;
      [reflexivity | exact Evis].
  - destruct (_fSelectionVisible s) eqn:Evis; [| reflexivity].
    destruct (Hinv eq_refl) as [H1 H2]. rewrite H1, H2 in Eact.
    discriminate Eact.
Qed.

Lemma ClearSelection_selecting b s :
  IsInSelectingState s = true ->
  shown_is_active s ->
  let s' := fst (ClearSelection b s) in
  IsInSelectingState s' = false /\ _fSelectionVisible s' = false /\
  _dwSelectionFlags s' = 0 /\ _fUseAlternateSelection s' = false.
Proof.
  intros Hsel Hinv. unfold ClearSelection. rewrite Hsel.
  pose proof (Hide_not_visible s Hinv) as Hhide.
  destruct (IsMouseInitiatedSelection s).
  - unfold _CancelMouseSelection. simpl. repeat split. exact Hhide.
  - unfold _CancelMarkSelection.
    destruct (IsAreaSelected s) eqn:Earea; simpl.
    + repeat split. exact Hhide.
    + repeat split.
      destruct (_fSelectionVisible s) eqn:Evis; [| reflexivity].
      destruct (Hinv Evis) as [_ H2]. congruence.
Qed.

End RegionFacts.

(** X1.  A visible selection is always in the selecting state with a
    selected area: the selection object starts that way, and starting a
    mouse selection, showing, hiding, extending, adjusting, clearing and
    selecting a new region all keep it so. *)
Theorem shown_is_active_kept (View : Type)
    (MakeCursorVisible : COORD -> View -> View) (bounds : SMALL_RECT)
    (s : Selection) (view : View) :
  shown_is_active Selection_new /\
  (shown_is_active s ->
   (forall alt pos, shown_is_active (InitializeMouseSelection alt pos s)) /\
   shown_is_active (ShowSelection s) /\
   shown_is_active (HideSelection s) /\
   (forall pos,
       shown_is_active
         (fst (ExtendSelection View MakeCursorVisible bounds pos
                               (s, view)))) /\
   (forall a e,
       shown_is_active
         (fst (AdjustSelection View MakeCursorVisible bounds a e
                               (s, view)))) /\
   (forall b, shown_is_active (fst (ClearSelection b s))) /\
   (forall alt a e,
       shown_is_active
         (fst (SelectNewRegion View MakeCursorVisible bounds alt a e
                               (s, view))))).
Proof.
  assert (Hshow : forall t, shown_is_active t ->
                            shown_is_active (ShowSelection t)).
  { intros t Ht. unfold shown_is_active, ShowSelection,
      _SetSelectionVisibility, IsInSelectingState, IsAreaSelected in *.
    destruct t as [sel vis flags line alt drag rect anchor]. simpl in *.
    destruct sel; simpl; [| exact Ht].
    destruct (WI_IsFlagSet flags CONSOLE_SELECTION_NOT_EMPTY) eqn:E; simpl.
    - destruct vis; simpl; rewrite ?E; intros _; split; reflexivity.
    - rewrite ?E. exact Ht. }
  assert (Hext : forall t pos, shown_is_active t ->
                   shown_is_active
                     (fst (ExtendSelection View MakeCursorVisible bounds pos
                                           (t, view)))).
  { intros t pos Ht. rewrite ExtendSelection_result.
    destruct (Clamp bounds pos) as [p |]; [| exact Ht].
    destruct (IsAreaSelected t) eqn:Earea; [exact Ht |].
    destruct (IsMouseInitiatedSelection t); [exact Ht |].
    match goal with
    | |- shown_is_active (set_rect ?r (ShowSelection ?u)) =>
        change (shown_is_active (set_rect r (ShowSelection u)))
          with (shown_is_active (ShowSelection u));
        apply Hshow
    end.
    unfold shown_is_active, IsInSelectingState, IsAreaSelected in *.
    simpl. intros Hvis. destruct (Ht Hvis) as [_ H2]. congruence. }
  assert (Hinit : forall t alt pos,
                    shown_is_active (InitializeMouseSelection alt pos t)).
  { intros t alt pos _. split; reflexivity. }
  assert (Hclear : forall t b, shown_is_active t ->
                               shown_is_active (fst (ClearSelection b t))).
  { intros t b Ht. destruct (IsInSelectingState t) eqn:Esel.
    - destruct (ClearSelection_selecting b t Esel Ht) as [_ [Hvis _]].
      intros Hshown. rewrite Hvis in Hshown. discriminate Hshown.
    - unfold ClearSelection. rewrite Esel. exact Ht. }
  split.
  - intros Hvis. discriminate Hvis.
  - intros Hs.
    split; [intros alt pos; apply Hinit |].
    split; [apply Hshow; exact Hs |].
    split.
    { intros Hvis. rewrite (Hide_not_visible s Hs) in Hvis.
      discriminate Hvis. }
    split; [intros pos; apply Hext; exact Hs |].
    split.
    { intros a e. unfold AdjustSelection.
      pose proof (Hext (set_anchor a s) e Hs) as H.
      destruct (ExtendSelection View MakeCursorVisible bounds e
                                (set_anchor a s, view)) as [s1 view1].
      exact H. }
    split; [intros b; apply Hclear; exact Hs |].
    intros alt a e. unfold SelectNewRegion.
    apply Hext, Hshow, Hinit.
Qed.

Lemma shown_is_active_kept_witness :
  shown_is_active Selection_new /\
  shown_is_active (fst (ClearSelection false Sel.dragged_shown)) /\
  shown_is_active
    (fst (SelectNewRegion unit (fun _ v => v) Sel.bounds0 false
                          (mkCOORD 10 5) (mkCOORD 20 5)
                          (Selection_new, tt))).
Proof.
  destruct (shown_is_active_kept unit (fun _ v => v) Sel.bounds0
              Selection_new tt) as [Hnew Hkept].
  destruct (Hkept Hnew) as [_ [_ [_ [_ [_ [_ Hregion]]]]]].
  split; [exact Hnew |]. split.
  - destruct (shown_is_active_kept unit (fun _ v => v) Sel.bounds0
                Sel.dragged_shown tt) as [_ Hk].
    assert (Hd : shown_is_active Sel.dragged_shown)
      by (intros _; split; reflexivity).
    destruct (Hk Hd) as [_ [_ [_ [_ [_ [Hclear _]]]]]].
    exact (Hclear false).
  - exact (Hregion false (mkCOORD 10 5) (mkCOORD 20 5)).
Defined.

Lemma SetSelectionVisibility_keeps b t :
  let t' := _SetSelectionVisibility b t in
  fSelecting t' = fSelecting t /\
  _dwSelectionFlags t' = _dwSelectionFlags t /\
  _fLineSelection t' = _fLineSelection t /\
  _fUseAlternateSelection t' = _fUseAlternateSelection t /\
  _srSelectionRect t' = _srSelectionRect t /\
  _coordSelectionAnchor t' = _coordSelectionAnchor t.
Proof.
  unfold _SetSelectionVisibility.
  destruct (IsInSelectingState t && IsAreaSelected t);
    [destruct (Bool.eqb b (_fSelectionVisible t)) |];
    repeat split.
Qed.

Lemma endSelectionAnchor_bounding s a e :
  _coordSelectionAnchor s = a -> _srSelectionRect s = bounding a e ->
  endSelectionAnchor s = e.
Proof.
  intros Ha Hr. unfold endSelectionAnchor. rewrite Ha, Hr.
  destruct a as [ax ay], e as [ex ey]. unfold bounding. simpl.
  destruct (Z.eqb_spec ax (Z.min ex ax)), (Z.eqb_spec ay (Z.min ey ay));
    f_equal; lia.
Qed.

(** X2.  Clearing a selection whose visibility is consistent leaves an
    idle selection with no rectangles, its flags and the alternate mode
    reset if it was selecting; it calls [UnblockWriteConsole] exactly when
    it was selecting and no new selection is about to start; clearing
    again, or clearing an idle selection, does nothing at all. *)
Theorem ClearSelection_idle (w : Z) (b b' : bool) (s : Selection) :
  shown_is_active s ->
  let r := ClearSelection b s in
  IsInSelectingState (fst r) = false /\
  _fSelectionVisible (fst r) = false /\
  GetSelectionRects w (fst r) = [] /\
  ClearSelection b' (fst r) = (fst r, []) /\
  (IsInSelectingState s = false -> r = (s, [])) /\
  (IsInSelectingState s = true ->
   _dwSelectionFlags (fst r) = 0 /\
   _fUseAlternateSelection (fst r) = false /\
   (List.In UnblockWriteConsole (snd r) <-> b = false)).
Proof.
  intros Hinv r.
  assert (Hidle : IsInSelectingState (fst r) = false /\
                  _fSelectionVisible (fst r) = false).
  { subst r. destruct (IsInSelectingState s) eqn:Esel.
    - destruct (ClearSelection_selecting b s Esel Hinv) as [H1 [H2 _]].
      split; assumption.
    - unfold ClearSelection. rewrite Esel. simpl. split; [exact Esel |].
      destruct (_fSelectionVisible s) eqn:Evis; [| reflexivity].
      destruct (Hinv Evis) as [H1 _]. congruence. }
  destruct Hidle as [Hnot Hvis].
  split; [exact Hnot |]. split; [exact Hvis |].
  split; [unfold GetSelectionRects; rewrite Hvis; reflexivity |].
  split; [unfold ClearSelection at 1; rewrite Hnot; reflexivity |].
  split.
  - intros Esel. subst r. unfold ClearSelection. rewrite Esel. reflexivity.
  - intros Esel.
    destruct (ClearSelection_selecting b s Esel Hinv) as [_ [_ [Hf Ha]]].
    split; [exact Hf |]. split; [exact Ha |].
    subst r. unfold ClearSelection, _CancelMouseSelection,
      _CancelMarkSelection, _SetSelectionVisibility_calls.
    rewrite Esel. simpl.
    destruct (IsMouseInitiatedSelection s), (IsAreaSelected s),
      (_fSelectionVisible s), b; simpl;
      (split; intros H;
       [ first [ reflexivity
               | exfalso;
                 repeat (destruct H as [H | H]; try discriminate H);
                 exact H ]
       | first [ discriminate H
               | repeat (first [left; reflexivity | right]) ] ]).
Qed.

Lemma ClearSelection_idle_witness :
  shown_is_active Sel.dragged_shown /\
  IsInSelectingState Sel.dragged_shown = true /\
  GetSelectionRects 80 (fst (ClearSelection false Sel.dragged_shown)) = [] /\
  List.In UnblockWriteConsole (snd (ClearSelection false Sel.dragged_shown)).
Proof.
  assert (Hd : shown_is_active Sel.dragged_shown)
    by (intros _; split; reflexivity).
  assert (Hsel : IsInSelectingState Sel.dragged_shown = true) by reflexivity.
  split; [exact Hd |]. split; [exact Hsel |].
  destruct (ClearSelection_idle 80 false false Sel.dragged_shown Hd)
    as [_ [_ [Hrects [_ [_ Hwas]]]]].
  split; [exact Hrects |].
  destruct (Hwas Hsel) as [_ [_ Hunblock]]. apply Hunblock. reflexivity.
Defined.

(** X3.  [SelectNewRegion], from any state and for an end within the
    bounds of the buffer, leaves a visible selection in the selecting
    state whose anchor is the start, whose rectangle is the bounding
    rectangle of start and end and whose opposite corner is the end;
    [GetSelectionRects] then yields the rectangles of the text span from
    start to end. *)
Theorem SelectNewRegion_selects (View : Type)
    (MakeCursorVisible : COORD -> View -> View) (bounds : SMALL_RECT)
    (w : Z) (altPressed : bool) (coordStart coordEnd : COORD)
    (s : Selection) (view : View) :
  InBounds bounds coordEnd ->
  let s' :=
    fst (SelectNewRegion View MakeCursorVisible bounds altPressed
                         coordStart coordEnd (s, view)) in
  IsInSelectingState s' = true /\
  IsAreaSelected s' = true /\
  _fSelectionVisible s' = true /\
  _coordSelectionAnchor s' = coordStart /\
  _srSelectionRect s' = bounding coordStart coordEnd /\
  endSelectionAnchor s' = coordEnd /\
  GetSelectionRects w s'
  = GetTextRects w coordStart coordEnd
                 (negb (xorb (_fLineSelection s) altPressed)).
Proof.
  intros Hin s'.
  assert (Hs' : s' =
    set_rect (bounding coordStart coordEnd)
      (set_allowDrag true
         (ShowSelection
            (InitializeMouseSelection altPressed coordStart
                                      (fst (ClearSelection false s)))))).
  { subst s'. unfold SelectNewRegion. rewrite ExtendSelection_result.
    rewrite (Clamp_InBounds bounds coordEnd Hin).
    destruct (SetSelectionVisibility_keeps true
                (InitializeMouseSelection altPressed coordStart
                                          (fst (ClearSelection false s))))
      as [_ [Hflags [_ [_ [_ Hanchor]]]]].
    fold ShowSelection in Hflags, Hanchor.
    unfold IsAreaSelected. rewrite Hflags, Hanchor. reflexivity. }
  assert (Hvis : _fSelectionVisible s' = true).
  { rewrite Hs'. unfold ShowSelection, _SetSelectionVisibility. simpl.
    destruct (_fSelectionVisible (fst (ClearSelection false s))) eqn:E;
      simpl; [exact E | reflexivity]. }
  assert (Hfields :
    IsInSelectingState s' = true /\ IsAreaSelected s' = true /\
    _coordSelectionAnchor s' = coordStart /\
    _srSelectionRect s' = bounding coordStart coordEnd /\
    IsLineSelection s' = xorb (_fLineSelection s) altPressed).
  { assert (Hline : _fLineSelection (fst (ClearSelection false s))
                    = _fLineSelection s).
    { destruct (SetSelectionVisibility_keeps false s) as [_ [_ [Hl _]]].
      fold HideSelection in Hl.
      unfold ClearSelection, _CancelMouseSelection, _CancelMarkSelection.
      destruct (IsInSelectingState s); [| reflexivity].
      destruct (IsMouseInitiatedSelection s), (IsAreaSelected s);
        cbn [fst snd _fLineSelection set_flags set_alternate
             _SetSelectingState];
        first [exact Hl | reflexivity]. }
    rewrite Hs'.
    destruct (SetSelectionVisibility_keeps true
                (InitializeMouseSelection altPressed coordStart
                                          (fst (ClearSelection false s))))
      as [Hs [Hf [Hl [Ha [_ Han]]]]].
    fold ShowSelection in Hs, Hf, Hl, Ha, Han.
    unfold IsInSelectingState, IsAreaSelected, IsLineSelection.
    cbn [set_rect set_allowDrag fSelecting _dwSelectionFlags
         _fLineSelection _fUseAlternateSelection _srSelectionRect
         _coordSelectionAnchor].
    rewrite Hs, Hf, Hl, Ha, Han. simpl. rewrite Hline. repeat split. }
  destruct Hfields as [Hsel [Harea [Hanchor [Hrect Hline]]]].
  pose proof (endSelectionAnchor_bounding s' _ _ Hanchor Hrect) as Hend.
  repeat (split; [assumption |]).
  unfold GetSelectionRects. rewrite Hvis. simpl.
  fold (endSelectionAnchor s'). rewrite Hend, Hanchor, Hline. reflexivity.
Qed.

(** The example of a selection from (10, 5) to (20, 5) in line mode. *)
Lemma SelectNewRegion_selects_witness :
  InBounds Sel.bounds0 (mkCOORD 20 5) /\
  GetSelectionRects 80
    (fst (SelectNewRegion unit (fun _ v => v) Sel.bounds0 false
                          (mkCOORD 10 5) (mkCOORD 20 5) (Selection_new, tt)))
  = [mkRECT 10 5 20 5].
Proof.
  assert (Hin : InBounds Sel.bounds0 (mkCOORD 20 5)).
  { unfold InBounds, Sel.bounds0. simpl. lia. }
  split; [exact Hin |].
  destruct (SelectNewRegion_selects unit (fun _ v => v) Sel.bounds0 80 false
              (mkCOORD 10 5) (mkCOORD 20 5) Selection_new tt Hin)
    as [_ [_ [_ [_ [_ [_ Hrects]]]]]].
  etransitivity; [exact Hrects | reflexivity].
Defined.

(** X4.  Wherever the position given to [ExtendSelection] lies, the
    rectangle it leaves (when the call does not return early) is the
    bounding rectangle of the anchor and the position clamped to the
    buffer, and it lies within the bounds of the buffer if the anchor
    does. *)
Theorem ExtendSelection_within_bounds (View : Type)
    (MakeCursorVisible : COORD -> View -> View) (bounds : SMALL_RECT)
    (pos : COORD) (s : Selection) (view : View) :
  Left bounds <= Right bounds -> Top bounds <= Bottom bounds ->
  InBounds bounds (_coordSelectionAnchor s) ->
  IsAreaSelected s = true \/ IsMouseInitiatedSelection s = false ->
  let s' := fst (ExtendSelection View MakeCursorVisible bounds pos (s, view)) in
  exists p : COORD,
    Clamp bounds pos = Some p /\ InBounds bounds p /\
    _srSelectionRect s' = bounding (_coordSelectionAnchor s) p /\
    within bounds (_srSelectionRect s').
Proof.
  intros Hlr Htb Hanchor Hproceeds s'.
  destruct (Clamp bounds pos) as [p |] eqn:Hclamp.
  - exists p. pose proof (Clamp_lands bounds p pos Hclamp) as Hp.
    assert (Hrect : _srSelectionRect s'
                    = bounding (_coordSelectionAnchor s) p).
    { subst s'. rewrite ExtendSelection_result, Hclamp.
      destruct (IsAreaSelected s) eqn:Earea; [reflexivity |].
      destruct (IsMouseInitiatedSelection s) eqn:Emouse; [| reflexivity].
      destruct Hproceeds as [H | H]; discriminate H. }
    split; [reflexivity |]. split; [exact Hp |]. split; [exact Hrect |].
    rewrite Hrect. unfold within, bounding, InBounds in *. simpl. lia.
  - exfalso. unfold Clamp in Hclamp.
    destruct (Z.leb_spec (Left bounds) (Right bounds)); [| lia].
    destruct (Z.leb_spec (Top bounds) (Bottom bounds)); [| lia].
    discriminate Hclamp.
Qed.

(** The mouse is dragged far to the right of and below an 80 by 25
    buffer. *)
Lemma ExtendSelection_within_bounds_witness :
  InBounds Sel.bounds0 (mkCOORD 10 5) /\
  _srSelectionRect
    (fst (ExtendSelection unit (fun _ v => v) Sel.bounds0 (mkCOORD 500 300)
            (InitializeMouseSelection false (mkCOORD 10 5) Selection_new, tt)))
  = mkRECT 10 5 79 24.
Proof.
  assert (Hin : InBounds Sel.bounds0 (mkCOORD 10 5)).
  { unfold InBounds, Sel.bounds0. simpl. lia. }
  split; [exact Hin |].
  destruct (ExtendSelection_within_bounds unit (fun _ v => v) Sel.bounds0
              (mkCOORD 500 300)
              (InitializeMouseSelection false (mkCOORD 10 5) Selection_new)
              tt ltac:(simpl; lia) ltac:(simpl; lia) Hin
              (or_introl eq_refl))
    as [p [Hclamp [_ [Hrect _]]]].
  rewrite Hrect. injection Hclamp as <-. reflexivity.
Defined.

(** X5.  The rectangle and the pair of anchor and opposite corner carry
    the same information: for a selection with an area whose anchor is a
    corner of its rectangle, within the bounds, extending to the opposite
    corner gives back the rectangle it had. *)
Theorem ExtendSelection_to_opposite_corner (View : Type)
    (MakeCursorVisible : COORD -> View -> View) (bounds : SMALL_RECT)
    (s : Selection) (view : View) :
  IsAreaSelected s = true ->
  within bounds (_srSelectionRect s) ->
  X (_coordSelectionAnchor s) = Left (_srSelectionRect s) \/
  X (_coordSelectionAnchor s) = Right (_srSelectionRect s) ->
  Y (_coordSelectionAnchor s) = Top (_srSelectionRect s) \/
  Y (_coordSelectionAnchor s) = Bottom (_srSelectionRect s) ->
  _srSelectionRect
    (fst (ExtendSelection View MakeCursorVisible bounds
                          (endSelectionAnchor s) (s, view)))
  = _srSelectionRect s.
Proof.
  intros Harea Hwithin Hx Hy.
  rewrite ExtendSelection_result, Harea.
  destruct s as [sel vis flags line alt drag rect anchor].
  destruct rect as [l t r b], anchor as [ax ay].
  unfold within, endSelectionAnchor in *. simpl in *.
  rewrite Clamp_InBounds.
  - unfold bounding. simpl.
    destruct (Z.eqb_spec ax l), (Z.eqb_spec ay t); f_equal; lia.
  - unfold InBounds. simpl.
    destruct (Z.eqb_spec ax l), (Z.eqb_spec ay t); simpl; lia.
Qed.

Lemma ExtendSelection_to_opposite_corner_witness :
  IsAreaSelected Sel.dragged_shown = true /\
  within Sel.bounds0 (_srSelectionRect Sel.dragged_shown) /\
  _srSelectionRect
    (fst (ExtendSelection unit (fun _ v => v) Sel.bounds0
                          (endSelectionAnchor Sel.dragged_shown)
                          (Sel.dragged_shown, tt)))
  = _srSelectionRect Sel.dragged_shown.
Proof.
  assert (Ha : IsAreaSelected Sel.dragged_shown = true) by reflexivity.
  assert (Hw : within Sel.bounds0 (_srSelectionRect Sel.dragged_shown)).
  { unfold within. vm_compute. repeat split; discriminate. }
  split; [exact Ha |]. split; [exact Hw |].
  apply ExtendSelection_to_opposite_corner.
  - exact Ha.
  - exact Hw.
  - left. reflexivity.
  - left. reflexivity.
Defined.

End SelMore.

(** ** More of HwndTerminal.cpp: runs of clicks, character input *)

Module HwndMore.
Import Win Hwnd.

Lemma LOWORD_mod l : LOWORD l = l mod 65536.
Proof. unfold LOWORD. change 65535 with (Z.ones 16). apply Z.land_ones. lia. Qed.

Lemma HIWORD_mod l : HIWORD l = (l / 65536) mod 65536.
Proof.
  unfold HIWORD. change 65535 with (Z.ones 16).
  rewrite Z.land_ones by lia. rewrite Z.shiftr_div_pow2 by lia. reflexivity.
Qed.

Lemma to_SHORT_range z : is_SHORT (to_SHORT z).
Proof.
  unfold is_SHORT, to_SHORT, SHORT_MIN, SHORT_MAX.
  pose proof (Z.mod_pos_bound (z + 32768) 65536 ltac:(lia)). lia.
Qed.

Lemma to_SHORT_word x : is_SHORT x -> to_SHORT (x mod 65536) = x.
Proof.
  unfold is_SHORT, to_SHORT, SHORT_MIN, SHORT_MAX. intros Hx.
  rewrite Zplus_mod_idemp_l. rewrite Z.mod_small; lia.
Qed.

(** X6.  The position of a mouse message is read from the low 32 bits of
    [lParam] as two signed 16-bit numbers: both coordinates are in the
    range of [SHORT], and a parameter packed from the words of [x] (low)
    and [y] (high), whatever lies above them, decodes to [(x, y)],
    negative coordinates included. *)
Theorem cursorPosition_decodes (lParam : Z) :
  (is_SHORT (px (cursorPosition lParam)) /\
   is_SHORT (py (cursorPosition lParam))) /\
  (forall x y above : Z,
      is_SHORT x -> is_SHORT y ->
      lParam = x mod 65536 + 65536 * (y mod 65536) + 4294967296 * above ->
      cursorPosition lParam = mkPoint x y).
Proof.
  split.
  - unfold cursorPosition, GET_X_LPARAM, GET_Y_LPARAM. simpl.
    split; apply to_SHORT_range.
  - intros x y above Hx Hy ->.
    unfold cursorPosition, GET_X_LPARAM, GET_Y_LPARAM.
    rewrite LOWORD_mod, HIWORD_mod.
    pose proof (Z.mod_pos_bound x 65536 ltac:(lia)) as Hxm.
    pose proof (Z.mod_pos_bound y 65536 ltac:(lia)) as Hym.
    assert (Hlow : (x mod 65536 + 65536 * (y mod 65536)
                    + 4294967296 * above) mod 65536 = x mod 65536).
    { replace (x mod 65536 + 65536 * (y mod 65536) + 4294967296 * above)
        with (x mod 65536 + (y mod 65536 + 65536 * above) * 65536) by lia.
      rewrite Z.mod_add by lia. apply Z.mod_small. lia. }
    assert (Hhigh : ((x mod 65536 + 65536 * (y mod 65536)
                      + 4294967296 * above) / 65536) mod 65536
                    = y mod 65536).
    { replace (x mod 65536 + 65536 * (y mod 65536) + 4294967296 * above)
        with (x mod 65536 + (y mod 65536 + 65536 * above) * 65536) by lia.
      rewrite Z.div_add by lia. rewrite (Z.div_small (x mod 65536)) by lia.
      replace (0 + (y mod 65536 + 65536 * above))
        with (y mod 65536 + above * 65536) by lia.
      rewrite Z.mod_add by lia. apply Z.mod_small. lia. }
    rewrite Hlow, Hhigh, !to_SHORT_word by assumption. reflexivity.
Qed.

(** The mouse is captured and two cells to the left of and above the
    window: x = -16, y = -32. *)
Lemma cursorPosition_decodes_witness :
  is_SHORT (-16) /\ is_SHORT (-32) /\
  cursorPosition 4292935664 = mkPoint (-16) (-32).
Proof.
  assert (Hx : is_SHORT (-16)) by (unfold is_SHORT, SHORT_MIN, SHORT_MAX; lia).
  assert (Hy : is_SHORT (-32)) by (unfold is_SHORT, SHORT_MIN, SHORT_MAX; lia).
  split; [exact Hx |]. split; [exact Hy |].
  apply (proj2 (cursorPosition_decodes 4292935664) (-16) (-32) 0 Hx Hy).
  reflexivity.
Defined.

Section Clicks.

Variable point_div : point -> size -> option point.
Variable hr_of_exception : HRESULT.

(** X7.  After [_StartSelection], however the click was counted, the
    recorded last-click position is the position of that click and the
    multi-click time is untouched; the recorded time is the second clock
    reading when the click took the single-click path, and the old one
    otherwise. *)
Theorem StartSelection_records_click (lParam : Z) (altPressed : bool)
    (fontSize : size) (now1 now2 : Z) (h : HwndTerminal) :
  let r :=
    _StartSelection point_div hr_of_exception lParam altPressed fontSize
                    now1 now2 h in
  let h' := snd (fst r) in
  let mapped := multiClickMapper (_multiClickCounter h') in
  _lastMouseClickPos h' = Some (cursorPosition lParam) /\
  _multiClickTime h' = _multiClickTime h /\
  _lastMouseClickTimestamp h'
  = (if (mapped =? 3) || (mapped =? 2)
     then _lastMouseClickTimestamp h else now2).
Proof.
  intros r h' mapped. subst r h' mapped.
  unfold _StartSelection, _NumberOfClicks.
  set (p := cursorPosition lParam).
  destruct (point_ne_opt p (_lastMouseClickPos h)
            || (now1 - _lastMouseClickTimestamp h >? _multiClickTime h))
    eqn:Htest.
  - simpl. repeat split.
  - apply repeated_click_test in Htest. destruct Htest as [Hpos _].
    destruct (multiClickMapper (wrap32 (_multiClickCounter h + 1)) =? 3)
      eqn:E3.
    + destruct (point_div p fontSize); simpl; rewrite E3; simpl;
        repeat split; exact Hpos.
    + destruct (multiClickMapper (wrap32 (_multiClickCounter h + 1)) =? 2)
        eqn:E2.
      * destruct (point_div p fontSize); simpl; rewrite E3, E2; simpl;
          repeat split; exact Hpos.
      * simpl. rewrite E3, E2. repeat split.
Qed.

Definition click (lParam : Z) (altPressed : bool) (fontSize : size)
    (now1 now2 : Z) (h : HwndTerminal) : HRESULT * HwndTerminal * list Call :=
  _StartSelection point_div hr_of_exception lParam altPressed fontSize
                  now1 now2 h.

Definition single_click_calls (altPressed : bool) : list Call :=
  [SetBlockSelection altPressed; ClearSelection; TriggerSelection].

Definition multi_click_calls (altPressed : bool) (cell : point)
    (mode : SelectionExpansionMode) : list Call :=
  [SetBlockSelection altPressed; MultiClickSelection cell mode;
   TriggerSelection].

Lemma point_ne_opt_same p : point_ne_opt p (Some p) = false.
Proof.
  unfold point_ne_opt. apply negb_false_iff. apply point_eqb_eq. reflexivity.
Qed.

Lemma click_fresh lParam alt fs now1 now2 h :
  ~ repeated_click (cursorPosition lParam) now1 h ->
  click lParam alt fs now1 now2 h
  = (S_OK,
     mkHwnd (_multiClickTime h) 1 now2 (Some (cursorPosition lParam))
            (Some (cursorPosition lParam)),
     single_click_calls alt).
Proof.
  intros Hnot. unfold click, _StartSelection, _NumberOfClicks.
  destruct (point_ne_opt (cursorPosition lParam) (_lastMouseClickPos h)
            || (now1 - _lastMouseClickTimestamp h >? _multiClickTime h))
    eqn:Htest.
  - reflexivity.
  - exfalso. apply Hnot. apply repeated_click_test. exact Htest.
Qed.

(** A click on a state that records the same position, by the time it
    arrives and the counter it finds. *)
Lemma click_on_record lParam alt fs now1 now2 T c ts touch :
  let p := cursorPosition lParam in
  click lParam alt fs now1 now2 (mkHwnd T c ts (Some p) touch) =
  let count := if now1 - ts >? T then 1 else wrap32 (c + 1) in
  let h1 := mkHwnd T count ts (Some p) touch in
  if multiClickMapper count =? 3 then
    match point_div p fs with
    | Some cell => (S_OK, h1, multi_click_calls alt cell Line)
    | None => (hr_of_exception, h1, [SetBlockSelection alt])
    end
  else if multiClickMapper count =? 2 then
    match point_div p fs with
    | Some cell => (S_OK, h1, multi_click_calls alt cell Word)
    | None => (hr_of_exception, h1, [SetBlockSelection alt])
    end
  else (S_OK, mkHwnd T count now2 (Some p) (Some p), single_click_calls alt).
Proof.
  intros p. unfold click, _StartSelection, _NumberOfClicks. fold p.
  cbn [_lastMouseClickPos _lastMouseClickTimestamp _multiClickTime
       _multiClickCounter _singleClickTouchdownPos].
  rewrite point_ne_opt_same. simpl orb.
  destruct (now1 - ts >? T); reflexivity.
Qed.

(** X8.  A run of clicks on one spot, each within the multi-click time of
    the first: the first clears the selection and marks the touch-down,
    the second selects a word, the third a line, the fourth is a single
    click again (the counter stands at 4) and restarts the clock, so that
    a fifth click within the multi-click time of the fourth selects a
    word. *)
Theorem five_clicks (lParam : Z) (altPressed : bool) (fontSize : size)
    (cell : point) (h : HwndTerminal)
    (t1 t1' t2 t2' t3 t3' t4 t4' t5 t5' : Z) :
  let p := cursorPosition lParam in
  let T := _multiClickTime h in
  point_div p fontSize = Some cell ->
  ~ repeated_click p t1 h ->
  t2 - t1' <= T -> t3 - t1' <= T -> t4 - t1' <= T -> t5 - t4' <= T ->
  let r1 := click lParam altPressed fontSize t1 t1' h in
  let r2 := click lParam altPressed fontSize t2 t2' (snd (fst r1)) in
  let r3 := click lParam altPressed fontSize t3 t3' (snd (fst r2)) in
  let r4 := click lParam altPressed fontSize t4 t4' (snd (fst r3)) in
  let r5 := click lParam altPressed fontSize t5 t5' (snd (fst r4)) in
  r1 = (S_OK, mkHwnd T 1 t1' (Some p) (Some p), single_click_calls altPressed)
  /\ r2 = (S_OK, mkHwnd T 2 t1' (Some p) (Some p),
           multi_click_calls altPressed cell Word)
  /\ r3 = (S_OK, mkHwnd T 3 t1' (Some p) (Some p),
           multi_click_calls altPressed cell Line)
  /\ r4 = (S_OK, mkHwnd T 4 t4' (Some p) (Some p),
           single_click_calls altPressed)
  /\ r5 = (S_OK, mkHwnd T 5 t4' (Some p) (Some p),
           multi_click_calls altPressed cell Word).
Proof.
  intros p T Hdiv Hfresh H2 H3 H4 H5 r1 r2 r3 r4 r5.
  assert (E1 : r1 = (S_OK, mkHwnd T 1 t1' (Some p) (Some p),
                     single_click_calls altPressed)).
  { subst r1. apply click_fresh. exact Hfresh. }
  assert (Hle : forall a b : Z, a - b <= T -> (a - b >? T) = false).
  { intros a b Hab. rewrite Z.gtb_ltb. apply Z.ltb_ge. exact Hab. }
  assert (E2 : r2 = (S_OK, mkHwnd T 2 t1' (Some p) (Some p),
                     multi_click_calls altPressed cell Word)).
  { subst r2. rewrite E1. cbn [fst snd]. subst p.
    rewrite click_on_record. cbv zeta. rewrite (Hle _ _ H2).
    change (wrap32 (1 + 1)) with 2. change (multiClickMapper 2) with 2.
    simpl Z.eqb. cbv iota. rewrite Hdiv. reflexivity. }
  assert (E3 : r3 = (S_OK, mkHwnd T 3 t1' (Some p) (Some p),
                     multi_click_calls altPressed cell Line)).
  { subst r3. rewrite E2. cbn [fst snd]. subst p.
    rewrite click_on_record. cbv zeta. rewrite (Hle _ _ H3).
    change (wrap32 (2 + 1)) with 3. change (multiClickMapper 3) with 3.
    simpl Z.eqb. cbv iota. rewrite Hdiv. reflexivity. }
  assert (E4 : r4 = (S_OK, mkHwnd T 4 t4' (Some p) (Some p),
                     single_click_calls altPressed)).
  { subst r4. rewrite E3. cbn [fst snd]. subst p.
    rewrite click_on_record. cbv zeta. rewrite (Hle _ _ H4).
    change (wrap32 (3 + 1)) with 4. change (multiClickMapper 4) with 1.
    reflexivity. }
  assert (E5 : r5 = (S_OK, mkHwnd T 5 t4' (Some p) (Some p),
                     multi_click_calls altPressed cell Word)).
  { subst r5. rewrite E4. cbn [fst snd]. subst p.
    rewrite click_on_record. cbv zeta. rewrite (Hle _ _ H5).
    change (wrap32 (4 + 1)) with 5. change (multiClickMapper 5) with 2.
    simpl Z.eqb. cbv iota. rewrite Hdiv. reflexivity. }
  repeat split; assumption.
Qed.

(** X9.  The multi-click time runs from the last click that took the
    single-click path: after a single click recorded at [t0] and a double
    click within the multi-click time, a third click on the same spot
    later than the multi-click time after [t0] is a single click, with the
    counter back at 1, however soon after the double click it comes. *)
Theorem triple_click_window (lParam : Z) (altPressed : bool)
    (fontSize : size) (cell : point) (T t0 t2 t2' t3 t3' : Z)
    (touch : option point) :
  let p := cursorPosition lParam in
  let h := mkHwnd T 1 t0 (Some p) touch in
  point_div p fontSize = Some cell ->
  t2 - t0 <= T -> T < t3 - t0 ->
  let r2 := click lParam altPressed fontSize t2 t2' h in
  let r3 := click lParam altPressed fontSize t3 t3' (snd (fst r2)) in
  r2 = (S_OK, mkHwnd T 2 t0 (Some p) touch,
        multi_click_calls altPressed cell Word) /\
  r3 = (S_OK, mkHwnd T 1 t3' (Some p) (Some p),
        single_click_calls altPressed).
Proof.
  intros p h Hdiv H2 H3 r2 r3.
  assert (E2 : r2 = (S_OK, mkHwnd T 2 t0 (Some p) touch,
                     multi_click_calls altPressed cell Word)).
  { subst r2 h p. rewrite click_on_record. cbv zeta.
    replace (t2 - t0 >? T) with false
      by (symmetry; rewrite Z.gtb_ltb; apply Z.ltb_ge; exact H2).
    change (wrap32 (1 + 1)) with 2. change (multiClickMapper 2) with 2.
    simpl Z.eqb. cbv iota. rewrite Hdiv. reflexivity. }
  split; [exact E2 |].
  subst r3. rewrite E2. cbn [fst snd]. subst p.
  rewrite click_on_record. cbv zeta.
  replace (t3 - t0 >? T) with true
    by (symmetry; rewrite Z.gtb_ltb; apply Z.ltb_lt; exact H3).
  reflexivity.
Qed.

End Clicks.

(** Four clicks 100 apart and a fifth, with a multi-click time of 500. *)
Lemma five_clicks_witness :
  let h := mkHwnd 500 0 0 None None in
  til_div (cursorPosition 1310730) (mkSize 8 16) = Some (mkPoint 1 1) /\
  ~ repeated_click (cursorPosition 1310730) 1000 h /\
  snd (click til_div E_INVALIDARG 1310730 false (mkSize 8 16) 1400 1400
         (mkHwnd 500 4 1300 (Some (mkPoint 10 20)) (Some (mkPoint 10 20))))
  = multi_click_calls false (mkPoint 1 1) Word.
Proof.
  intros h.
  assert (Hdiv : til_div (cursorPosition 1310730) (mkSize 8 16)
                 = Some (mkPoint 1 1)) by reflexivity.
  assert (Hfresh : ~ repeated_click (cursorPosition 1310730) 1000 h).
  { intros [Hpos _]. discriminate Hpos. }
  split; [exact Hdiv |]. split; [exact Hfresh |].
  destruct (five_clicks til_div E_INVALIDARG 1310730 false (mkSize 8 16)
              (mkPoint 1 1) h 1000 1000 1100 1100 1200 1200 1300 1300
              1400 1400 Hdiv Hfresh
              ltac:(simpl; lia) ltac:(simpl; lia) ltac:(simpl; lia)
              ltac:(simpl; lia))
    as [_ [_ [_ [E4 E5]]]].
  cbv zeta in E4, E5. rewrite E4 in E5. cbn [fst snd] in E5.
  etransitivity; [exact (f_equal snd E5) | reflexivity].
Defined.

(** A double click 400 after the first click and a third 300 later: 700
    after the first, beyond a multi-click time of 500. *)
Lemma triple_click_window_witness :
  til_div (cursorPosition 1310730) (mkSize 8 16) = Some (mkPoint 1 1) /\
  400 - 0 <= 500 /\ 500 < 700 - 0 /\
  snd (click til_div E_INVALIDARG 1310730 false (mkSize 8 16) 700 700
         (mkHwnd 500 2 0 (Some (mkPoint 10 20)) None))
  = single_click_calls false.
Proof.
  assert (Hdiv : til_div (cursorPosition 1310730) (mkSize 8 16)
                 = Some (mkPoint 1 1)) by reflexivity.
  assert (H2 : 400 - 0 <= 500) by lia.
  assert (H3 : 500 < 700 - 0) by lia.
  split; [exact Hdiv |]. split; [exact H2 |]. split; [exact H3 |].
  destruct (triple_click_window til_div E_INVALIDARG 1310730 false
              (mkSize 8 16) (mkPoint 1 1) 500 0 400 400 700 700 None
              Hdiv H2 H3) as [E2 E3].
  cbv zeta in E2, E3. rewrite E2 in E3. cbn [fst snd] in E3.
  etransitivity; [exact (f_equal snd E3) | reflexivity].
Defined.

(** *** Character input *)

Definition UNICODE_ESC : Z := 27.
Definition UNICODE_TAB : Z := 9.

(** [ENHANCED_KEY] of wincon.h. *)
Definition ENHANCED_KEY : Z := 256.

Section CharEvent.

(** [ControlKeyStates]: the modifier flags, and the operation
    [modifiers |= ControlKeyStates::EnhancedKey]. *)
Variable ControlKeyStates : Type.
Variable with_EnhancedKey : ControlKeyStates -> ControlKeyStates.

(** What [_SendCharEvent] asks of the terminal and of the renderer. *)
Inductive InputCall :=
| Clear_Selection
| Trigger_Selection
| SendCharEvent (ch scanCode : Z) (modifiers : ControlKeyStates).

(** [HwndTerminal::_ClearSelection]. *)
Definition _ClearSelection : list InputCall :=
  [Clear_Selection; Trigger_Selection].

(** [HwndTerminal::_SendCharEvent]; [selectionActive] is the answer of
    [IsSelectionActive()] and [keys] that of [getControlKeyState()]. *)
Definition _SendCharEvent (selectionActive : bool) (keys : ControlKeyStates)
    (ch scanCode flags : Z) : list InputCall :=
  let cleared := if selectionActive then _ClearSelection else [] in
  if selectionActive && (ch =? UNICODE_ESC) then cleared
  else if ch =? UNICODE_TAB then cleared
  else
    let modifiers :=
      if Sel.WI_IsFlagSet flags ENHANCED_KEY
      then with_EnhancedKey keys else keys in
    cleared ++ [SendCharEvent ch scanCode modifiers].

Definition is_send (c : InputCall) : bool :=
  match c with SendCharEvent _ _ _ => true | _ => false end.

(** X10.  A character reaches the terminal unless it is TAB, or ESC while
    a selection is active: in those cases no [SendCharEvent] is made; in
    all others exactly one, as the last call, with the character and the
    scan code it came with.  The selection is cleared first exactly when
    one was active. *)
Theorem SendCharEvent_filter (selectionActive : bool)
    (keys : ControlKeyStates) (ch scanCode flags : Z) :
  let calls := _SendCharEvent selectionActive keys ch scanCode flags in
  let swallowed :=
    (ch =? UNICODE_TAB) || (selectionActive && (ch =? UNICODE_ESC)) in
  (swallowed = true -> filter is_send calls = []) /\
  (swallowed = false ->
   exists modifiers,
     calls = (if selectionActive then _ClearSelection else [])
             ++ [SendCharEvent ch scanCode modifiers]) /\
  (List.In Clear_Selection calls <-> selectionActive = true).
Proof.
  intros calls swallowed. subst calls swallowed.
  unfold _SendCharEvent, _ClearSelection.
  destruct selectionActive, (ch =? UNICODE_ESC), (ch =? UNICODE_TAB);
    simpl; (split; [| split]).
  all: try (intros H; first [discriminate H | reflexivity]).
  all: try (intros H; first [discriminate H | eexists; reflexivity]).
  all: split; intros H;
    first [ reflexivity
          | discriminate H
          | left; reflexivity
          | exfalso;
            repeat (destruct H as [H | H]; try discriminate H); exact H ].
Qed.

End CharEvent.

Lemma SendCharEvent_filter_witness :
  (UNICODE_ESC =? UNICODE_TAB) || (true && (UNICODE_ESC =? UNICODE_ESC))
  = true /\
  filter (is_send nat) (_SendCharEvent nat S true 0%nat UNICODE_ESC 1 0) = [] /\
  (97 =? UNICODE_TAB) || (false && (97 =? UNICODE_ESC)) = false /\
  _SendCharEvent nat S false 0%nat 97 30 0 = [SendCharEvent nat 97 30 0%nat].
Proof.
  assert (H1 : (UNICODE_ESC =? UNICODE_TAB)
               || (true && (UNICODE_ESC =? UNICODE_ESC)) = true)
    by reflexivity.
  assert (H2 : (97 =? UNICODE_TAB) || (false && (97 =? UNICODE_ESC)) = false)
    by reflexivity.
  split; [exact H1 |]. split.
  - exact (proj1 (SendCharEvent_filter nat S true 0%nat UNICODE_ESC 1 0) H1).
  - split; [exact H2 |].
    destruct (proj1 (proj2 (SendCharEvent_filter nat S false 0%nat 97 30 0))
                H2) as [m Hm].
    etransitivity; [exact Hm |]. simpl.
    injection Hm as Hm. rewrite <- Hm. reflexivity.
Defined.

End HwndMore.

(** * More of getset.cpp: the mode words, the color table read back,
    the viewport that follows the cursor, and the title *)

Module GetSetMore.
Import Win GetSet.

(** ** The flag macros of wil, on unsigned words *)

Definition WI_IsFlagSet (val flag : Z) : bool := Z.land val flag =? flag.
Definition WI_IsFlagClear (val flag : Z) : bool := Z.land val flag =? 0.
Definition WI_IsAnyFlagSet (val flags : Z) : bool :=
  negb (Z.land val flags =? 0).
Definition WI_SetFlag (val flag : Z) : Z := Z.lor val flag.
Definition WI_ClearFlag (val flag : Z) : Z := Z.ldiff val flag.
Definition WI_ClearAllFlags (val flags : Z) : Z := Z.ldiff val flags.
Definition WI_SetFlagIf (val flag : Z) (condition : bool) : Z :=
  if condition then WI_SetFlag val flag else val.
Definition WI_UpdateFlag (val flag : Z) (condition : bool) : Z :=
  if condition then WI_SetFlag val flag else WI_ClearFlag val flag.

(** [~flags] where a [ULONG] is expected. *)
Definition ULONG_not (flags : Z) : Z := Z.land (Z.lnot flags) (Z.ones 32).

(** Mode bits of consoleapi.h. *)
Definition ENABLE_PROCESSED_INPUT : Z := 1.
Definition ENABLE_LINE_INPUT : Z := 2.
Definition ENABLE_ECHO_INPUT : Z := 4.
Definition ENABLE_WINDOW_INPUT : Z := 8.
Definition ENABLE_MOUSE_INPUT : Z := 16.
Definition ENABLE_INSERT_MODE : Z := 32.
Definition ENABLE_QUICK_EDIT_MODE : Z := 64.
Definition ENABLE_EXTENDED_FLAGS : Z := 128.
Definition ENABLE_AUTO_POSITION : Z := 256.
Definition ENABLE_VIRTUAL_TERMINAL_INPUT : Z := 512.

Definition ENABLE_PROCESSED_OUTPUT : Z := 1.
Definition ENABLE_WRAP_AT_EOL_OUTPUT : Z := 2.
Definition ENABLE_VIRTUAL_TERMINAL_PROCESSING : Z := 4.
Definition DISABLE_NEWLINE_AUTO_RETURN : Z := 8.
Definition ENABLE_LVB_GRID_WORLDWIDE : Z := 16.

Definition INPUT_MODES : Z :=
  Z.lor (Z.lor (Z.lor (Z.lor (Z.lor ENABLE_LINE_INPUT ENABLE_PROCESSED_INPUT)
                                    ENABLE_ECHO_INPUT)
                             ENABLE_WINDOW_INPUT)
                      ENABLE_MOUSE_INPUT)
        ENABLE_VIRTUAL_TERMINAL_INPUT.

Definition OUTPUT_MODES : Z :=
  Z.lor (Z.lor (Z.lor (Z.lor ENABLE_PROCESSED_OUTPUT
                             ENABLE_WRAP_AT_EOL_OUTPUT)
                      ENABLE_VIRTUAL_TERMINAL_PROCESSING)
               DISABLE_NEWLINE_AUTO_RETURN)
        ENABLE_LVB_GRID_WORLDWIDE.

Definition PRIVATE_MODES : Z :=
  Z.lor (Z.lor (Z.lor ENABLE_INSERT_MODE ENABLE_QUICK_EDIT_MODE)
               ENABLE_AUTO_POSITION)
        ENABLE_EXTENDED_FLAGS.

(** ** The input mode *)

(** What the two input-mode routines touch: the mode word of the input
    buffer, [gci.Flags], the insert mode of the settings, the
    double-width mode of the cursor of the active output buffer, and
    the insert mode of a pending cooked read, if there is one. *)
Record InputState := mkInput {
  InputMode : Z;
  Flags : Z;
  InsertMode : bool;
  CursorDBMode : bool;
  CookedReadInsertMode : option bool
}.

Section InputMode.

(** Bits of [gci.Flags] (server.h). *)
Variable CONSOLE_USE_PRIVATE_FLAGS : Z.
Variable CONSOLE_QUICK_EDIT_MODE : Z.
Variable CONSOLE_AUTO_POSITION : Z.

(** [ApiRoutines::GetConsoleInputModeImpl]; the telemetry call at its
    head counts the request and has no part in the mode. *)
Definition GetConsoleInputModeImpl (st : InputState)
  : Console -> Z * Console :=
  locked (fun c =>
    let mode := InputMode st in
    let mode :=
      if WI_IsFlagSet (Flags st) CONSOLE_USE_PRIVATE_FLAGS then
        let mode := WI_SetFlag mode ENABLE_EXTENDED_FLAGS in
        let mode := WI_SetFlagIf mode ENABLE_INSERT_MODE (InsertMode st) in
        let mode :=
          WI_SetFlagIf mode ENABLE_QUICK_EDIT_MODE
            (WI_IsFlagSet (Flags st) CONSOLE_QUICK_EDIT_MODE) in
        WI_SetFlagIf mode ENABLE_AUTO_POSITION
          (WI_IsFlagSet (Flags st) CONSOLE_AUTO_POSITION)
      else mode in
    (mode, c)).

(** [ApiRoutines::SetConsoleInputModeImpl]: the mode is stored first
    and judged afterwards. *)
Definition SetConsoleInputModeImpl (mode : Z) (st : InputState)
  : Console -> (HRESULT * InputState) * Console :=
  locked (fun c =>
    let st1 :=
      if WI_IsAnyFlagSet mode PRIVATE_MODES then
        let flags := WI_SetFlag (Flags st) CONSOLE_USE_PRIVATE_FLAGS in
        let flags :=
          WI_UpdateFlag flags CONSOLE_QUICK_EDIT_MODE
            (WI_IsFlagSet mode ENABLE_QUICK_EDIT_MODE) in
        let flags :=
          WI_UpdateFlag flags CONSOLE_AUTO_POSITION
            (WI_IsFlagSet mode ENABLE_AUTO_POSITION) in
        let PreviousInsertMode := InsertMode st in
        let insert := WI_IsFlagSet mode ENABLE_INSERT_MODE in
        if negb (Bool.eqb insert PreviousInsertMode) then
          mkInput (InputMode st) flags insert false
                  (match CookedReadInsertMode st with
                   | Some _ => Some insert
                   | None => None
                   end)
        else
          mkInput (InputMode st) flags insert (CursorDBMode st)
                  (CookedReadInsertMode st)
      else
        mkInput (InputMode st)
                (WI_ClearFlag (Flags st) CONSOLE_USE_PRIVATE_FLAGS)
                (InsertMode st) (CursorDBMode st)
                (CookedReadInsertMode st) in
    let st2 :=
      mkInput (WI_ClearAllFlags mode PRIVATE_MODES) (Flags st1)
              (InsertMode st1) (CursorDBMode st1)
              (CookedReadInsertMode st1) in
    if WI_IsAnyFlagSet mode (ULONG_not (Z.lor INPUT_MODES PRIVATE_MODES))
    then ((E_INVALIDARG, st2), c)
    else if WI_IsFlagSet mode ENABLE_ECHO_INPUT
            && WI_IsFlagClear mode ENABLE_LINE_INPUT
    then ((E_INVALIDARG, st2), c)
    else ((S_OK, st2), c)).

End InputMode.

(** ** The output mode *)

(** What the output-mode routines touch: the mode word of the active
    buffer, three settings of the console, and the number of times the
    state machine of the buffer was reset. *)
Record OutputState := mkOutput {
  OutputMode : Z;
  VirtTermLevel : Z;
  AutomaticReturnOnNewline : bool;
  GridRenderingAllowedWorldwide : bool;
  StateMachineResets : Z
}.

(** [ApiRoutines::GetConsoleOutputModeImpl]. *)
Definition GetConsoleOutputModeImpl (st : OutputState)
  : Console -> Z * Console :=
  locked (fun c => (OutputMode st, c)).

(** [ApiRoutines::SetConsoleOutputModeImpl]. *)
Definition SetConsoleOutputModeImpl (mode : Z) (st : OutputState)
  : Console -> (HRESULT * OutputState) * Console :=
  locked (fun c =>
    if WI_IsAnyFlagSet mode (ULONG_not OUTPUT_MODES)
    then ((E_INVALIDARG, st), c)
    else
      let dwOldMode := OutputMode st in
      let dwNewMode := mode in
      let resets :=
        if WI_IsFlagClear dwNewMode ENABLE_VIRTUAL_TERMINAL_PROCESSING
           && WI_IsFlagSet dwOldMode ENABLE_VIRTUAL_TERMINAL_PROCESSING
        then StateMachineResets st + 1
        else StateMachineResets st in
      let st' :=
        mkOutput dwNewMode
          (if WI_IsFlagSet dwNewMode ENABLE_VIRTUAL_TERMINAL_PROCESSING
           then 1 else 0)
          (if WI_IsFlagSet dwNewMode DISABLE_NEWLINE_AUTO_RETURN
           then false else true)
          (WI_IsFlagSet dwNewMode ENABLE_LVB_GRID_WORLDWIDE)
          resets in
      let c' :=
        if negb (IsInVtIoMode c)
           && (negb (Bool.eqb
                 (WI_IsFlagSet dwNewMode ENABLE_VIRTUAL_TERMINAL_PROCESSING)
                 (WI_IsFlagSet dwOldMode ENABLE_VIRTUAL_TERMINAL_PROCESSING))
               || negb (Bool.eqb
                    (WI_IsFlagSet dwNewMode ENABLE_LVB_GRID_WORLDWIDE)
                    (WI_IsFlagSet dwOldMode ENABLE_LVB_GRID_WORLDWIDE)))
        then if HasRenderer c then TriggerRedrawAll c else c
        else c in
      ((S_OK, st'), c')).

(** ** The color table read back *)

(** Modelled from the spec: [Settings::GetColorTableEntry] (settings.cpp,
    not among the sources) reads one entry of the palette that
    [SetColorTableEntry] writes; an index outside the table raises the
    exception of [std::array::at], here [None]. *)
Definition GetColorTableEntry (index : Z) (table : list COLORREF)
  : option COLORREF :=
  if (0 <=? index) && (index <? Z.of_nat (length table))
  then table !! Z.to_nat index
  else None.

Section ColorTable.

Variable hr_of_exception : HRESULT.
Variable Xterm256ToWindowsIndex : Z -> Z.

(** [DoSrvPrivateGetColorTableEntry]: the status, and the value
    written through the reference if there is one. *)
Definition DoSrvPrivateGetColorTableEntry (index : Z) (c : Console)
  : HRESULT * option COLORREF :=
  if index >=? 256 then (E_INVALIDARG, None)
  else
    match GetColorTableEntry (Xterm256ToWindowsIndex index)
                             (ColorTable c) with
    | Some value => (S_OK, Some value)
    | None => (hr_of_exception, None)
    end.

End ColorTable.

(** ** The title *)


Section Title.

(** [CONSOLE_INFORMATION::SetTitle] of consoleInformation.cpp. *)
Variable SetTitle : list Z -> Console -> Console.



End Title.

(** ** Facts on bits *)

Lemma WI_IsFlagSet_bit (v k : Z) :
  0 <= k -> WI_IsFlagSet v (2 ^ k) = Z.testbit v k.
Proof.
  intros Hk. unfold WI_IsFlagSet.
  destruct (Z.testbit v k) eqn:Hbit.
  - apply Z.eqb_eq. apply Z.bits_inj'. intros n Hn.
    rewrite Z.land_spec, Z.pow2_bits_eqb by exact Hk.
    destruct (Z.eqb_spec k n) as [-> | Hne].
    + rewrite Hbit. reflexivity.
    + apply andb_false_r.
  - apply Z.eqb_neq. intros Heq.
    assert (Hk' : Z.testbit (Z.land v (2 ^ k)) k = Z.testbit (2 ^ k) k)
      by (rewrite Heq; reflexivity).
    rewrite Z.land_spec, Hbit, Z.pow2_bits_true in Hk' by exact Hk.
    discriminate Hk'.
Qed.

Lemma land_lor_same (v f : Z) : Z.land (Z.lor v f) f = f.
Proof.
  apply Z.bits_inj'. intros n _.
  rewrite Z.land_spec, Z.lor_spec.
  destruct (Z.testbit v n), (Z.testbit f n); reflexivity.
Qed.

Lemma land_ldiff_same (v f : Z) : Z.land (Z.ldiff v f) f = 0.
Proof.
  apply Z.bits_inj'. intros n _.
  rewrite Z.land_spec, Z.ldiff_spec, Z.bits_0.
  destruct (Z.testbit v n), (Z.testbit f n); reflexivity.
Qed.

Lemma land_lor_other (v f g : Z) :
  Z.land g f = 0 -> Z.land (Z.lor v g) f = Z.land v f.
Proof.
  intros Hgf. apply Z.bits_inj'. intros n _.
  assert (Hn : Z.testbit (Z.land g f) n = false)
    by (rewrite Hgf; apply Z.bits_0).
  rewrite Z.land_spec in Hn.
  rewrite !Z.land_spec, Z.lor_spec.
  destruct (Z.testbit v n), (Z.testbit f n), (Z.testbit g n);
    simpl in *; congruence.
Qed.

Lemma land_ldiff_other (v f g : Z) :
  Z.land (Z.ldiff v g) f = Z.land v f \/ Z.land g f <> 0.
Proof.
  destruct (Z.eq_dec (Z.land g f) 0) as [Hgf | Hgf]; [left | right; exact Hgf].
  apply Z.bits_inj'. intros n _.
  assert (Hn : Z.testbit (Z.land g f) n = false)
    by (rewrite Hgf; apply Z.bits_0).
  rewrite Z.land_spec in Hn.
  rewrite !Z.land_spec, Z.ldiff_spec.
  destruct (Z.testbit v n), (Z.testbit f n), (Z.testbit g n);
    simpl in *; congruence.
Qed.

Lemma WI_IsFlagSet_update (v f : Z) (b : bool) :
  f <> 0 -> WI_IsFlagSet (WI_UpdateFlag v f b) f = b.
Proof.
  intros Hf. unfold WI_IsFlagSet, WI_UpdateFlag, WI_SetFlag, WI_ClearFlag.
  destruct b.
  - rewrite land_lor_same. apply Z.eqb_refl.
  - rewrite land_ldiff_same. apply Z.eqb_neq. congruence.
Qed.

Lemma WI_IsFlagSet_update_other (v f g : Z) (b : bool) :
  Z.land g f = 0 ->
  WI_IsFlagSet (WI_UpdateFlag v g b) f = WI_IsFlagSet v f.
Proof.
  intros Hgf. unfold WI_IsFlagSet, WI_UpdateFlag, WI_SetFlag, WI_ClearFlag.
  destruct b.
  - rewrite land_lor_other by exact Hgf. reflexivity.
  - destruct (land_ldiff_other v f g) as [-> | Hne];
      [reflexivity | contradiction].
Qed.

(** The bits of a 32-bit word outside its [k] lowest ones are all
    clear exactly when the word is below [2 ^ k]. *)
Lemma no_bits_outside (k mode : Z) :
  0 <= k <= 32 -> 0 <= mode < 2 ^ 32 ->
  WI_IsAnyFlagSet mode (ULONG_not (Z.ones k)) = (2 ^ k <=? mode).
Proof.
  intros Hk Hmode. unfold WI_IsAnyFlagSet, ULONG_not.
  destruct (Z.leb_spec (2 ^ k) mode) as [Hge | Hlt].
  - apply negb_true_iff, Z.eqb_neq. intros Heq.
    assert (Hpos : 0 < mode) by (pose proof (Z.pow_pos_nonneg 2 k); lia).
    assert (Hlog : k <= Z.log2 mode < 32).
    { split.
      - apply Z.log2_le_pow2; [exact Hpos | exact Hge].
      - apply Z.log2_lt_pow2; [exact Hpos | lia]. }
    assert (Hbit : Z.testbit (Z.land mode (Z.land (Z.lnot (Z.ones k))
                                                  (Z.ones 32)))
                             (Z.log2 mode) = false)
      by (rewrite Heq; apply Z.bits_0).
    rewrite !Z.land_spec, Z.lnot_spec, Z.bit_log2 in Hbit by lia.
    rewrite Z.ones_spec_high, Z.ones_spec_low in Hbit by lia.
    discriminate Hbit.
  - apply negb_false_iff, Z.eqb_eq. apply Z.bits_inj'. intros n Hn.
    rewrite !Z.land_spec, Z.lnot_spec, Z.bits_0 by exact Hn.
    destruct (Z.lt_ge_cases n k) as [Hnk | Hnk].
    + rewrite (Z.ones_spec_low k n) by lia. simpl.
      apply andb_false_r.
    + destruct (Z.eq_dec mode 0) as [-> | Hne].
      * rewrite Z.bits_0. reflexivity.
      * rewrite (Z.bits_above_log2 mode n); [reflexivity | lia |].
        apply Z.lt_le_trans with k; [| exact Hnk].
        apply Z.log2_lt_pow2; lia.
Qed.

Lemma ldiff_disjoint (v f : Z) : Z.land v f = 0 -> Z.ldiff v f = v.
Proof.
  intros Hvf. apply Z.bits_inj'. intros n _.
  assert (Hn : Z.testbit (Z.land v f) n = false)
    by (rewrite Hvf; apply Z.bits_0).
  rewrite Z.land_spec in Hn. rewrite Z.ldiff_spec.
  destruct (Z.testbit v n), (Z.testbit f n); simpl in *; congruence.
Qed.

Lemma WI_IsFlagClear_bit (v k : Z) :
  0 <= k -> WI_IsFlagClear v (2 ^ k) = negb (Z.testbit v k).
Proof.
  intros Hk. unfold WI_IsFlagClear.
  pose proof (WI_IsFlagSet_bit v k Hk) as Hset. unfold WI_IsFlagSet in Hset.
  destruct (Z.testbit v k).
  - apply Z.eqb_eq in Hset. rewrite Hset. apply Z.eqb_neq.
    pose proof (Z.pow_pos_nonneg 2 k). lia.
  - apply Z.eqb_eq. apply Z.bits_inj'. intros n Hn.
    rewrite Z.land_spec, Z.pow2_bits_eqb, Z.bits_0 by exact Hk.
    destruct (Z.eqb_spec k n) as [-> | Hne]; [| apply andb_false_r].
    apply Z.eqb_neq in Hset.
    destruct (Z.testbit v n) eqn:Hbit; [| reflexivity].
    exfalso. apply Hset. apply Z.bits_inj'. intros m Hm.
    rewrite Z.land_spec, Z.pow2_bits_eqb by exact Hk.
    destruct (Z.eqb_spec n m) as [<- | Hne]; [| apply andb_false_r].
    rewrite Hbit. reflexivity.
Qed.

(** The four private bits, cleared from a mode word and put back from
    what was recorded of them, give the word with the extended-flags
    bit set. *)
Lemma private_bits_restored (mode : Z) :
  WI_SetFlagIf
    (WI_SetFlagIf
       (WI_SetFlagIf
          (WI_SetFlag (WI_ClearAllFlags mode PRIVATE_MODES)
                      ENABLE_EXTENDED_FLAGS)
          ENABLE_INSERT_MODE (WI_IsFlagSet mode ENABLE_INSERT_MODE))
       ENABLE_QUICK_EDIT_MODE (WI_IsFlagSet mode ENABLE_QUICK_EDIT_MODE))
    ENABLE_AUTO_POSITION (WI_IsFlagSet mode ENABLE_AUTO_POSITION)
  = Z.lor mode ENABLE_EXTENDED_FLAGS.
Proof.
  change ENABLE_INSERT_MODE with (2 ^ 5).
  change ENABLE_QUICK_EDIT_MODE with (2 ^ 6).
  change ENABLE_AUTO_POSITION with (2 ^ 8).
  rewrite !WI_IsFlagSet_bit by lia.
  unfold PRIVATE_MODES.
  change ENABLE_INSERT_MODE with (2 ^ 5).
  change ENABLE_QUICK_EDIT_MODE with (2 ^ 6).
  change ENABLE_AUTO_POSITION with (2 ^ 8).
  change ENABLE_EXTENDED_FLAGS with (2 ^ 7).
  unfold WI_SetFlagIf, WI_SetFlag, WI_ClearAllFlags.
  destruct (Z.testbit mode 5) eqn:H5, (Z.testbit mode 6) eqn:H6,
           (Z.testbit mode 8) eqn:H8.
  all: apply Z.bits_inj'; intros n Hn.
  all: rewrite ?Z.lor_spec, ?Z.ldiff_spec, ?Z.lor_spec.
  all: rewrite !Z.pow2_bits_eqb by lia.
  all: destruct (Z.eqb_spec 5 n) as [<- | N5];
         [rewrite H5; reflexivity |].
  all: destruct (Z.eqb_spec 6 n) as [<- | N6];
         [rewrite H6; reflexivity |].
  all: destruct (Z.eqb_spec 8 n) as [<- | N8];
         [rewrite H8; reflexivity |].
  all: destruct (Z.eqb_spec 7 n) as [<- | N7];
         [destruct (Z.testbit mode 7); reflexivity |].
  all: destruct (Z.testbit mode n); reflexivity.
Qed.

Section InputModeFacts.

Variable CONSOLE_USE_PRIVATE_FLAGS : Z.
Variable CONSOLE_QUICK_EDIT_MODE : Z.
Variable CONSOLE_AUTO_POSITION : Z.

(** The three flags are bits of their own. *)
Hypothesis USE_PRIVATE_FLAGS_bit : CONSOLE_USE_PRIVATE_FLAGS <> 0.
Hypothesis QUICK_EDIT_MODE_bit : CONSOLE_QUICK_EDIT_MODE <> 0.
Hypothesis AUTO_POSITION_bit : CONSOLE_AUTO_POSITION <> 0.
Hypothesis QUICK_EDIT_not_USE_PRIVATE :
  Z.land CONSOLE_QUICK_EDIT_MODE CONSOLE_USE_PRIVATE_FLAGS = 0.
Hypothesis AUTO_POSITION_not_USE_PRIVATE :
  Z.land CONSOLE_AUTO_POSITION CONSOLE_USE_PRIVATE_FLAGS = 0.
Hypothesis AUTO_POSITION_not_QUICK_EDIT :
  Z.land CONSOLE_AUTO_POSITION CONSOLE_QUICK_EDIT_MODE = 0.

Let Get := GetConsoleInputModeImpl CONSOLE_USE_PRIVATE_FLAGS
             CONSOLE_QUICK_EDIT_MODE CONSOLE_AUTO_POSITION.
Let Set_ := SetConsoleInputModeImpl CONSOLE_USE_PRIVATE_FLAGS
              CONSOLE_QUICK_EDIT_MODE CONSOLE_AUTO_POSITION.

(** What [SetConsoleInputModeImpl] leaves behind, whatever it answers. *)
Lemma SetConsoleInputModeImpl_stores mode st c :
  exists hr st',
    Set_ mode st c = ((hr, st'), c) /\
    InputMode st' = WI_ClearAllFlags mode PRIVATE_MODES /\
    (WI_IsAnyFlagSet mode PRIVATE_MODES = true ->
       WI_IsFlagSet (Flags st') CONSOLE_USE_PRIVATE_FLAGS = true /\
       WI_IsFlagSet (Flags st') CONSOLE_QUICK_EDIT_MODE
       = WI_IsFlagSet mode ENABLE_QUICK_EDIT_MODE /\
       WI_IsFlagSet (Flags st') CONSOLE_AUTO_POSITION
       = WI_IsFlagSet mode ENABLE_AUTO_POSITION /\
       InsertMode st' = WI_IsFlagSet mode ENABLE_INSERT_MODE) /\
    (WI_IsAnyFlagSet mode PRIVATE_MODES = false ->
       WI_IsFlagSet (Flags st') CONSOLE_USE_PRIVATE_FLAGS = false /\
       Flags st' = WI_ClearFlag (Flags st) CONSOLE_USE_PRIVATE_FLAGS /\
       InsertMode st' = InsertMode st /\
       CursorDBMode st' = CursorDBMode st /\
       CookedReadInsertMode st' = CookedReadInsertMode st).
Proof.
  unfold Set_, SetConsoleInputModeImpl, locked. cbv zeta.
  set (st1 := if WI_IsAnyFlagSet mode PRIVATE_MODES then _ else _).
  set (st2 := mkInput _ _ _ _ _).
  assert (Hfacts :
    InputMode st2 = WI_ClearAllFlags mode PRIVATE_MODES /\
    (WI_IsAnyFlagSet mode PRIVATE_MODES = true ->
       WI_IsFlagSet (Flags st2) CONSOLE_USE_PRIVATE_FLAGS = true /\
       WI_IsFlagSet (Flags st2) CONSOLE_QUICK_EDIT_MODE
       = WI_IsFlagSet mode ENABLE_QUICK_EDIT_MODE /\
       WI_IsFlagSet (Flags st2) CONSOLE_AUTO_POSITION
       = WI_IsFlagSet mode ENABLE_AUTO_POSITION /\
       InsertMode st2 = WI_IsFlagSet mode ENABLE_INSERT_MODE) /\
    (WI_IsAnyFlagSet mode PRIVATE_MODES = false ->
       WI_IsFlagSet (Flags st2) CONSOLE_USE_PRIVATE_FLAGS = false /\
       Flags st2 = WI_ClearFlag (Flags st) CONSOLE_USE_PRIVATE_FLAGS /\
       InsertMode st2 = InsertMode st /\
       CursorDBMode st2 = CursorDBMode st /\
       CookedReadInsertMode st2 = CookedReadInsertMode st)).
  { split; [reflexivity |]. subst st2 st1. cbn [Flags InsertMode].
    destruct (WI_IsAnyFlagSet mode PRIVATE_MODES); split; intros Hany;
      try discriminate Hany.
    - assert (Hflags : forall a b d e,
        Flags (if negb (Bool.eqb (WI_IsFlagSet mode ENABLE_INSERT_MODE)
                                 (InsertMode st))
               then mkInput a b (WI_IsFlagSet mode ENABLE_INSERT_MODE) false d
               else mkInput a b (WI_IsFlagSet mode ENABLE_INSERT_MODE)
                            (CursorDBMode st) e) = b)
        by (intros; destruct (negb _); reflexivity).
      assert (Hins : forall a b d e,
        InsertMode
          (if negb (Bool.eqb (WI_IsFlagSet mode ENABLE_INSERT_MODE)
                             (InsertMode st))
           then mkInput a b (WI_IsFlagSet mode ENABLE_INSERT_MODE) false d
           else mkInput a b (WI_IsFlagSet mode ENABLE_INSERT_MODE)
                        (CursorDBMode st) e)
        = WI_IsFlagSet mode ENABLE_INSERT_MODE)
        by (intros; destruct (negb _); reflexivity).
      rewrite Hflags, Hins.
      repeat split.
      + rewrite !WI_IsFlagSet_update_other by assumption.
        unfold WI_IsFlagSet, WI_SetFlag. rewrite land_lor_same.
        apply Z.eqb_refl.
      + rewrite WI_IsFlagSet_update_other by assumption.
        apply WI_IsFlagSet_update. assumption.
      + apply WI_IsFlagSet_update. assumption.
    - cbn [Flags InsertMode CursorDBMode CookedReadInsertMode].
      repeat split.
      unfold WI_IsFlagSet, WI_ClearFlag. rewrite land_ldiff_same.
      apply Z.eqb_neq. congruence. }
  clearbody st2. clear st1.
  destruct (WI_IsAnyFlagSet mode (ULONG_not _));
    [| destruct (WI_IsFlagSet mode ENABLE_ECHO_INPUT
                 && WI_IsFlagClear mode ENABLE_LINE_INPUT)];
    rewrite Unlock_Lock; eexists; eexists; (split; [reflexivity | exact Hfacts]).
Qed.

(** X11.  The input mode is stored before it is judged: whatever
    [SetConsoleInputModeImpl] answers, [GetConsoleInputModeImpl] then
    reads the mode back, with the extended-flags bit added if one of
    the private bits was in it; the console and its lock are as before.
    The answer is [E_INVALIDARG] for a bit outside the ten known ones
    and for echo without line input, and [S_OK] otherwise. *)
Theorem input_mode_read_back mode st c :
  let r := Set_ mode st c in
  snd r = c /\
  Get (snd (fst r)) c
  = (if WI_IsAnyFlagSet mode PRIVATE_MODES
     then Z.lor mode ENABLE_EXTENDED_FLAGS else mode, c) /\
  (1024 <= mode < 2 ^ 32 -> fst (fst r) = E_INVALIDARG) /\
  (Z.testbit mode 2 = true -> Z.testbit mode 1 = false ->
   fst (fst r) = E_INVALIDARG) /\
  (0 <= mode < 1024 ->
   (Z.testbit mode 2 = true -> Z.testbit mode 1 = true) ->
   fst (fst r) = S_OK).
Proof.
  intros r.
  destruct (SetConsoleInputModeImpl_stores mode st c)
    as (hr & st' & Hset & Hmode & Hpriv & Hnone).
  split; [| split].
  - subst r. rewrite Hset. reflexivity.
  - subst r. rewrite Hset. cbn [fst snd].
    unfold Get, GetConsoleInputModeImpl, locked. cbv zeta.
    rewrite Unlock_Lock. f_equal. rewrite Hmode.
    destruct (WI_IsAnyFlagSet mode PRIVATE_MODES) eqn:Hany.
    + destruct (Hpriv eq_refl) as (-> & -> & -> & ->).
      apply private_bits_restored.
    + destruct (Hnone eq_refl) as (-> & _).
      apply ldiff_disjoint.
      unfold WI_IsAnyFlagSet in Hany.
      apply negb_false_iff, Z.eqb_eq in Hany. exact Hany.
  - clear Hset hr st' Hmode Hpriv Hnone.
    subst r. unfold Set_, SetConsoleInputModeImpl, locked. cbv zeta.
    change (Z.lor INPUT_MODES PRIVATE_MODES) with (Z.ones 10).
    change ENABLE_ECHO_INPUT with (2 ^ 2).
    change ENABLE_LINE_INPUT with (2 ^ 1).
    rewrite WI_IsFlagSet_bit, WI_IsFlagClear_bit by lia.
    split; [| split].
    + intros Hrange. rewrite no_bits_outside by lia.
      destruct (Z.leb_spec (2 ^ 10) mode) as [_ | Hlt]; [reflexivity | lia].
    + intros H2 H1. rewrite H2, H1.
      destruct (WI_IsAnyFlagSet mode _); reflexivity.
    + intros Hrange Hecho. rewrite no_bits_outside by lia.
      destruct (Z.leb_spec (2 ^ 10) mode) as [Hge | _]; [lia |].
      destruct (Z.testbit mode 2); [rewrite Hecho |]; reflexivity.
Qed.

End InputModeFacts.

(** The mode that PSReadline sets, with the flags of [gci.Flags] on
    three bits of their own. *)
Lemma input_mode_read_back_witness :
  fst (fst (SetConsoleInputModeImpl 262144 1024 131072 484
              (mkInput 7 0 false true None) console0)) = E_INVALIDARG /\
  GetConsoleInputModeImpl 262144 1024 131072
    (snd (fst (SetConsoleInputModeImpl 262144 1024 131072 484
                 (mkInput 7 0 false true None) console0))) console0
  = (484, console0).
Proof.
  pose proof (input_mode_read_back 262144 1024 131072
                ltac:(lia) ltac:(lia) ltac:(lia)
                ltac:(reflexivity) ltac:(reflexivity) ltac:(reflexivity)
                484 (mkInput 7 0 false true None) console0) as H.
  cbv zeta in H. destruct H as (_ & Hget & _ & Hecho & _).
  split.
  - apply Hecho; reflexivity.
  - exact Hget.
Defined.

Lemma Unlock_Redraw_Lock c :
  UnlockConsole (TriggerRedrawAll (LockConsole c)) = TriggerRedrawAll c.
Proof.
  destruct c as [d h v t r n tbl scr].
  unfold UnlockConsole, TriggerRedrawAll, LockConsole, with_lock. simpl.
  f_equal. lia.
Qed.

Lemma not_clear_and_set (v f : Z) :
  f <> 0 -> WI_IsFlagClear v f && WI_IsFlagSet v f = false.
Proof.
  intros Hf. unfold WI_IsFlagClear, WI_IsFlagSet.
  destruct (Z.eqb_spec (Z.land v f) 0) as [-> | _]; [| reflexivity].
  cbn [andb]. apply Z.eqb_neq. congruence.
Qed.

(** X12.  An output mode with a bit outside the five known ones is
    answered with [E_INVALIDARG] and changes nothing.  Any other mode
    is answered with [S_OK] and read back by
    [GetConsoleOutputModeImpl]; the three settings follow its bits; the
    state machine is reset exactly when virtual terminal processing
    goes from on to off; a redraw is asked for at most once, and never
    in pty mode; the lock is as before; and setting the same mode once
    more changes nothing further. *)
Theorem output_mode_set mode st c :
  0 <= mode < 2 ^ 32 ->
  let r := SetConsoleOutputModeImpl mode st c in
  let st' := snd (fst r) in
  let c' := snd r in
  (32 <= mode -> r = ((E_INVALIDARG, st), c)) /\
  (mode < 32 ->
   fst (fst r) = S_OK /\
   GetConsoleOutputModeImpl st' c' = (mode, c') /\
   VirtTermLevel st' = (if Z.testbit mode 2 then 1 else 0) /\
   AutomaticReturnOnNewline st' = negb (Z.testbit mode 3) /\
   GridRenderingAllowedWorldwide st' = Z.testbit mode 4 /\
   StateMachineResets st'
   = (if negb (Z.testbit mode 2) && Z.testbit (OutputMode st) 2
      then StateMachineResets st + 1 else StateMachineResets st) /\
   (c' = c \/ c' = TriggerRedrawAll c) /\
   (IsInVtIoMode c = true \/ HasRenderer c = false -> c' = c) /\
   SetConsoleOutputModeImpl mode st' c' = ((S_OK, st'), c')).
Proof.
  intros Hmode r st' c'. subst st' c' r.
  unfold SetConsoleOutputModeImpl, GetConsoleOutputModeImpl, locked.
  cbv zeta.
  change OUTPUT_MODES with (Z.ones 5).
  rewrite no_bits_outside by lia.
  change (2 ^ 5) with 32.
  split; intros Hcase.
  - destruct (Z.leb_spec 32 mode) as [_ | Hlt]; [| lia].
    rewrite Unlock_Lock. reflexivity.
  - destruct (Z.leb_spec 32 mode) as [Hge | _]; [lia |].
    cbn [fst snd OutputMode VirtTermLevel AutomaticReturnOnNewline
         GridRenderingAllowedWorldwide StateMachineResets].
    rewrite !eqb_reflx.
    rewrite (not_clear_and_set mode ENABLE_VIRTUAL_TERMINAL_PROCESSING)
      by discriminate.
    change (IsInVtIoMode (LockConsole c)) with (IsInVtIoMode c).
    change (HasRenderer (LockConsole c)) with (HasRenderer c).
    set (changed :=
           negb (Bool.eqb _ _) || negb (Bool.eqb _ _)).
    change ENABLE_VIRTUAL_TERMINAL_PROCESSING with (2 ^ 2).
    change DISABLE_NEWLINE_AUTO_RETURN with (2 ^ 3).
    change ENABLE_LVB_GRID_WORLDWIDE with (2 ^ 4).
    rewrite !WI_IsFlagSet_bit, !WI_IsFlagClear_bit by lia.
    cbn [negb orb andb].
    rewrite !andb_false_r.
    assert (Hc' :
      UnlockConsole
        (if negb (IsInVtIoMode c) && changed
         then if HasRenderer c then TriggerRedrawAll (LockConsole c)
              else LockConsole c
         else LockConsole c)
      = if negb (IsInVtIoMode c) && changed
        then if HasRenderer c then TriggerRedrawAll c else c
        else c).
    { destruct (negb (IsInVtIoMode c) && changed), (HasRenderer c);
        rewrite ?Unlock_Redraw_Lock, ?Unlock_Lock; reflexivity. }
    rewrite Hc'. rewrite !Unlock_Lock.
    repeat split.
    + destruct (negb (IsInVtIoMode c) && changed), (HasRenderer c);
        auto.
    + intros [Hpty | Hrender]; rewrite ?Hpty, ?Hrender; simpl.
      * reflexivity.
      * destruct (negb (IsInVtIoMode c) && changed); reflexivity.
Qed.

Definition output0 : OutputState := mkOutput 7 1 true false 0.

Lemma output_mode_set_witness :
  SetConsoleOutputModeImpl 64 output0 console0
  = ((E_INVALIDARG, output0), console0) /\
  StateMachineResets
    (snd (fst (SetConsoleOutputModeImpl 3 output0 console0))) = 1.
Proof.
  assert (H64 : 0 <= 64 < 2 ^ 32) by lia.
  assert (H3 : 0 <= 3 < 2 ^ 32) by lia.
  split.
  - apply (proj1 (output_mode_set 64 output0 console0 H64)). lia.
  - destruct (proj2 (output_mode_set 3 output0 console0 H3))
      as (_ & _ & _ & _ & _ & Hresets & _); [lia |].
    exact Hresets.
Defined.

Section ColorTableFacts.

Variable hr_of_exception : HRESULT.
Variable Xterm256ToWindowsIndex : Z -> Z.

Let Get := DoSrvPrivateGetColorTableEntry
             hr_of_exception Xterm256ToWindowsIndex.
Let Set_ := DoSrvPrivateSetColorTableEntry
              hr_of_exception Xterm256ToWindowsIndex.

(** X13.  A color written at an index below 256 that the index
    translation sends into the table is read back at that index; the
    entries at indices translated elsewhere read as before; the table
    keeps its length, and the screen buffer and the lock are not
    touched. *)
Theorem color_table_read_back index value c :
  index < 256 ->
  0 <= Xterm256ToWindowsIndex index < Z.of_nat (length (ColorTable c)) ->
  let r := Set_ index value c in
  fst r = S_OK /\
  Get index (snd r) = (S_OK, Some value) /\
  (forall other,
     Xterm256ToWindowsIndex other <> Xterm256ToWindowsIndex index ->
     Get other (snd r) = Get other c) /\
  length (ColorTable (snd r)) = length (ColorTable c) /\
  Screen (snd r) = Screen c /\
  LockDepth (snd r) = LockDepth c.
Proof.
  intros Hindex Hrange r.
  assert (Hr : fst r = S_OK /\
               ColorTable (snd r)
               = <[Z.to_nat (Xterm256ToWindowsIndex index) := value]>
                   (ColorTable c) /\
               Screen (snd r) = Screen c /\
               LockDepth (snd r) = LockDepth c).
  { subst r. unfold Set_, DoSrvPrivateSetColorTableEntry.
    destruct (Z.geb_spec index 256) as [Hge | _]; [lia |].
    unfold SetColorTableEntry.
    destruct (Z.leb_spec 0 (Xterm256ToWindowsIndex index)); [| lia].
    destruct (Z.ltb_spec (Xterm256ToWindowsIndex index)
                         (Z.of_nat (length (ColorTable c)))); [| lia].
    cbn [andb fst snd].
    destruct (HasRenderer _ && negb (IsInVtIoMode _));
      repeat split; reflexivity. }
  destruct Hr as (Hhr & Htable & Hscreen & Hlock).
  repeat split; try assumption.
  - unfold Get, DoSrvPrivateGetColorTableEntry.
    destruct (Z.geb_spec index 256) as [Hge | _]; [lia |].
    unfold GetColorTableEntry. rewrite Htable, length_insert.
    destruct (Z.leb_spec 0 (Xterm256ToWindowsIndex index)); [| lia].
    destruct (Z.ltb_spec (Xterm256ToWindowsIndex index)
                         (Z.of_nat (length (ColorTable c)))); [| lia].
    cbn [andb]. rewrite list_lookup_insert_eq by lia. reflexivity.
  - intros other Hother. unfold Get, DoSrvPrivateGetColorTableEntry.
    destruct (other >=? 256); [reflexivity |].
    unfold GetColorTableEntry. rewrite Htable, length_insert.
    destruct (Z.leb_spec 0 (Xterm256ToWindowsIndex other));
      [| reflexivity].
    destruct (Z.ltb_spec (Xterm256ToWindowsIndex other)
                         (Z.of_nat (length (ColorTable c))));
      [| reflexivity].
    cbn [andb]. rewrite list_lookup_insert_ne by lia. reflexivity.
  - rewrite Htable. apply length_insert.
Qed.

End ColorTableFacts.

Lemma color_table_read_back_witness :
  DoSrvPrivateGetColorTableEntry E_INVALIDARG (fun i => i) 1
    (snd (DoSrvPrivateSetColorTableEntry E_INVALIDARG (fun i => i)
            1 255 console0))
  = (S_OK, Some 255).
Proof.
  apply (color_table_read_back E_INVALIDARG (fun i => i) 1 255 console0).
  - lia.
  - vm_compute. split; [discriminate | reflexivity].
Defined.

(** ** The viewport that follows the cursor *)

(** [origin] is where the inclusive rectangle [view] has to be moved,
    by as little as possible, for the position [p] to lie in it. *)
Definition follows (view : SMALL_RECT) (p origin : COORD) : Prop :=
  (X p < Left view -> X origin = X p) /\
  (Left view <= X p <= Right view -> X origin = Left view) /\
  (Right view < X p -> X origin + (Right view - Left view) = X p) /\
  (Y p < Top view -> Y origin = Y p) /\
  (Top view <= Y p <= Bottom view -> Y origin = Top view) /\
  (Bottom view < Y p -> Y origin + (Bottom view - Top view) = Y p).

Lemma follows_contains view p origin :
  Left view <= Right view -> Top view <= Bottom view ->
  follows view p origin ->
  X origin <= X p <= X origin + (Right view - Left view) /\
  Y origin <= Y p <= Y origin + (Bottom view - Top view).
Proof.
  unfold follows. lia.
Qed.

Section ViewportFacts.

Variable VtIo_SetCursorPosition : COORD -> Console -> HRESULT * Console.
Variable Screen_SetCursorPosition :
  COORD -> bool -> Console -> NTSTATUS * Console.
Variable ConsoleImeResizeCompStrView : Console -> HRESULT * Console.
Variable SetViewportOrigin :
  bool -> COORD -> bool -> Console -> NTSTATUS * Console.

(** X14.  When the position is inside the buffer and the two calls
    that place the cursor succeed, [SetConsoleCursorPositionImpl] asks
    for the viewport (the virtual one in terminal-scrolling mode) to be
    moved by as little as brings the cursor into it, not at all when
    the cursor is already inside, and answers with the outcome of that
    request.  The viewport is taken to lie at non-negative
    coordinates. *)
Theorem viewport_follows_cursor position c hr c1 status c2 :
  0 <= X position < X (BufferSize (Screen c)) ->
  0 <= Y position < Y (BufferSize (Screen c)) ->
  X position <= SHORT_MAX -> Y position <= SHORT_MAX ->
  VtIo_SetCursorPosition position (LockConsole c) = (hr, c1) ->
  SUCCEEDED hr = true ->
  Screen_SetCursorPosition position true c1 = (status, c2) ->
  NT_SUCCESS status = true ->
  let c3 := snd (ConsoleImeResizeCompStrView c2) in
  let view :=
    if IsTerminalScrolling c3
    then VirtualViewport (Screen c3) else Viewport (Screen c3) in
  0 <= Left view <= Right view -> Right view <= SHORT_MAX ->
  0 <= Top view <= Bottom view -> Bottom view <= SHORT_MAX ->
  exists origin,
    follows view position origin /\
    SetConsoleCursorPositionImpl
      VtIo_SetCursorPosition Screen_SetCursorPosition
      ConsoleImeResizeCompStrView SetViewportOrigin position c
    = (let '(status', c4) := SetViewportOrigin true origin true c3 in
       (if NT_SUCCESS status' then S_OK else HRESULT_FROM_NT status',
        UnlockConsole c4)).
Proof.
  intros HX HY HXs HYs Hvt Hhr Hscr Hstatus c3 view Hh Hr Hv Hb.
  unfold SHORT_MAX in *.
  unfold SetConsoleCursorPositionImpl, locked.
  change (BufferSize (Screen (LockConsole c)))
    with (BufferSize (Screen c)).
  destruct (Z.geb_spec (X position) (X (BufferSize (Screen c))));
    [lia |].
  destruct (Z.geb_spec (Y position) (Y (BufferSize (Screen c))));
    [lia |].
  destruct (Z.ltb_spec (X position) 0); [lia |].
  destruct (Z.ltb_spec (Y position) 0); [lia |].
  cbn [orb]. rewrite Hvt, Hhr. cbn [negb]. rewrite Hscr, Hstatus.
  cbn [negb]. fold c3. fold view. cbv zeta.
  set (deltaX := if Left view >? X position then _ else _).
  set (deltaY := if Top view >? Y position then _ else _).
  exists (mkCOORD (to_SHORT (Left view + deltaX))
                  (to_SHORT (Top view + deltaY))).
  split.
  - assert (HdX : (X position < Left view /\ deltaX = X position - Left view)
                  \/ (Left view <= X position <= Right view /\ deltaX = 0)
                  \/ (Right view < X position
                      /\ deltaX = X position - Right view)).
    { subst deltaX.
      destruct (Z.gtb_spec (Left view) (X position)).
      - left. split; [lia |]. apply to_SHORT_id.
        unfold is_SHORT, SHORT_MIN, SHORT_MAX. lia.
      - destruct (Z.ltb_spec (Right view) (X position)).
        + right. right. split; [lia |]. apply to_SHORT_id.
          unfold is_SHORT, SHORT_MIN, SHORT_MAX. lia.
        + right. left. split; [lia | reflexivity]. }
    assert (HdY : (Y position < Top view /\ deltaY = Y position - Top view)
                  \/ (Top view <= Y position <= Bottom view /\ deltaY = 0)
                  \/ (Bottom view < Y position
                      /\ deltaY = Y position - Bottom view)).
    { subst deltaY.
      destruct (Z.gtb_spec (Top view) (Y position)).
      - left. split; [lia |]. apply to_SHORT_id.
        unfold is_SHORT, SHORT_MIN, SHORT_MAX. lia.
      - destruct (Z.ltb_spec (Bottom view) (Y position)).
        + right. right. split; [lia |]. apply to_SHORT_id.
          unfold is_SHORT, SHORT_MIN, SHORT_MAX. lia.
        + right. left. split; [lia | reflexivity]. }
    clearbody deltaX deltaY.
    unfold follows. cbn [X Y].
    rewrite !to_SHORT_id
      by (unfold is_SHORT, SHORT_MIN, SHORT_MAX; lia).
    lia.
  - destruct (SetViewportOrigin true _ true c3) as [status' c4].
    destruct (NT_SUCCESS status'); reflexivity.
Qed.

End ViewportFacts.

(** A buffer of 300 rows with rows 0 to 24 in view. *)
Definition console_tall : Console :=
  mkConsole 0 false false false true 0 (repeat 0 256)
    (mkScreen (mkCOORD 80 300) (mkRECT 0 0 79 24) (mkRECT 0 0 79 24)
              (mkCOORD 1 1) (mkCOORD 3 0) []).

Lemma viewport_follows_cursor_witness :
  exists origin,
    follows (mkRECT 0 0 79 24) (mkCOORD 5 100) origin /\
    Y origin = 76 /\
    SetConsoleCursorPositionImpl
      (fun _ => no_hr) (fun _ _ => no_nt) no_hr (fun _ _ _ => no_nt)
      (mkCOORD 5 100) console_tall
    = (S_OK, console_tall).
Proof.
  pose proof (viewport_follows_cursor
                (fun _ => no_hr) (fun _ _ => no_nt) no_hr
                (fun _ _ _ => no_nt)
                (mkCOORD 5 100) console_tall
                S_OK (LockConsole console_tall)
                STATUS_SUCCESS (LockConsole console_tall)
                ltac:(cbn; lia) ltac:(cbn; lia)
                ltac:(cbn; unfold SHORT_MAX; lia)
                ltac:(cbn; unfold SHORT_MAX; lia)
                ltac:(reflexivity) ltac:(reflexivity)
                ltac:(reflexivity) ltac:(reflexivity)) as H.
  cbv zeta in H.
  destruct H as (origin & Hfollows & Hcall);
    try (cbn; unfold SHORT_MAX; lia).
  exists origin. split; [exact Hfollows |]. split.
  - destruct Hfollows as (_ & _ & _ & _ & _ & Hbelow).
    cbn in Hbelow. lia.
  - rewrite Hcall. reflexivity.
Defined.

(** ** The title *)

Section TitleFacts.

Variable SetTitle : list Z -> Console -> Console.







End TitleFacts.

End GetSetMore.

(** * More of TextColor.h: comparison *)

Module ColorMore.
Import Win Color.

Definition ColorType_eqb (a b : ColorType) : bool :=
  match a, b with
  | IsIndex256, IsIndex256 | IsIndex16, IsIndex16
  | IsDefault, IsDefault | IsRgb, IsRgb => true
  | _, _ => false
  end.

(** [operator==] and [operator!=] of the header. *)
Definition TextColor_eq (a b : TextColor) : bool :=
  ColorType_eqb (_meta a) (_meta b)
  && (_red a =? _red b)
  && (_green a =? _green b)
  && (_blue a =? _blue b).

Definition TextColor_ne (a b : TextColor) : bool := negb (TextColor_eq a b).

(** The three bytes that the constructor keeps of a [COLORREF] are its
    24 low bits. *)
Lemma bytes_low24 (x y : COLORREF) :
  GetRValue x = GetRValue y /\ GetGValue x = GetGValue y
  /\ GetBValue x = GetBValue y
  <-> Z.land x 16777215 = Z.land y 16777215.
Proof.
  unfold GetRValue, GetGValue, GetBValue.
  change 16777215 with (Z.ones 24). change 255 with (Z.ones 8).
  split.
  - intros (Hr & Hg & Hb). apply Z.bits_inj'. intros n Hn.
    rewrite !Z.land_spec.
    destruct (Z.lt_ge_cases n 24) as [Hlt | Hge];
      [| rewrite Z.ones_spec_high by lia; rewrite !andb_false_r;
         reflexivity].
    rewrite Z.ones_spec_low by lia. rewrite !andb_true_r.
    destruct (Z.lt_ge_cases n 8) as [H8 | H8].
    + apply (f_equal (fun z => Z.testbit z n)) in Hr.
      rewrite !Z.land_spec, Z.ones_spec_low, !andb_true_r in Hr by lia.
      exact Hr.
    + destruct (Z.lt_ge_cases n 16) as [H16 | H16].
      * apply (f_equal (fun z => Z.testbit z (n - 8))) in Hg.
        rewrite !Z.land_spec, !Z.shiftr_spec, Z.ones_spec_low,
          !andb_true_r in Hg by lia.
        replace (n - 8 + 8) with n in Hg by lia. exact Hg.
      * apply (f_equal (fun z => Z.testbit z (n - 16))) in Hb.
        rewrite !Z.land_spec, !Z.shiftr_spec, Z.ones_spec_low,
          !andb_true_r in Hb by lia.
        replace (n - 16 + 16) with n in Hb by lia. exact Hb.
  - intros H24.
    assert (Hbit : forall n, 0 <= n < 24 -> Z.testbit x n = Z.testbit y n).
    { intros n Hn.
      apply (f_equal (fun z => Z.testbit z n)) in H24.
      rewrite !Z.land_spec, Z.ones_spec_low, !andb_true_r in H24 by lia.
      exact H24. }
    repeat split; apply Z.bits_inj'; intros n Hn;
      rewrite !Z.land_spec, ?Z.shiftr_spec by lia;
      (destruct (Z.lt_ge_cases n 8) as [H8 | H8];
       [rewrite Hbit by lia; reflexivity
       | rewrite Z.ones_spec_high by lia; rewrite !andb_false_r;
         reflexivity]).
Qed.

(** X16.  [operator==] on what the constructors build: two RGB colors
    are equal exactly when the [COLORREF]s agree on their 24 low bits
    (the top byte is not kept); two indexed colors exactly when the
    table agrees and the indices agree as [BYTE]s, that is modulo 256,
    so that index 300 gives the color of index 44, and for indices from
    0 to 255 exactly when they are the same; the default color equals
    itself; and colors of two different kinds are never equal, whatever
    they hold.  [operator!=] is the negation. *)
Theorem TextColor_eq_constructors :
  (forall x y,
     TextColor_eq (TextColor_rgb x) (TextColor_rgb y) = true
     <-> Z.land x 16777215 = Z.land y 16777215) /\
  (forall i j b b',
     (TextColor_eq (TextColor_index i b) (TextColor_index j b') = true
      <-> i mod 256 = j mod 256 /\ b = b') /\
     (0 <= i <= 255 -> 0 <= j <= 255 ->
      (TextColor_eq (TextColor_index i b) (TextColor_index j b') = true
       <-> i = j /\ b = b'))) /\
  TextColor_eq TextColor_default TextColor_default = true /\
  (forall x i b,
     TextColor_eq (TextColor_rgb x) (TextColor_index i b) = false /\
     TextColor_eq (TextColor_rgb x) TextColor_default = false /\
     TextColor_eq (TextColor_index i b) TextColor_default = false) /\
  (forall a b,
     TextColor_eq a b = TextColor_eq b a /\
     TextColor_ne a b = negb (TextColor_eq a b) /\
     (TextColor_eq a b = true <-> a = b)).
Proof.
  split; [| split; [| split; [| split]]].
  - intros x y. rewrite <- bytes_low24.
    unfold TextColor_eq, TextColor_rgb. cbn [_meta _red _green _blue].
    cbn [ColorType_eqb andb].
    rewrite !andb_true_iff, !Z.eqb_eq. tauto.
  - intros i j b b'.
    assert (Hmod :
      TextColor_eq (TextColor_index i b) (TextColor_index j b') = true
      <-> i mod 256 = j mod 256 /\ b = b').
    { unfold TextColor_eq, TextColor_index, to_BYTE.
      cbn [_meta _red _green _blue].
      rewrite !andb_true_iff, !Z.eqb_eq.
      destruct b, b'; cbn [ColorType_eqb]; intuition congruence. }
    split; [exact Hmod |].
    intros Hi Hj. rewrite Hmod.
    rewrite (Z.mod_small i 256), (Z.mod_small j 256) by lia.
    reflexivity.
  - reflexivity.
  - intros x i b. unfold TextColor_eq, TextColor_rgb, TextColor_index,
      TextColor_default. cbn [_meta]. destruct b; repeat split.
  - intros a b. split; [| split; [reflexivity |]].
    + unfold TextColor_eq. rewrite (Z.eqb_sym (_red a)),
        (Z.eqb_sym (_green a)), (Z.eqb_sym (_blue a)).
      destruct (_meta a), (_meta b); reflexivity.
    + destruct a as [ma ra ga ba], b as [mb rb gb bb].
      unfold TextColor_eq. cbn [_meta _red _green _blue].
      rewrite !andb_true_iff, !Z.eqb_eq. split.
      * intros (((Hm & ->) & ->) & ->).
        destruct ma, mb; try discriminate Hm; reflexivity.
      * intros Heq. injection Heq as -> -> -> ->.
        destruct mb; repeat split.
Qed.

End ColorMore.

(** * More of TerminalDispatch.cpp: the cursor position *)

Module DispatchMore.
Import Win Dispatch.

(** X17.  [CursorPosition] takes a line and a column counted from one,
    as [size_t]s.  If either is above [SHORT_MAX] the terminal is not
    reached and the answer is [false]; otherwise the terminal is asked,
    once, for column - 1 and line - 1 in that order, the subtraction
    never failing, so that a line or column of zero arrives as -1. *)
Theorem CursorPosition_reaches (T : Type) (api : Api.ITerminalApi T)
    (line column : Z) (s : T) :
  0 <= line -> 0 <= column ->
  CursorPosition line column s
  = if (column <=? SHORT_MAX) && (line <=? SHORT_MAX)
    then catch_false (Api.SetCursorPosition (column - 1) (line - 1)) s
    else (false, s).
Proof.
  intros Hline Hcolumn. unfold CursorPosition.
  destruct ((column <=? SHORT_MAX) && (line <=? SHORT_MAX));
    [| reflexivity].
  cbv zeta. unfold SHORT_MIN.
  destruct (Z.leb_spec (-32768) (column - 1)); [| lia].
  destruct (Z.leb_spec (-32768) (line - 1)); [| lia].
  reflexivity.
Qed.

(** Line 0, column 0 on the recording terminal. *)
Lemma CursorPosition_reaches_witness :
  CursorPosition (api := Recorder (fun _ => true) (fun _ => false))
    0 0 []
  = (true, [C_SetCursorPosition (-1) (-1)]).
Proof.
  rewrite (CursorPosition_reaches (list ApiCall)
             (Recorder (fun _ => true) (fun _ => false)) 0 0 []
             ltac:(lia) ltac:(lia)).
  reflexivity.
Defined.

End DispatchMore.

(** * renderer/vt/math.cpp: the union of two rectangles *)

Module VtMath.
Import Win.

(** [VtEngine::_OrRect]; the result is what [pRectExisting] points to
    afterwards. *)
Definition _OrRect (pRectExisting pRectToOr : SMALL_RECT) : SMALL_RECT :=
  mkRECT (Z.min (Left pRectExisting) (Left pRectToOr))
         (Z.min (Top pRectExisting) (Top pRectToOr))
         (Z.max (Right pRectExisting) (Right pRectToOr))
         (Z.max (Bottom pRectExisting) (Bottom pRectToOr)).

(** [inner] lies in [outer], both inclusive. *)
Definition encompasses (outer inner : SMALL_RECT) : Prop :=
  Left outer <= Left inner /\ Top outer <= Top inner /\
  Right inner <= Right outer /\ Bottom inner <= Bottom outer.

(** X18.  [_OrRect] extends the existing rectangle to the least one
    that encompasses both: it encompasses each of the two, lies in
    every rectangle that does, changes nothing when the added
    rectangle already lies in the existing one, and does not depend on
    the order in which rectangles are added. *)
Theorem OrRect_least (a b : SMALL_RECT) :
  encompasses (_OrRect a b) a /\
  encompasses (_OrRect a b) b /\
  (forall r, encompasses r a -> encompasses r b ->
             encompasses r (_OrRect a b)) /\
  (encompasses a b -> _OrRect a b = a) /\
  _OrRect a b = _OrRect b a /\
  (forall c, _OrRect (_OrRect a b) c = _OrRect a (_OrRect b c)).
Proof.
  destruct a as [al at_ ar ab], b as [bl bt br bb].
  unfold encompasses, _OrRect. cbn [Left Top Right Bottom].
  split; [lia |]. split; [lia |]. split; [| split; [| split]].
  - intros r. lia.
  - intros H. f_equal; lia.
  - f_equal; lia.
  - intros [cl ct cr cb]. cbn [Left Top Right Bottom]. f_equal; lia.
Qed.

End VtMath.
